(** * Asimov reader: highlight store, highlight handlers, panel filter, preload

    A shallow embedding of the highlight-related code of the Asimov EPUB
    reader:

    - [app/utils/db] (the IndexedDB wrapper: [addHighlight],
      [getHighlightsByBook], [updateHighlight], [deleteHighlight],
      [getAllHighlights], [addBook], [deleteBook]);
    - [app/routes/books.$bookId.tsx] (the handlers
      [handleHighlightSelection], [handleRemoveHighlight],
      [handleRemoveHighlightById]);
    - [app/components/HighlightsPanel.tsx] ([filteredHighlights]);
    - [app/utils/preload.ts] ([preloadBook]).

    Asynchronous functions are modelled as computations in a state and
    exception monad over one [World]: the browser database, the rendering
    engine's annotations, [localStorage], the console and the component state.
    Everything the code cannot control (the clock, storage failures, the
    rendering engine's failures, the network, generated ids) is read from
    oracles held in the world's [Env]. One handler runs to completion without
    interleaving with another. *)

From Stdlib Require Import ZArith String Ascii List Permutation Sorted Lia.
From stdpp Require Import gmap strings list fin_maps sorting.

Local Open Scope Z_scope.

(** ** JavaScript strings in the data model

    Ids, position references, texts and notes are kept as sequences of 8-bit
    units. The functions below look at no unit other than ['/']. The filter of
    the highlights panel, which lower-cases and trims, is modelled on UTF-16
    code units further down. *)
Module Js.

(** Truthiness of a string: only the empty string is falsy. *)
Definition truthy (s : string) : bool :=
  match s with EmptyString => false | _ => true end.

(** Truthiness of a [string | null] value. *)
Definition truthy_opt (o : option string) : bool :=
  match o with Some s => truthy s | None => false end.

(** [path.split('/').pop()]: the code units after the last ['/'] (the whole
    string when there is none). *)
Fixpoint has_slash (s : string) : bool :=
  match s with
  | EmptyString => false
  | String c s' => Ascii.eqb c "/"%char || has_slash s'
  end.

Fixpoint last_segment (s : string) : string :=
  match s with
  | EmptyString => EmptyString
  | String _ s' => if has_slash s then last_segment s' else s
  end.

End Js.

(** ** Data model ([app/utils/db]) *)

(** A [Date] is its time value: milliseconds since the epoch. *)
Abbreviation Date := Z (only parsing).

(** A [Blob] is its content. *)
Abbreviation Blob := string (only parsing).

Record Location := {
  loc_start : string;
  loc_end : string;
  (* the engine's fraction read, never inspected by the code modelled here *)
  percentage : Z;
}.

Module Book.
Record t := mk {
  id : string;
  title : string;
  authors : list string;
  markdown : string;
  locations : string;
  file : Blob;
  cover : Blob;
  createdAt : Date;
  updatedAt : Date;
  location : option Location;
}.
End Book.

Module Highlight.
Record t := mk {
  id : string;        (* unique id, the key of the object store *)
  bookId : string;    (* foreign key to Book *)
  cfiRange : string;  (* position reference produced by the engine *)
  text : string;
  color : string;
  note : option string;
  createdAt : Date;
  updatedAt : Date;
}.

(** In-place assignments [highlight.createdAt = d], [highlight.updatedAt = d]. *)
Definition set_createdAt (d : Date) (h : t) : t :=
  mk (id h) (bookId h) (cfiRange h) (text h) (color h) (note h) d (updatedAt h).
Definition set_updatedAt (d : Date) (h : t) : t :=
  mk (id h) (bookId h) (cfiRange h) (text h) (color h) (note h) (createdAt h) d.

#[global] Instance eq_dec : EqDecision t.
Proof. solve_decision. Defined.
End Highlight.

(** A [File] built from a blob and a name. *)
Record File := { file_blob : Blob; file_name : string; file_type : string }.

(** ** Exceptions, the console and the log of effects *)

Inductive Exn :=
  | DOMException (name : string)   (* a rejected IndexedDB request *)
  | Error (message : string)       (* [new Error(message)] *)
  | TypeError (message : string).  (* a member access on [null] *)

Inductive LogEntry :=
  | console_log (label : string) (arg : string)
  | console_error (label : string) (e : Exn).

(** The effects on the store and on the rendering engine that took place, in
    the order they took place. *)
Inductive Effect :=
  | StorePut (store key : string)
  | StoreDelete (store key : string)
  | OverlayAdd (cfiRange id : string)
  | OverlayRemove (cfiRange : string).

#[global] Instance Effect_eq_dec : EqDecision Effect.
Proof. solve_decision. Defined.

(** ** The rendering engine's annotations

    [rendition.annotations] keeps one annotation per position reference and
    type; the code only ever uses the type ['highlight'], so the map is keyed
    by the position reference. The click handler is a closure and is left out. *)
Record Annotation := {
  ann_type : string;
  ann_cfiRange : string;
  ann_data_id : string;
  ann_className : string;
  ann_fill : string;
}.

(** ** Component state of [BookViewer]: the [useState]s that the handlers
    modelled below read or write *)
Record ViewerState := {
  selectionCfiRange : option string;
  selectionText : option string;
  showHighlightPopup : bool;
  currentBookHighlights : list Highlight.t;
  activeHighlightId : option string;
  activeHighlightCfiRange : option string;
}.

(** ** The environment *)

Inductive FetchOutcome :=
  | FetchRejected (e : Exn)
  | FetchResponse (ok : bool) (statusText : string) (body : Exn + Blob).

Record Env := {
  (* the n-th reading of the clock ([new Date()], [Date.now()]) *)
  clock : nat -> Z;
  (* whether the n-th IndexedDB request is rejected, and with what *)
  idb_fault : nat -> option Exn;
  (* whether the n-th call into the rendering engine throws *)
  engine_fault : nat -> option Exn;
  (* the n-th id produced by [uuidv4()] *)
  uuid : nat -> string;
  (* what [fetch(path)] resolves to *)
  fetch_outcome : string -> FetchOutcome;
  (* [parseEpub] (app/utils/epub), which is not part of the modelled code *)
  parseEpub_outcome : File -> Exn + Book.t;
}.

Record World := {
  env : Env;
  ticks : nat;          (* clock readings taken so far *)
  requests : nat;       (* IndexedDB requests made so far *)
  engine_calls : nat;   (* calls into the rendering engine so far *)
  uuids : nat;          (* ids generated so far *)
  books : gmap string Book.t;            (* object store 'books' *)
  highlights : gmap string Highlight.t;  (* object store 'highlights' *)
  localStorage : gmap string string;
  bookRef : bool;                                  (* [bookRef.current] is set *)
  renditionRef : option (gmap string Annotation);  (* [renditionRef.current] *)
  ui : ViewerState;
  console : list LogEntry;
  trace : list Effect;
}.

Section Setters.
Variable w : World.

Definition tick : World :=
  Build_World (env w) (S (ticks w)) (requests w) (engine_calls w) (uuids w)
    (books w) (highlights w) (localStorage w) (bookRef w) (renditionRef w)
    (ui w) (console w) (trace w).
Definition count_request : World :=
  Build_World (env w) (ticks w) (S (requests w)) (engine_calls w) (uuids w)
    (books w) (highlights w) (localStorage w) (bookRef w) (renditionRef w)
    (ui w) (console w) (trace w).
Definition count_engine_call : World :=
  Build_World (env w) (ticks w) (requests w) (S (engine_calls w)) (uuids w)
    (books w) (highlights w) (localStorage w) (bookRef w) (renditionRef w)
    (ui w) (console w) (trace w).
Definition count_uuid : World :=
  Build_World (env w) (ticks w) (requests w) (engine_calls w) (S (uuids w))
    (books w) (highlights w) (localStorage w) (bookRef w) (renditionRef w)
    (ui w) (console w) (trace w).
Definition set_books (b : gmap string Book.t) : World :=
  Build_World (env w) (ticks w) (requests w) (engine_calls w) (uuids w)
    b (highlights w) (localStorage w) (bookRef w) (renditionRef w)
    (ui w) (console w) (trace w).
Definition set_highlights (h : gmap string Highlight.t) : World :=
  Build_World (env w) (ticks w) (requests w) (engine_calls w) (uuids w)
    (books w) h (localStorage w) (bookRef w) (renditionRef w)
    (ui w) (console w) (trace w).
Definition set_localStorage (l : gmap string string) : World :=
  Build_World (env w) (ticks w) (requests w) (engine_calls w) (uuids w)
    (books w) (highlights w) l (bookRef w) (renditionRef w)
    (ui w) (console w) (trace w).
Definition set_renditionRef (r : option (gmap string Annotation)) : World :=
  Build_World (env w) (ticks w) (requests w) (engine_calls w) (uuids w)
    (books w) (highlights w) (localStorage w) (bookRef w) r
    (ui w) (console w) (trace w).
Definition set_ui (s : ViewerState) : World :=
  Build_World (env w) (ticks w) (requests w) (engine_calls w) (uuids w)
    (books w) (highlights w) (localStorage w) (bookRef w) (renditionRef w)
    s (console w) (trace w).
Definition log_console (e : LogEntry) : World :=
  Build_World (env w) (ticks w) (requests w) (engine_calls w) (uuids w)
    (books w) (highlights w) (localStorage w) (bookRef w) (renditionRef w)
    (ui w) (console w ++ [e]) (trace w).
Definition record_effect (e : Effect) : World :=
  Build_World (env w) (ticks w) (requests w) (engine_calls w) (uuids w)
    (books w) (highlights w) (localStorage w) (bookRef w) (renditionRef w)
    (ui w) (console w) (trace w ++ [e]).
End Setters.

(** ** The monad of asynchronous computations

    A computation runs on a world and either returns or throws (a rejected
    promise); the changes made before a throw stay. *)
Inductive Outcome (A : Type) :=
  | Return (a : A)
  | Throw (e : Exn).
Arguments Return {A} a.
Arguments Throw {A} e.

Definition M (A : Type) : Type := World -> Outcome A * World.

#[global] Instance M_ret : MRet M := fun A a w => (Return a, w).
#[global] Instance M_bind : MBind M := fun A B f m w =>
  match m w with
  | (Return a, w') => f a w'
  | (Throw e, w') => (Throw e, w')
  end.
#[global] Instance M_throw : MThrow Exn M := fun A e w => (Throw e, w).

(** [try { body } catch (error) { handler(error) }] *)
Definition try_catch {A} (body : M A) (handler : Exn -> M A) : M A :=
  fun w =>
    match body w with
    | (Return a, w') => (Return a, w')
    | (Throw e, w') => handler e w'
    end.

Definition gets {A} (f : World -> A) : M A := fun w => (Return (f w), w).
Definition modify (f : World -> World) : M unit := fun w => (Return tt, f w).

(** [new Date()] and [Date.now()]: the next reading of the clock. *)
Definition newDate : M Date :=
  fun w => (Return (clock (env w) (ticks w)), tick w).

(** [uuidv4()] *)
Definition uuidv4 : M string :=
  fun w => (Return (uuid (env w) (uuids w)), count_uuid w).

(** One awaited IndexedDB request: it is rejected when the environment says
    so, before it has any effect. *)
Definition request : M unit :=
  fun w =>
    match idb_fault (env w) (requests w) with
    | Some e => (Throw e, count_request w)
    | None => (Return tt, count_request w)
    end.

Definition console_error_ (label : string) (e : Exn) : M unit :=
  modify (fun w => log_console w (console_error label e)).
Definition console_log_ (label arg : string) : M unit :=
  modify (fun w => log_console w (console_log label arg)).

(** ** The IndexedDB object stores and their indexes

    An object store is a map from primary key to record. An index lists the
    records by index key and, among records with equal index keys, by primary
    key. Strings compare by code units, dates by time value and array keys
    item by item. *)
Module Idb.

(** [lex_le R f S]: compare by the component [f], in the order [R]; on
    equal components, compare in the order [S]. *)
Definition lex_le {A K} `{EqDecision K} (R : relation K) (f : A -> K)
    (S : relation A) : relation A :=
  fun a b => if decide (f a = f b) then S a b else R (f a) (f b).

#[global] Instance lex_le_dec {A K} `{EqDecision K} (R : relation K) (f : A -> K)
    (S : relation A) :
  (forall x y, Decision (R x y)) -> (forall a b, Decision (S a b)) ->
  RelDecision (lex_le R f S).
Proof. intros HR HS a b. unfold lex_le. destruct (decide (f a = f b)); auto. Defined.

(** Order of the array keys [[bookId, createdAt]]: by the string, then by the
    date. *)
Definition array_key_le : relation (string * Date) :=
  lex_le String.le fst (fun k1 k2 => k1.2 ≤ k2.2).

#[global] Instance array_key_le_dec : RelDecision array_key_le.
Proof. apply lex_le_dec; intros; apply _. Defined.

(** [IDBKeyRange.bound(lower, upper)]: both ends included. *)
Definition bound (lower upper k : string * Date) : Prop :=
  array_key_le lower k ∧ array_key_le k upper.

#[global] Instance bound_dec lower upper k : Decision (bound lower upper k).
Proof. unfold bound. apply _. Defined.

(** The entries of an index: by index key, then by primary key. *)
Definition index_le {K} `{EqDecision K} (key_le : relation K)
    (key : Highlight.t -> K) : relation Highlight.t :=
  lex_le key_le key (fun a b => String.le (Highlight.id a) (Highlight.id b)).

Definition records {V} (store : gmap string V) : list V := (map_to_list store).*2.

(** The index 'by-bookId-createdAt' of the store 'highlights', created in
    [initDB] with key path [['bookId', 'createdAt']]. *)
Definition by_bookId_createdAt_key (h : Highlight.t) : string * Date :=
  (Highlight.bookId h, Highlight.createdAt h).

Definition by_bookId_createdAt_le : relation Highlight.t :=
  index_le array_key_le by_bookId_createdAt_key.

#[global] Instance by_bookId_createdAt_le_dec : RelDecision by_bookId_createdAt_le.
Proof. apply lex_le_dec; intros; apply _. Defined.

Definition by_bookId_createdAt (store : gmap string Highlight.t) : list Highlight.t :=
  merge_sort by_bookId_createdAt_le (records store).

(** The index 'by-updatedAt' of the store 'highlights', with key path
    ['updatedAt']. *)
Definition by_updatedAt_le : relation Highlight.t :=
  index_le Z.le Highlight.updatedAt.

#[global] Instance by_updatedAt_le_dec : RelDecision by_updatedAt_le.
Proof. apply lex_le_dec; intros; apply _. Defined.

Definition by_updatedAt (store : gmap string Highlight.t) : list Highlight.t :=
  merge_sort by_updatedAt_le (records store).

(** [db.put('highlights', value)]: insert or replace under [value.id]. *)
Definition put_highlights (value : Highlight.t) : M string :=
  request ;;
  modify (fun w =>
    record_effect
      (set_highlights w (<[Highlight.id value := value]> (highlights w)))
      (StorePut "highlights" (Highlight.id value))) ;;
  mret (Highlight.id value).

(** [db.delete('highlights', key)]: no error when the key is absent. *)
Definition delete_highlights (key : string) : M unit :=
  request ;;
  modify (fun w =>
    record_effect (set_highlights w (delete key (highlights w)))
      (StoreDelete "highlights" key)).

(** [db.put('books', value)] and [db.delete('books', key)]. *)
Definition put_books (value : Book.t) : M string :=
  request ;;
  modify (fun w =>
    record_effect (set_books w (<[Book.id value := value]> (books w)))
      (StorePut "books" (Book.id value))) ;;
  mret (Book.id value).

Definition delete_books (key : string) : M unit :=
  request ;;
  modify (fun w =>
    record_effect (set_books w (delete key (books w))) (StoreDelete "books" key)).

(** [index.getAll(range)] on 'by-bookId-createdAt'. *)
Definition getAll_by_bookId_createdAt (lower upper : string * Date)
  : M (list Highlight.t) :=
  request ;;
  gets (fun w =>
    filter (fun h => bound lower upper (by_bookId_createdAt_key h))
      (by_bookId_createdAt (highlights w))).

(** [index.openCursor(null, 'prev')] on 'by-updatedAt': the records still to
    visit, last index entry first. *)
Definition openCursor_by_updatedAt_prev : M (list Highlight.t) :=
  request ;;
  gets (fun w => reverse (by_updatedAt (highlights w))).

End Idb.

(** ** [app/utils/db] *)

(** [openDB] with its [upgrade] callback, which creates the stores and indexes
    that do not exist yet: a store that was never created is the empty map. *)
Definition initDB : M unit := request.

(** The asynchronous functions below assign to fields of the record they are
    given; the caller keeps a reference to that record. They return it, as it
    is after the call, next to the value the promise resolves to. *)

Definition addHighlight (highlight : Highlight.t) : M (Highlight.t * string) :=
  initDB ;;
  created ← newDate ;
  let highlight := Highlight.set_createdAt created highlight in
  updated ← newDate ;
  let highlight := Highlight.set_updatedAt updated highlight in
  key ← Idb.put_highlights highlight ;
  mret (highlight, key).

Definition year_ms : Z := 1000 * 60 * 60 * 24 * 365.

Definition getHighlightsByBook (bookId : string) : M (list Highlight.t) :=
  initDB ;;
  now ← newDate ;
  highlights ← Idb.getAll_by_bookId_createdAt (bookId, 0) (bookId, now + year_ms) ;
  request ;;  (* await tx.done *)
  mret highlights.

Definition updateHighlight (highlight : Highlight.t) : M (Highlight.t * string) :=
  initDB ;;
  updated ← newDate ;
  let highlight := Highlight.set_updatedAt updated highlight in
  key ← Idb.put_highlights highlight ;
  mret (highlight, key).

Definition deleteHighlight (highlightId : string) : M unit :=
  initDB ;;
  Idb.delete_highlights highlightId.

(** The loop [while (cursor) { highlights.push(cursor.value); cursor = await
    cursor.continue(); }] of [getAllHighlights]. *)
Fixpoint cursor_loop (cursor : list Highlight.t) (highlights : list Highlight.t)
  : M (list Highlight.t) :=
  match cursor with
  | [] => mret highlights
  | value :: rest =>
      request ;;  (* await cursor.continue() *)
      cursor_loop rest (highlights ++ [value])
  end.

Definition getAllHighlights : M (list Highlight.t) :=
  initDB ;;
  cursor ← Idb.openCursor_by_updatedAt_prev ;
  highlights ← cursor_loop cursor [] ;
  request ;;  (* await tx.done *)
  mret highlights.

Definition addBook (book : Book.t) : M string :=
  initDB ;;
  Idb.put_books book.

Definition deleteBook (id : string) : M unit :=
  initDB ;;
  Idb.delete_books id.

(** ** The rendering engine ([renditionRef.current.annotations]) *)

Definition no_rendition : Exn :=
  TypeError "Cannot read properties of null (reading 'annotations')".

(** [annotations.add('highlight', cfiRange, { id }, handler, className,
    { fill, ... })]: registers the overlay under its position reference. *)
Definition annotations_add (cfiRange id className fill : string) : M unit :=
  fun w =>
    match renditionRef w with
    | None => (Throw no_rendition, w)
    | Some annotations =>
        match engine_fault (env w) (engine_calls w) with
        | Some e => (Throw e, count_engine_call w)
        | None =>
            let a := Build_Annotation "highlight" cfiRange id className fill in
            (Return tt,
             record_effect
               (set_renditionRef (count_engine_call w)
                  (Some (<[cfiRange := a]> annotations)))
               (OverlayAdd cfiRange id))
        end
    end.

(** [annotations.remove(cfiRange, 'highlight')]: an absent overlay is not an
    error of its own. *)
Definition annotations_remove (cfiRange : string) : M unit :=
  fun w =>
    match renditionRef w with
    | None => (Throw no_rendition, w)
    | Some annotations =>
        match engine_fault (env w) (engine_calls w) with
        | Some e => (Throw e, count_engine_call w)
        | None =>
            (Return tt,
             record_effect
               (set_renditionRef (count_engine_call w)
                  (Some (delete cfiRange annotations)))
               (OverlayRemove cfiRange))
        end
    end.

(** ** State setters of [BookViewer] *)

Definition setSelectionCfiRange (v : option string) : M unit :=
  modify (fun w => let s := ui w in set_ui w
    (Build_ViewerState v (selectionText s) (showHighlightPopup s)
       (currentBookHighlights s) (activeHighlightId s) (activeHighlightCfiRange s))).
Definition setSelectionText (v : option string) : M unit :=
  modify (fun w => let s := ui w in set_ui w
    (Build_ViewerState (selectionCfiRange s) v (showHighlightPopup s)
       (currentBookHighlights s) (activeHighlightId s) (activeHighlightCfiRange s))).
Definition setShowHighlightPopup (v : bool) : M unit :=
  modify (fun w => let s := ui w in set_ui w
    (Build_ViewerState (selectionCfiRange s) (selectionText s) v
       (currentBookHighlights s) (activeHighlightId s) (activeHighlightCfiRange s))).
(** [setCurrentBookHighlights(prev => f(prev))] *)
Definition setCurrentBookHighlights (f : list Highlight.t -> list Highlight.t) : M unit :=
  modify (fun w => let s := ui w in set_ui w
    (Build_ViewerState (selectionCfiRange s) (selectionText s) (showHighlightPopup s)
       (f (currentBookHighlights s)) (activeHighlightId s) (activeHighlightCfiRange s))).
Definition setActiveHighlightId (v : option string) : M unit :=
  modify (fun w => let s := ui w in set_ui w
    (Build_ViewerState (selectionCfiRange s) (selectionText s) (showHighlightPopup s)
       (currentBookHighlights s) v (activeHighlightCfiRange s))).
Definition setActiveHighlightCfiRange (v : option string) : M unit :=
  modify (fun w => let s := ui w in set_ui w
    (Build_ViewerState (selectionCfiRange s) (selectionText s) (showHighlightPopup s)
       (currentBookHighlights s) (activeHighlightId s) v)).

(** ** Handlers of [BookViewer] ([app/routes/books.$bookId.tsx])

    A handler is a closure over the state of the render that created it: [st]
    is that state; the setters act on the current state [ui]. *)

(** The object literal [newHighlightData] of [handleHighlightSelection]. *)
Definition newHighlightData (book_id cfiRange text color : string) : M Highlight.t :=
  id ← uuidv4 ;
  createdAt ← newDate ;
  updatedAt ← newDate ;
  mret (Highlight.mk id book_id cfiRange text color None createdAt updatedAt).

(** The [try] block of [handleHighlightSelection]. *)
Definition save_and_draw (selectionCfiRange color : string) (data : Highlight.t) : M unit :=
  '(data, _) ← addHighlight data ;
  setCurrentBookHighlights (fun prev => prev ++ [data]) ;;
  annotations_add selectionCfiRange (Highlight.id data) "custom-highlight" color ;;
  setShowHighlightPopup false ;;
  setSelectionCfiRange None ;;
  setSelectionText None.

Definition handleHighlightSelection (book_id : string) (st : ViewerState)
    (color : string) : M unit :=
  book ← gets bookRef ;
  rendition ← gets renditionRef ;
  match selectionCfiRange st, selectionText st, rendition with
  | Some cfiRange, Some text, Some _ =>
      if Js.truthy cfiRange && Js.truthy text && book then
        data ← newHighlightData book_id cfiRange text color ;
        try_catch (save_and_draw cfiRange color data)
          (fun error => console_error_ "Failed to save highlight:" error)
      else mret tt
  | _, _, _ => mret tt
  end.

Definition id_differs (id : string) (hl : Highlight.t) : bool :=
  negb (String.eqb (Highlight.id hl) id).

Definition handleRemoveHighlight (st : ViewerState) : M unit :=
  rendition ← gets renditionRef ;
  match activeHighlightId st, activeHighlightCfiRange st, rendition with
  | Some id, Some cfiRange, Some _ =>
      if Js.truthy id && Js.truthy cfiRange then
        try_catch
          (annotations_remove cfiRange ;;
           deleteHighlight id ;;
           setCurrentBookHighlights (List.filter (id_differs id)) ;;
           setShowHighlightPopup false ;;
           setActiveHighlightId None ;;
           setActiveHighlightCfiRange None)
          (fun error => console_error_ "Failed to remove highlight:" error)
      else mret tt
  | _, _, _ => mret tt
  end.

Definition handleRemoveHighlightById (st : ViewerState) (highlightId : string) : M unit :=
  let highlightToRemove :=
    List.find (fun hl => String.eqb (Highlight.id hl) highlightId)
      (currentBookHighlights st) in
  rendition ← gets renditionRef ;
  match highlightToRemove, rendition with
  | Some toRemove, Some _ =>
      try_catch
        (annotations_remove (Highlight.cfiRange toRemove) ;;
         deleteHighlight highlightId ;;
         setCurrentBookHighlights (List.filter (id_differs highlightId)) ;;
         if bool_decide (activeHighlightId st = Some highlightId) then
           setShowHighlightPopup false ;;
           setActiveHighlightId None ;;
           setActiveHighlightCfiRange None
         else mret tt)
        (fun error => console_error_ "Failed to remove highlight by ID:" error)
  | _, _ => mret tt
  end.

(** ** Strings as sequences of UTF-16 code units *)
Module Utf16.

Abbreviation str := (list N).

(** A string of the data model, unit by unit. *)
Definition of_string (s : string) : str :=
  List.map N_of_ascii (list_ascii_of_string s).

(** The code units [trim] strips: the white space TAB, VT, FF, SP, NBSP,
    U+1680, U+2000..U+200A, U+202F, U+205F, U+3000 and U+FEFF, and the line
    terminators LF, CR, U+2028 and U+2029. *)
Definition is_white_space (c : N) : bool :=
  ((9 <=? c) && (c <=? 13) || (c =? 32) || (c =? 160) || (c =? 5760)
   || (8192 <=? c) && (c <=? 8202) || (c =? 8232) || (c =? 8233)
   || (c =? 8239) || (c =? 8287) || (c =? 12288) || (c =? 65279))%N.

Fixpoint trimStart (s : str) : str :=
  match s with
  | [] => []
  | c :: s' => if is_white_space c then trimStart s' else s
  end.

Fixpoint trimEnd (s : str) : str :=
  match s with
  | [] => []
  | c :: s' =>
      match trimEnd s' with
      | [] => if is_white_space c then [] else [c]
      | r => c :: r
      end
  end.

Definition trim (s : str) : str := trimEnd (trimStart s).

(** Only the empty string is falsy. *)
Definition truthy (s : str) : bool :=
  match s with [] => false | _ => true end.

(** [s.startsWith(t)] *)
Fixpoint startsWith (s t : str) : bool :=
  match t, s with
  | [], _ => true
  | _ :: _, [] => false
  | a :: t', b :: s' => (a =? b)%N && startsWith s' t'
  end.

(** [s.includes(t)]: [t] occurs in [s] at some position. *)
Fixpoint includes (s t : str) : bool :=
  startsWith s t ||
  match s with
  | [] => false
  | _ :: s' => includes s' t
  end.

(** The letters A-Z, a-z and the Greek letters U+0391..U+03A9 (capital) and
    U+03B1..U+03C9 (small, with the final sigma U+03C2). *)
Definition is_capital (c : N) : bool :=
  ((65 <=? c) && (c <=? 90) || (913 <=? c) && (c <=? 937) && negb (c =? 930))%N.
Definition is_small (c : N) : bool :=
  ((97 <=? c) && (c <=? 122) || (945 <=? c) && (c <=? 969))%N.
Definition is_letter (c : N) : bool := is_capital c || is_small c.

Definition next_is_letter (s : str) : bool :=
  match s with
  | c :: _ => is_letter c
  | [] => false
  end.

(** [s.toLowerCase()] on strings made of these letters and of spaces: each
    capital becomes its small letter, 32 units further, except that a capital
    sigma (U+03A3) standing after a letter and not before a letter becomes the
    final sigma (U+03C2) instead of the small sigma (U+03C3). Strings with other
    code units are not in the domain of this function: the full mapping is a
    table of the engine; the statement on the filter is for every mapping. *)
Fixpoint lower_after (after_letter : bool) (s : str) : str :=
  match s with
  | [] => []
  | c :: rest =>
      (if (c =? 931)%N then
         if after_letter && negb (next_is_letter rest) then 962%N else 963%N
       else if is_capital c then (c + 32)%N else c)
      :: lower_after (is_letter c) rest
  end.

Definition toLowerCase_letters (s : str) : str := lower_after false s.

End Utf16.

(** ** [HighlightsPanel]: the [useMemo] that computes [filteredHighlights]

    The filter reads the text and the note of a highlight and nothing else; it
    is stated for any type of highlights with these two fields. The engine's
    [String.prototype.toLowerCase] is a parameter. *)
Section HighlightsPanel.
Context {H : Type} (text : H -> Utf16.str) (note : H -> option Utf16.str).
Variable toLowerCase : Utf16.str -> Utf16.str.

Definition highlight_matches (lowercasedSearchTerm : Utf16.str) (hl : H) : bool :=
  let textMatch := Utf16.includes (toLowerCase (text hl)) lowercasedSearchTerm in
  let noteMatch :=
    match note hl with
    | Some note => Utf16.includes (toLowerCase note) lowercasedSearchTerm
    | None => false
    end in
  textMatch || noteMatch.

Definition filteredHighlights (highlights : list H) (searchTerm : Utf16.str) : list H :=
  if negb (Utf16.truthy (Utf16.trim searchTerm)) then highlights
  else
    let lowercasedSearchTerm := toLowerCase searchTerm in
    List.filter (highlight_matches lowercasedSearchTerm) highlights.

End HighlightsPanel.

(** The two fields of a stored highlight, as the panel reads them. *)
Definition panel_text (hl : Highlight.t) : Utf16.str :=
  Utf16.of_string (Highlight.text hl).
Definition panel_note (hl : Highlight.t) : option Utf16.str :=
  Utf16.of_string <$> Highlight.note hl.

(** ** [preloadBook] ([app/utils/preload.ts]) *)

Definition localStorage_getItem (key : string) : M (option string) :=
  gets (fun w => localStorage w !! key).
Definition localStorage_setItem (key value : string) : M unit :=
  modify (fun w => set_localStorage w (<[key := value]> (localStorage w))).

Definition fetch (path : string) : M (bool * string * (Exn + Blob)) :=
  fun w =>
    match fetch_outcome (env w) path with
    | FetchRejected e => (Throw e, w)
    | FetchResponse ok statusText body => (Return (ok, statusText, body), w)
    end.

(** Awaiting something the environment decided: [response.blob()],
    [parseEpub(file)]. *)
Definition await {A} (r : Exn + A) : M A :=
  match r with
  | inl e => mthrow e
  | inr a => mret a
  end.

Definition parseEpub (file : File) : M Book.t :=
  fun w => await (parseEpub_outcome (env w) file) w.

Definition preloadBook (epubPath : string) : M unit :=
  item ← localStorage_getItem "preloadDone" ;
  let preloadDone := bool_decide (item = Some "true"%string) in
  if preloadDone then mret tt
  else
    try_catch
      ('(ok, statusText, body) ← fetch epubPath ;
       (if negb ok
        then mthrow (Error ("Failed to fetch EPUB file: " +:+ statusText))
        else mret tt) ;;
       blob ← await body ;
       let last := Js.last_segment epubPath in
       let fileName := if Js.truthy last then last else "book.epub"%string in
       let file := Build_File blob fileName "application/epub+zip" in
       book ← parseEpub file ;
       addBook book ;;
       console_log_ "Successfully preloaded book:" (Book.title book))
      (fun error => console_error_ "Error preloading book:" error) ;;
    localStorage_setItem "preloadDone" "true".


(** * Vocabulary of the statements *)

(** No IndexedDB request is rejected from the [n]-th on. *)
Definition storage_ok_from (e : Env) (n : nat) : Prop :=
  forall k, (n <= k)%nat -> idb_fault e k = None.

Definition storage_ok (w : World) : Prop := storage_ok_from (env w) (requests w).

(** The record [addHighlight] stores for [h] when run on [w]: [h] with both
    time stamps overwritten by the next two readings of the clock. *)
Definition stamp_created (w : World) (h : Highlight.t) : Highlight.t :=
  Highlight.set_updatedAt (clock (env w) (S (ticks w)))
    (Highlight.set_createdAt (clock (env w) (ticks w)) h).

(** What [getHighlightsByBook bookId] resolves to on [w]: the entries of the
    index for the book, created between the epoch and one year after the
    clock's next reading. *)
Definition book_range (w : World) (bookId : string) : list Highlight.t :=
  filter
    (fun h => Idb.bound (bookId, 0) (bookId, clock (env w) (ticks w) + year_ms)
                (Idb.by_bookId_createdAt_key h))
    (Idb.by_bookId_createdAt (highlights w)).

(** Creating the highlights [hs] one after the other. *)
Fixpoint create_all (hs : list Highlight.t) : M unit :=
  match hs with
  | [] => mret tt
  | h :: rest => addHighlight h ;; create_all rest
  end.

(** The records these creations store when the clock has been read [t] times
    before: each creation takes two readings, the first for [createdAt], the
    second for [updatedAt]. *)
Fixpoint created (e : Env) (t : nat) (hs : list Highlight.t) : list Highlight.t :=
  match hs with
  | [] => []
  | h :: rest =>
      Highlight.set_updatedAt (clock e (S t)) (Highlight.set_createdAt (clock e t) h)
      :: created e (S (S t)) rest
  end.

(** The store after a put of [h]. *)
Definition put_record (m : gmap string Highlight.t) (h : Highlight.t)
  : gmap string Highlight.t :=
  <[Highlight.id h := h]> m.

(** [t] occurs in [s] as it is, unit by unit. *)
Definition occurs (t s : Utf16.str) : Prop :=
  exists pre post, s = pre ++ t ++ post.

(** The lower-cased term occurs in the lower-cased text or note of the
    highlight. *)
Definition lowered_term_matches {H : Type} (text : H -> Utf16.str)
    (note : H -> option Utf16.str) (toLowerCase : Utf16.str -> Utf16.str)
    (term : Utf16.str) (hl : H) : Prop :=
  occurs (toLowerCase term) (toLowerCase (text hl)) \/
  exists n, note hl = Some n /\ occurs (toLowerCase term) (toLowerCase n).

(** The string is empty or made of white space only. *)
Definition blank (s : Utf16.str) : bool := forallb Utf16.is_white_space s.

(** What the panel reads of a highlight whose text is not in the 8-bit units
    of the data model. *)
Record Excerpt := {
  excerpt_text : Utf16.str;
  excerpt_note : option Utf16.str;
}.

(** ** Sample worlds, for the examples *)
Module Sample.

(** An environment in which nothing fails: the clock starts at the epoch and
    advances one millisecond per reading. *)
Definition calm : Env := {|
  clock := fun n => Z.of_nat n;
  idb_fault := fun _ => None;
  engine_fault := fun _ => None;
  uuid := fun n => if (n =? 0)%nat then "uuid-0" else "uuid-n";
  fetch_outcome := fun _ => FetchResponse true "OK" (inr "PK");
  parseEpub_outcome := fun f =>
    inr (Book.mk "book-1" (file_name f) [] EmptyString EmptyString (file_blob f) EmptyString 0 0 None);
|}.

Definition idle : ViewerState := Build_ViewerState None None false [] None None.

(** A first start: empty stores, empty [localStorage], a mounted viewer. *)
Definition fresh : World :=
  Build_World calm 0 0 0 0 ∅ ∅ ∅ true (Some ∅) idle [] [].

Definition hello : Highlight.t :=
  Highlight.mk "h1" "doc1" "epubcfi(/6/4!/4/2,/1:0,/1:11)" "hello world" "yellow"
    None 0 0.

(** A highlight with neither owning document nor position reference. *)
Definition blank : Highlight.t :=
  Highlight.mk "h2" EmptyString EmptyString "hello world" "yellow" None 0 0.

Definition other : Highlight.t :=
  Highlight.mk "h3" "doc2" "epubcfi(/6/8!/4/2,/1:0,/1:5)" "other" "hotpink"
    (Some "a note") 5 7.

Definition doc1 : Book.t := Book.mk "doc1" "Frankenstein" [] EmptyString EmptyString "PK" EmptyString 0 0 None.

(** A library holding one book and two highlights, one of them in the book. *)
Definition library : World :=
  Build_World calm 10 0 0 0 {["doc1" := doc1]}
    {["h1" := hello; "h3" := other]} ∅ true (Some ∅) idle [] [].

(** Storage is full: every request is rejected. *)
Definition offline : Env := {|
  clock := clock calm;
  idb_fault := fun _ => Some (DOMException "QuotaExceededError");
  engine_fault := engine_fault calm;
  uuid := uuid calm;
  fetch_outcome := fetch_outcome calm;
  parseEpub_outcome := parseEpub_outcome calm;
|}.

(** The rendering engine throws on every call. *)
Definition brittle : Env := {|
  clock := clock calm;
  idb_fault := idb_fault calm;
  engine_fault := fun _ => Some (Error "overlay");
  uuid := uuid calm;
  fetch_outcome := fetch_outcome calm;
  parseEpub_outcome := parseEpub_outcome calm;
|}.

(** The user has selected text and the colour palette is open. *)
Definition selecting : ViewerState :=
  Build_ViewerState (Some "epubcfi(/6/4!/4/6,/1:0,/1:4)") (Some "text") true [] None None.

Definition selecting_offline : World :=
  Build_World offline 0 0 0 0 ∅ ∅ ∅ true (Some ∅) selecting [] [].

(** The highlight [hello] is drawn and its action menu is open. *)
Definition hello_overlay : Annotation :=
  Build_Annotation "highlight" (Highlight.cfiRange hello) "h1" "custom-highlight" "yellow".

Definition active : ViewerState :=
  Build_ViewerState None None true [hello] (Some "h1") (Some (Highlight.cfiRange hello)).

Definition active_brittle : World :=
  Build_World brittle 0 0 0 0 {["doc1" := doc1]} {["h1" := hello]} ∅ true
    (Some {[Highlight.cfiRange hello := hello_overlay]}) active [] [].

(** The clock stands still: every creation falls in the same millisecond. *)
Definition frozen : Env := {|
  clock := fun _ => 1000;
  idb_fault := idb_fault calm;
  engine_fault := engine_fault calm;
  uuid := uuid calm;
  fetch_outcome := fetch_outcome calm;
  parseEpub_outcome := parseEpub_outcome calm;
|}.

Definition fresh_frozen : World :=
  Build_World frozen 0 0 0 0 ∅ ∅ ∅ true (Some ∅) idle [] [].

(** Two highlights of the same document; the first has the greater id. *)
Definition first_made : Highlight.t :=
  Highlight.mk "b" "doc1" "epubcfi(/6/4!/4/2,/1:0,/1:5)" "hello" "yellow" None 0 0.
Definition second_made : Highlight.t :=
  Highlight.mk "a" "doc1" "epubcfi(/6/4!/4/2,/1:6,/1:11)" "world" "yellow" None 0 0.

(** The network is down. *)
Definition unreachable : Env := {|
  clock := clock calm;
  idb_fault := idb_fault calm;
  engine_fault := engine_fault calm;
  uuid := uuid calm;
  fetch_outcome := fun _ => FetchRejected (TypeError "Failed to fetch");
  parseEpub_outcome := parseEpub_outcome calm;
|}.

(** A first start without network. *)
Definition fresh_unreachable : World :=
  Build_World unreachable 0 0 0 0 ∅ ∅ ∅ false None idle [] [].

(** The next start of the application, with the network back: what the
    browser keeps ([localStorage] and the stores) in a calm environment. *)
Definition next_start (w : World) : World :=
  Build_World calm 0 0 0 0 (books w) (highlights w) (localStorage w) false None
    idle [] [].

(** A street sign: the Greek word for street in capitals, U+039F U+0394 U+039F
    U+03A3, without a note. *)
Definition street : Excerpt := Build_Excerpt [927; 916; 927; 931]%N None.



End Sample.

(** * The rest of [app/utils/db] on books and of the [BookViewer] handlers *)

(** ** Books *)

(** In-place assignment [book.updatedAt = d]. *)
Definition Book_set_updatedAt (d : Date) (b : Book.t) : Book.t :=
  Book.mk (Book.id b) (Book.title b) (Book.authors b) (Book.markdown b)
    (Book.locations b) (Book.file b) (Book.cover b) (Book.createdAt b) d
    (Book.location b).

(** The index 'by-updated-at' of the store 'books', with key path
    ['updatedAt']: by date, then by primary key. *)
Definition books_by_updated_at_le : relation Book.t :=
  Idb.lex_le Z.le Book.updatedAt (fun a b => String.le (Book.id a) (Book.id b)).

#[global] Instance books_by_updated_at_le_dec : RelDecision books_by_updated_at_le.
Proof. apply Idb.lex_le_dec; intros; apply _. Defined.

Definition books_by_updated_at (store : gmap string Book.t) : list Book.t :=
  merge_sort books_by_updated_at_le (Idb.records store).

(** [db.get('books', key)] *)
Definition get_books (key : string) : M (option Book.t) :=
  request ;;
  gets (fun w => books w !! key).

(** [index.openCursor(null, 'prev')] on 'by-updated-at'. *)
Definition openCursor_books_prev : M (list Book.t) :=
  request ;;
  gets (fun w => reverse (books_by_updated_at (books w))).

(** The loop [while (cursor) { books.push(cursor.value); cursor = await
    cursor.continue(); }] of [getAllBooks]. *)
Fixpoint books_cursor_loop (cursor : list Book.t) (books : list Book.t)
  : M (list Book.t) :=
  match cursor with
  | [] => mret books
  | value :: rest =>
      request ;;  (* await cursor.continue() *)
      books_cursor_loop rest (books ++ [value])
  end.

Definition getAllBooks : M (list Book.t) :=
  initDB ;;
  cursor ← openCursor_books_prev ;
  books_cursor_loop cursor [].

Definition getBook (id : string) : M Book.t :=
  initDB ;;
  book ← get_books id ;
  match book with
  | None => mthrow (Error "Book not found")
  | Some book => mret book
  end.

(** As [updateHighlight], [updateBook] assigns to the record it is given and
    returns it next to the key. *)
Definition updateBook (book : Book.t) : M (Book.t * string) :=
  initDB ;;
  updated ← newDate ;
  let book := Book_set_updatedAt updated book in
  key ← Idb.put_books book ;
  mret (book, key).

(** [clientAction] of the book route: a DELETE request deletes the book and
    redirects to the library; any other request does nothing. The result is the
    path of the redirect, if any. *)
Definition clientAction (method bookId : string) : M (option string) :=
  if String.eqb method "DELETE" then
    deleteBook bookId ;;
    mret (Some "/"%string)
  else mret None.

(** ** Loading the highlights of the book into the viewer *)

(** [array.forEach(f)] *)
Fixpoint forEach {A} (f : A -> M unit) (l : list A) : M unit :=
  match l with
  | [] => mret tt
  | x :: rest => f x ;; forEach f rest
  end.

(** The callback of [highlightsFromDB.forEach] in [loadAndDisplayHighlights]. *)
Definition draw_loaded (hl : Highlight.t) : M unit :=
  rendition ← gets renditionRef ;
  match rendition with
  | Some _ =>
      if Js.truthy (Highlight.cfiRange hl) then
        annotations_add (Highlight.cfiRange hl) (Highlight.id hl) "custom-highlight"
          (Highlight.color hl)
      else mret tt
  | None => mret tt
  end.

Definition loadAndDisplayHighlights (book_id : string) : M unit :=
  rendition ← gets renditionRef ;
  match rendition with
  | Some _ =>
      if Js.truthy book_id then
        try_catch
          (highlightsFromDB ← getHighlightsByBook book_id ;
           setCurrentBookHighlights (fun _ => highlightsFromDB) ;;
           forEach draw_loaded highlightsFromDB)
          (fun dbError => console_error_ "Failed to load and display highlights:" dbError)
      else mret tt
  | None => mret tt
  end.

(** ** The preview of a highlight's text in the panel

    [hl.text.substring(0, 100)] followed by ['...'] when
    [hl.text.length > 100]. *)
Definition text_preview (text : string) : string :=
  String.substring 0 100 text +:+
  (if (100 <? String.length text)%nat then "..." else EmptyString).

(** * Vocabulary of the further statements *)

(** No call into the rendering engine throws from the [n]-th on. *)
Definition engine_ok_from (e : Env) (n : nat) : Prop :=
  forall k, (n <= k)%nat -> engine_fault e k = None.

Definition engine_ok (w : World) : Prop := engine_ok_from (env w) (engine_calls w).

(** Every record of the store is filed under its own id, as a store with key
    path ['id'] files it. *)
Definition keyed_by_id (store : gmap string Highlight.t) : Prop :=
  forall k h, store !! k = Some h -> Highlight.id h = k.

Definition books_keyed_by_id (store : gmap string Book.t) : Prop :=
  forall k b, store !! k = Some b -> Book.id b = k.

(** The annotation [loadAndDisplayHighlights] registers for a highlight. *)
Definition overlay_of (hl : Highlight.t) : Annotation :=
  Build_Annotation "highlight" (Highlight.cfiRange hl) (Highlight.id hl)
    "custom-highlight" (Highlight.color hl).

(** The annotations after drawing the highlights in turn. *)
Definition draw_all (annotations : gmap string Annotation) (hls : list Highlight.t)
  : gmap string Annotation :=
  foldl (fun anns hl =>
           if Js.truthy (Highlight.cfiRange hl)
           then <[Highlight.cfiRange hl := overlay_of hl]> anns else anns)
    annotations hls.

(** ** Further sample worlds *)
Module Demo.

(** The viewer is mounted on a fresh store and the user has selected text. *)
Definition selecting_calm : World :=
  Build_World Sample.calm 0 0 0 0 ∅ ∅ ∅ true (Some ∅) Sample.selecting [] [].

(** As [selecting_calm], with an engine that throws. *)
Definition selecting_brittle : World :=
  Build_World Sample.brittle 0 0 0 0 ∅ ∅ ∅ true (Some ∅) Sample.selecting [] [].

(** The highlight [Sample.hello] is stored, drawn and active; nothing fails. *)
Definition active_calm : World :=
  Build_World Sample.calm 0 0 0 0 {["doc1" := Sample.doc1]} {["h1" := Sample.hello]} ∅
    true (Some {[Highlight.cfiRange Sample.hello := Sample.hello_overlay]})
    Sample.active [] [].

(** As [active_calm], with storage that rejects every request. *)
Definition active_offline : World :=
  Build_World Sample.offline 0 0 0 0 {["doc1" := Sample.doc1]} {["h1" := Sample.hello]} ∅
    true (Some {[Highlight.cfiRange Sample.hello := Sample.hello_overlay]})
    Sample.active [] [].

(** The library of [Sample.library], opened in a viewer that has drawn
    nothing yet. *)
Definition opened : World :=
  Build_World Sample.calm 10 0 0 0 {["doc1" := Sample.doc1]}
    {["h1" := Sample.hello; "h3" := Sample.other]} ∅ true (Some ∅) Sample.idle [] [].

Definition doc2 : Book.t :=
  Book.mk "doc2" "Dracula" [] EmptyString EmptyString "PK" EmptyString 0 5 None.

(** A library of two books, the second updated last. *)
Definition shelf : World :=
  Build_World Sample.calm 10 0 0 0 {["doc1" := Sample.doc1; "doc2" := doc2]}
    {["h1" := Sample.hello; "h3" := Sample.other]} ∅ true (Some ∅) Sample.idle [] [].

(** A text of 104 code units. *)
Definition long_text : string :=
  "It was on a dreary night of November that I beheld the accomplishment of my toils, with an anxiety that.".

End Demo.

(** ** The library route

    [base_url] is the build's [import.meta.env.BASE_URL]. *)

Definition localStorage_removeItem (key : string) : M unit :=
  modify (fun w => set_localStorage w (delete key (localStorage w))).

(** [clientLoader] of the library route. *)
Definition clientLoader_library (base_url : string) : M (list Book.t) :=
  preloadBook (base_url +:+ "example.epub") ;;
  getAllBooks.

(** [handleRestoreDefaultBook]; the page reload that ends it restarts the
    application and is not part of the world. *)
Definition handleRestoreDefaultBook (base_url : string) : M unit :=
  localStorage_removeItem "defaultBookDeleted" ;;
  preloadBook (base_url +:+ "pg84-images-3.epub").

(** * Chats, settings and the note editor

    The object stores 'chats' and 'settings', the note editor's [useState]s
    of [BookViewer] and the [console.error] calls whose arguments are strings
    are kept in a record of their own beside the [World]. *)

Inductive Role := user | assistant | system.

Record ChatMessage := {
  role : Role;
  content : string;
  timestamp : Date;
}.

Module Chat.
Record t := mk {
  id : string;
  bookId : string;
  title : string;
  messages : list ChatMessage;
  createdAt : Date;
  updatedAt : Date;
}.

Definition set_updatedAt (d : Date) (c : t) : t :=
  mk (id c) (bookId c) (title c) (messages c) (createdAt c) d.
End Chat.

Module Settings.
Record t := mk {
  id : string;
  apiKey : string;
  baseUrl : string;
  modelName : string;
  updatedAt : Date;
}.
End Settings.

(** [console.error(message, ...strings)] *)
Inductive TextEntry :=
  | console_error_text (message : string) (args : list string).

Record Rest := {
  chats : gmap string Chat.t;          (* object store 'chats' *)
  settings : gmap string Settings.t;   (* object store 'settings' *)
  showNoteEditor : bool;
  currentNoteText : string;
  console_text : list TextEntry;
}.

Definition set_chats (r : Rest) (c : gmap string Chat.t) : Rest :=
  Build_Rest c (settings r) (showNoteEditor r) (currentNoteText r) (console_text r).
Definition set_settings (r : Rest) (s : gmap string Settings.t) : Rest :=
  Build_Rest (chats r) s (showNoteEditor r) (currentNoteText r) (console_text r).
Definition set_showNoteEditor (r : Rest) (b : bool) : Rest :=
  Build_Rest (chats r) (settings r) b (currentNoteText r) (console_text r).
Definition set_currentNoteText (r : Rest) (t : string) : Rest :=
  Build_Rest (chats r) (settings r) (showNoteEditor r) t (console_text r).
Definition log_console_text (r : Rest) (e : TextEntry) : Rest :=
  Build_Rest (chats r) (settings r) (showNoteEditor r) (currentNoteText r)
    (console_text r ++ [e]).

(** Computations on the world and the rest. *)
Definition N (A : Type) : Type := World * Rest -> Outcome A * (World * Rest).

#[global] Instance N_ret : MRet N := fun A a s => (Return a, s).
#[global] Instance N_bind : MBind N := fun A B f m s =>
  match m s with
  | (Return a, s') => f a s'
  | (Throw e, s') => (Throw e, s')
  end.
#[global] Instance N_throw : MThrow Exn N := fun A e s => (Throw e, s).

(** A computation on the world alone. *)
Definition lift {A} (m : M A) : N A :=
  fun s => match m s.1 with (o, w') => (o, (w', s.2)) end.

Definition try_catch_N {A} (body : N A) (handler : Exn -> N A) : N A :=
  fun s =>
    match body s with
    | (Return a, s') => (Return a, s')
    | (Throw e, s') => handler e s'
    end.

Definition gets_rest {A} (f : Rest -> A) : N A := fun s => (Return (f s.2), s).
Definition modify_rest (f : Rest -> Rest) : N unit := fun s => (Return tt, (s.1, f s.2)).

(** ** [app/utils/db]: chats and settings *)

Definition put_chats (value : Chat.t) : N string :=
  lift request ;;
  modify_rest (fun r => set_chats r (<[Chat.id value := value]> (chats r))) ;;
  lift (modify (fun w => record_effect w (StorePut "chats" (Chat.id value)))) ;;
  mret (Chat.id value).

Definition addChat (chat : Chat.t) : N string :=
  lift initDB ;;
  put_chats chat.

Definition getChat (id : string) : N (option Chat.t) :=
  lift initDB ;;
  lift request ;;
  gets_rest (fun r => chats r !! id).

Definition updateChat (chat : Chat.t) : N (Chat.t * string) :=
  lift initDB ;;
  updated ← lift newDate ;
  let chat := Chat.set_updatedAt updated chat in
  key ← put_chats chat ;
  mret (chat, key).

Definition deleteChat (id : string) : N unit :=
  lift initDB ;;
  lift request ;;
  modify_rest (fun r => set_chats r (delete id (chats r))) ;;
  lift (modify (fun w => record_effect w (StoreDelete "chats" id))).

(** The entries of the index 'by-book-id' under one key, in the order of
    their primary keys. *)
Definition chats_by_id_le : relation Chat.t :=
  fun a b => String.le (Chat.id a) (Chat.id b).

#[global] Instance chats_by_id_le_dec : RelDecision chats_by_id_le.
Proof. intros a b. unfold chats_by_id_le. apply _. Defined.

Definition chats_of_book (store : gmap string Chat.t) (bookId : string) : list Chat.t :=
  filter (fun c => Chat.bookId c = bookId)
    (merge_sort chats_by_id_le (Idb.records store)).

Fixpoint chats_cursor_loop (cursor : list Chat.t) (chats : list Chat.t)
  : N (list Chat.t) :=
  match cursor with
  | [] => mret chats
  | value :: rest =>
      lift request ;;  (* await cursor.continue() *)
      chats_cursor_loop rest (chats ++ [value])
  end.

(** [array.sort(compare)]: the sort is stable; [x] goes before the first
    element it compares below. *)
Fixpoint sort_insert {A} (compare : A -> A -> Z) (x : A) (l : list A) : list A :=
  match l with
  | [] => [x]
  | y :: rest =>
      if compare x y <? 0 then x :: y :: rest else y :: sort_insert compare x rest
  end.

Definition array_sort {A} (compare : A -> A -> Z) (l : list A) : list A :=
  foldl (fun sorted x => sort_insert compare x sorted) [] l.

(** [(a, b) => b.updatedAt.getTime() - a.updatedAt.getTime()] *)
Definition most_recent_first (a b : Chat.t) : Z :=
  Chat.updatedAt b - Chat.updatedAt a.

Definition getChatsByBookId (bookId : string) : N (list Chat.t) :=
  lift initDB ;;
  lift request ;;  (* await index.openCursor(bookId) *)
  cursor ← gets_rest (fun r => chats_of_book (chats r) bookId) ;
  chats ← chats_cursor_loop cursor [] ;
  mret (array_sort most_recent_first chats).

Definition getLatestChatByBookId (bookId : string) : N (option Chat.t) :=
  chats ← getChatsByBookId bookId ;
  mret (match chats with
        | latest :: _ => Some latest
        | [] => None
        end).

Definition getSettings : N (option Settings.t) :=
  lift initDB ;;
  lift request ;;
  gets_rest (fun r => settings r !! "llm-settings").

(** [saveSettings] takes the settings without [id] and [updatedAt]. *)
Definition saveSettings (apiKey baseUrl modelName : string) : N string :=
  lift initDB ;;
  updatedAt ← lift newDate ;
  let updatedSettings := Settings.mk "llm-settings" apiKey baseUrl modelName updatedAt in
  lift request ;;
  modify_rest (fun r =>
    set_settings r (<[Settings.id updatedSettings := updatedSettings]> (settings r))) ;;
  lift (modify (fun w =>
    record_effect w (StorePut "settings" (Settings.id updatedSettings)))) ;;
  mret (Settings.id updatedSettings).

(** ** The note editor of [BookViewer] *)

Definition setShowNoteEditor (v : bool) : N unit :=
  modify_rest (fun r => set_showNoteEditor r v).
Definition setCurrentNoteText (v : string) : N unit :=
  modify_rest (fun r => set_currentNoteText r v).
Definition console_error_text_ (message : string) (args : list string) : N unit :=
  modify_rest (fun r => log_console_text r (console_error_text message args)).

(** [array.find(hl => hl.id === id)] *)
Definition find_by_id (id : string) (hls : list Highlight.t) : option Highlight.t :=
  List.find (fun hl => String.eqb (Highlight.id hl) id) hls.

(** [highlight?.note || ''] *)
Definition note_or_empty (highlight : option Highlight.t) : string :=
  match highlight with
  | Some hl =>
      match Highlight.note hl with
      | Some note => if Js.truthy note then note else EmptyString
      | None => EmptyString
      end
  | None => EmptyString
  end.

Definition handleOpenNoteEditor (st : ViewerState) : N unit :=
  if Js.truthy_opt (activeHighlightId st) then
    match activeHighlightId st with
    | Some id =>
        let highlight := find_by_id id (currentBookHighlights st) in
        setCurrentNoteText (note_or_empty highlight) ;;
        setShowNoteEditor true ;;
        lift (setShowHighlightPopup false)
    | None => mret tt
    end
  else mret tt.

(** [{ ...highlightToUpdate, note: noteText, updatedAt: d }] *)
Definition with_note (hl : Highlight.t) (noteText : string) (d : Date) : Highlight.t :=
  Highlight.mk (Highlight.id hl) (Highlight.bookId hl) (Highlight.cfiRange hl)
    (Highlight.text hl) (Highlight.color hl) (Some noteText) (Highlight.createdAt hl) d.

(** [prev.map(hl => hl.id === id ? updatedHl : hl)] *)
Definition replace_by_id (id : string) (updatedHl : Highlight.t)
    (prev : list Highlight.t) : list Highlight.t :=
  List.map (fun hl => if String.eqb (Highlight.id hl) id then updatedHl else hl) prev.

Definition handleSaveNote (st : ViewerState) (noteText : string) : N unit :=
  if Js.truthy_opt (activeHighlightId st) then
    match activeHighlightId st with
    | Some id =>
        match find_by_id id (currentBookHighlights st) with
        | None =>
            console_error_text_ "Highlight not found for saving note" [] ;;
            setShowNoteEditor false
        | Some highlightToUpdate =>
            d ← lift newDate ;
            let updatedHl := with_note highlightToUpdate noteText d in
            try_catch_N
              ('(updatedHl, _) ← lift (updateHighlight updatedHl) ;
               lift (setCurrentBookHighlights (replace_by_id id updatedHl)) ;;
               setShowNoteEditor false ;;
               lift (setActiveHighlightId None))
              (fun dbError => lift (console_error_ "Failed to save note:" dbError))
        end
    | None => mret tt
    end
  else mret tt.

Definition handleEditNoteForHighlight (st : ViewerState) (highlightId : string) : N unit :=
  lift (setActiveHighlightId (Some highlightId)) ;;
  match find_by_id highlightId (currentBookHighlights st) with
  | Some highlight =>
      setCurrentNoteText (note_or_empty (Some highlight)) ;;
      setShowNoteEditor true ;;
      lift (setShowHighlightPopup false)
  | None =>
      console_error_text_ "Highlight not found for editing note:" [highlightId]
  end.

(** The [onClose] of the note editor: cancelling. *)
Definition cancelNote : N unit :=
  setShowNoteEditor false ;;
  lift (setActiveHighlightId None).

(** The order of [updatedAt], latest first. *)
Definition newer_first (a b : Chat.t) : Prop := Chat.updatedAt b <= Chat.updatedAt a.

(** ** Sample rests *)
Module DemoRest.

Definition closed : Rest := Build_Rest ∅ ∅ false EmptyString [].

(** The note editor is open on the active highlight. *)
Definition editing : Rest := Build_Rest ∅ ∅ true EmptyString [].

Definition chat (id bookId : string) (updatedAt : Z) : Chat.t :=
  Chat.mk id bookId "chat" [] 0 updatedAt.

Definition talking : Rest :=
  Build_Rest {["c1" := chat "c1" "doc1" 5; "c2" := chat "c2" "doc1" 9;
               "c3" := chat "c3" "doc2" 20]} ∅ false EmptyString [].

End DemoRest.
(** * Properties *)

(** ** Running computations *)

Lemma bind_run {A B} (m : M A) (f : A -> M B) (w : World) :
  (m ≫= f) w =
  match m w with
  | (Return a, w') => f a w'
  | (Throw e, w') => (Throw e, w')
  end.
Proof. reflexivity. Qed.

Lemma bind_return {A B} (m : M A) (f : A -> M B) (w w' : World) (a : A) :
  m w = (Return a, w') -> (m ≫= f) w = f a w'.
Proof. intros H. rewrite bind_run, H. reflexivity. Qed.

Lemma bind_throw {A B} (m : M A) (f : A -> M B) (w w' : World) (e : Exn) :
  m w = (Throw e, w') -> (m ≫= f) w = (Throw e, w').
Proof. intros H. rewrite bind_run, H. reflexivity. Qed.


Lemma storage_ok_from_S e n : storage_ok_from e n -> storage_ok_from e (S n).
Proof. intros H k Hk. apply H. lia. Qed.

Lemma storage_ok_from_here e n : storage_ok_from e n -> idb_fault e n = None.
Proof. intros H. apply H. lia. Qed.

Lemma request_ok w :
  storage_ok w -> request w = (Return tt, count_request w).
Proof.
  intros H. unfold request. rewrite (storage_ok_from_here _ _ H). reflexivity.
Qed.

Lemma request_accepted w :
  idb_fault (env w) (requests w) = None -> request w = (Return tt, count_request w).
Proof. intros H. unfold request. rewrite H. reflexivity. Qed.

Lemma request_rejected w e :
  idb_fault (env w) (requests w) = Some e -> request w = (Throw e, count_request w).
Proof. intros H. unfold request. rewrite H. reflexivity. Qed.

Lemma storage_ok_count_request w : storage_ok w -> storage_ok (count_request w).
Proof. apply storage_ok_from_S. Qed.

Create HintDb storage.
#[local] Hint Resolve storage_ok_from_S storage_ok_from_here storage_ok_count_request : storage.

(** A request leaves both object stores as they are. *)
Lemma request_frame w :
  highlights (request w).2 = highlights w /\ books (request w).2 = books w.
Proof. unfold request. destruct (idb_fault _ _); split; reflexivity. Qed.

(** ** The store operations when storage does not fail *)

Lemma put_highlights_ok w value :
  storage_ok w ->
  Idb.put_highlights value w =
    (Return (Highlight.id value),
     record_effect
       (set_highlights (count_request w)
          (<[Highlight.id value := value]> (highlights w)))
       (StorePut "highlights" (Highlight.id value))).
Proof.
  intros H. unfold Idb.put_highlights.
  rewrite (bind_return _ _ _ _ _ (request_ok w H)). reflexivity.
Qed.

Lemma delete_highlights_ok w key :
  storage_ok w ->
  Idb.delete_highlights key w =
    (Return tt,
     record_effect (set_highlights (count_request w) (delete key (highlights w)))
       (StoreDelete "highlights" key)).
Proof.
  intros H. unfold Idb.delete_highlights.
  rewrite (bind_return _ _ _ _ _ (request_ok w H)). reflexivity.
Qed.


Lemma addHighlight_ok w h :
  storage_ok w ->
  addHighlight h w =
    (Return (stamp_created w h, Highlight.id h),
     record_effect
       (set_highlights (count_request (tick (tick (count_request w))))
          (<[Highlight.id h := stamp_created w h]> (highlights w)))
       (StorePut "highlights" (Highlight.id h))).
Proof.
  intros H. unfold addHighlight, initDB.
  rewrite (bind_return _ _ _ _ _ (request_ok w H)).
  unfold newDate at 1. rewrite bind_run. unfold newDate at 1. rewrite bind_run.
  erewrite bind_return; [reflexivity|].
  rewrite put_highlights_ok by (repeat apply storage_ok_from_S; exact H).
  reflexivity.
Qed.

Lemma updateHighlight_ok w h :
  storage_ok w ->
  let h' := Highlight.set_updatedAt (clock (env w) (ticks w)) h in
  updateHighlight h w =
    (Return (h', Highlight.id h),
     record_effect
       (set_highlights (count_request (tick (count_request w)))
          (<[Highlight.id h := h']> (highlights w)))
       (StorePut "highlights" (Highlight.id h))).
Proof.
  intros H h'. unfold updateHighlight, initDB.
  rewrite (bind_return _ _ _ _ _ (request_ok w H)).
  unfold newDate at 1. rewrite bind_run.
  erewrite bind_return; [reflexivity|].
  rewrite put_highlights_ok by (repeat apply storage_ok_from_S; exact H).
  reflexivity.
Qed.

Lemma deleteHighlight_ok w key :
  storage_ok w ->
  deleteHighlight key w =
    (Return tt,
     record_effect
       (set_highlights (count_request (count_request w)) (delete key (highlights w)))
       (StoreDelete "highlights" key)).
Proof.
  intros H. unfold deleteHighlight, initDB.
  rewrite (bind_return _ _ _ _ _ (request_ok w H)).
  rewrite delete_highlights_ok by (apply storage_ok_count_request; exact H).
  reflexivity.
Qed.

Lemma storage_ok_calm n : storage_ok_from Sample.calm n.
Proof. intros k _. reflexivity. Qed.

(** ** [updateHighlight] on an id the store does not hold *)

(** C1, as stated, fails: on a first start, updating the highlight ["h1"],
    which the store does not hold, returns normally and leaves the record in
    the store. *)
Lemma updateHighlight_unknown_id_not_rejected :
  highlights Sample.fresh !! Highlight.id Sample.hello = None /\
  exists r w',
    updateHighlight Sample.hello Sample.fresh = (Return r, w') /\
    highlights w' !! "h1" =
      Some (Highlight.set_updatedAt 0 Sample.hello).
Proof.
  split; [vm_compute; reflexivity|].
  eexists _, _. split; [vm_compute; reflexivity | vm_compute; reflexivity].
Qed.

(** C1, amended: [updateHighlight] is an insert-or-replace. For a record whose
    id the store does not hold, when no storage request is rejected, it
    returns the id and adds the record, with [updatedAt] set to the clock's
    reading, leaving every other record as it was. *)
Theorem updateHighlight_unknown_id_upserts (w : World) (h : Highlight.t) :
  highlights w !! Highlight.id h = None ->
  storage_ok w ->
  let h' := Highlight.set_updatedAt (clock (env w) (ticks w)) h in
  exists w',
    updateHighlight h w = (Return (h', Highlight.id h), w') /\
    highlights w' !! Highlight.id h = Some h' /\
    (forall k, k <> Highlight.id h -> highlights w' !! k = highlights w !! k).
Proof.
  intros _ Hok h'. eexists. split; [apply updateHighlight_ok, Hok|]. simpl.
  split; [apply lookup_insert_eq|].
  intros k Hk. apply lookup_insert_ne. congruence.
Qed.

Lemma updateHighlight_unknown_id_upserts_witness :
  highlights Sample.fresh !! Highlight.id Sample.hello = None /\
  storage_ok Sample.fresh /\
  exists w',
    updateHighlight Sample.hello Sample.fresh =
      (Return (Highlight.set_updatedAt 0 Sample.hello, "h1"), w') /\
    highlights w' !! "h1" =
      Some (Highlight.set_updatedAt 0 Sample.hello) /\
    (forall k, k <> "h1" -> highlights w' !! k = highlights Sample.fresh !! k).
Proof.
  split; [vm_compute; reflexivity|]. split; [apply storage_ok_calm|].
  apply (updateHighlight_unknown_id_upserts Sample.fresh Sample.hello).
  - vm_compute; reflexivity.
  - apply storage_ok_calm.
Defined.

(** ** [addHighlight] on a record with empty fields *)

(** C2, as stated, fails: on a first start, [addHighlight] of a record whose
    [bookId] and [cfiRange] are empty makes its two storage requests, returns
    normally and stores the record. *)
Lemma addHighlight_empty_fields_not_rejected :
  Highlight.bookId Sample.blank = EmptyString /\
  Highlight.cfiRange Sample.blank = EmptyString /\
  exists r w',
    addHighlight Sample.blank Sample.fresh = (Return r, w') /\
    requests w' = 2%nat /\
    highlights w' <> highlights Sample.fresh /\
    is_Some (highlights w' !! "h2").
Proof.
  split; [reflexivity|]. split; [reflexivity|].
  eexists _, _. split; [vm_compute; reflexivity|].
  split; [vm_compute; reflexivity|]. split.
  - intros H. apply (f_equal (fun m => m !! "h2")) in H. vm_compute in H. discriminate.
  - eexists. vm_compute. reflexivity.
Qed.

(** C2, amended: [addHighlight] validates nothing. For every record, also one
    whose [bookId] or [cfiRange] is empty, when no storage request is
    rejected, it returns the record's id and stores the record under it with
    [createdAt] and [updatedAt] overwritten by the clock's readings. *)
Theorem addHighlight_stores_any_record (w : World) (h : Highlight.t) :
  Highlight.bookId h = EmptyString \/ Highlight.cfiRange h = EmptyString ->
  storage_ok w ->
  exists w',
    addHighlight h w = (Return (stamp_created w h, Highlight.id h), w') /\
    highlights w' = <[Highlight.id h := stamp_created w h]> (highlights w).
Proof.
  intros _ Hok. eexists. split; [apply addHighlight_ok, Hok|]. reflexivity.
Qed.

Lemma addHighlight_stores_any_record_witness :
  (Highlight.bookId Sample.blank = EmptyString \/ Highlight.cfiRange Sample.blank = EmptyString) /\
  storage_ok Sample.fresh /\
  exists w',
    addHighlight Sample.blank Sample.fresh =
      (Return (stamp_created Sample.fresh Sample.blank, "h2"), w') /\
    highlights w' =
      <["h2" := stamp_created Sample.fresh Sample.blank]> (highlights Sample.fresh).
Proof.
  split; [left; reflexivity|]. split; [apply storage_ok_calm|].
  apply (addHighlight_stores_any_record Sample.fresh Sample.blank).
  - left. reflexivity.
  - apply storage_ok_calm.
Defined.

(** ** [deleteHighlight] *)

(** Whatever happens to its requests, [deleteHighlight] touches no record
    under another id. *)
Lemma deleteHighlight_frame (w : World) (key k : string) :
  k <> key -> highlights (deleteHighlight key w).2 !! k = highlights w !! k.
Proof.
  intros Hk. unfold deleteHighlight, initDB, Idb.delete_highlights.
  destruct (idb_fault (env w) (requests w)) as [e|] eqn:E1.
  { erewrite bind_throw by (apply request_rejected, E1). reflexivity. }
  erewrite bind_return by (apply request_accepted, E1).
  destruct (idb_fault (env (count_request w)) (requests (count_request w)))
    as [e|] eqn:E2.
  { erewrite bind_throw by (apply request_rejected, E2). reflexivity. }
  erewrite bind_return by (apply request_accepted, E2).
  simpl. apply lookup_delete_ne. congruence.
Qed.

(** C5: when no storage request is rejected, [deleteHighlight] succeeds
    whether or not the store holds the id, a second delete of the same id
    succeeds too and changes nothing, deleting an absent id leaves the store as
    it is, and records under other ids are untouched. *)
Theorem deleteHighlight_idempotent (w : World) (key : string) :
  storage_ok w ->
  exists w1 w2,
    deleteHighlight key w = (Return tt, w1) /\
    deleteHighlight key w1 = (Return tt, w2) /\
    highlights w2 = highlights w1 /\
    (highlights w !! key = None -> highlights w1 = highlights w) /\
    (forall k, k <> key ->
       highlights w1 !! k = highlights w !! k /\
       highlights w2 !! k = highlights w !! k).
Proof.
  intros Hok.
  assert (Hok1 : storage_ok (record_effect
       (set_highlights (count_request (count_request w)) (delete key (highlights w)))
       (StoreDelete "highlights" key))).
  { unfold storage_ok. simpl. auto with storage. }
  eexists _, _. split; [apply deleteHighlight_ok, Hok|].
  split; [apply deleteHighlight_ok, Hok1|]. simpl.
  split; [apply delete_id, lookup_delete_eq|].
  split; [intros Hnone; apply delete_id, Hnone|].
  intros k Hk. rewrite !lookup_delete_ne by congruence. split; reflexivity.
Qed.

Lemma deleteHighlight_idempotent_witness :
  storage_ok Sample.library /\
  exists w1 w2,
    deleteHighlight "h1" Sample.library = (Return tt, w1) /\
    deleteHighlight "h1" w1 = (Return tt, w2) /\
    highlights w2 = highlights w1 /\
    (highlights Sample.library !! "h1" = None ->
     highlights w1 = highlights Sample.library) /\
    (forall k, k <> "h1" ->
       highlights w1 !! k = highlights Sample.library !! k /\
       highlights w2 !! k = highlights Sample.library !! k).
Proof.
  split; [apply storage_ok_calm|].
  apply (deleteHighlight_idempotent Sample.library "h1"), storage_ok_calm.
Defined.

Example deleteHighlight_twice :
  let w1 := (deleteHighlight "h1" Sample.library).2 in
  let w2 := (deleteHighlight "h1" w1).2 in
  highlights Sample.library !! "h1" = Some Sample.hello /\
  highlights w1 = {["h3" := Sample.other]} /\
  highlights w2 = {["h3" := Sample.other]}.
Proof. vm_compute. repeat split. Qed.

(** ** The order of index entries *)

Section lex_le.
Context {A K : Type} `{EqDecision K}.
Context (R : relation K) (f : A -> K) (S : relation A).
Context `{!PartialOrder R, !Total R}.

Lemma lex_le_eq a b : f a = f b -> Idb.lex_le R f S a b <-> S a b.
Proof. intros E. unfold Idb.lex_le. rewrite decide_True by exact E. reflexivity. Qed.

Lemma lex_le_ne a b : f a <> f b -> Idb.lex_le R f S a b <-> R (f a) (f b).
Proof. intros E. unfold Idb.lex_le. rewrite decide_False by exact E. reflexivity. Qed.

Lemma lex_le_key a b : Idb.lex_le R f S a b -> R (f a) (f b).
Proof.
  unfold Idb.lex_le. destruct (decide (f a = f b)) as [E|E]; [|auto].
  intros _. rewrite E. reflexivity.
Qed.

Lemma lex_le_refl : Reflexive S -> Reflexive (Idb.lex_le R f S).
Proof. intros HS a. apply lex_le_eq; [reflexivity | apply HS]. Qed.

Lemma lex_le_trans : Transitive S -> Transitive (Idb.lex_le R f S).
Proof.
  intros HS a b c Hab Hbc.
  pose proof (lex_le_key _ _ Hab) as Kab. pose proof (lex_le_key _ _ Hbc) as Kbc.
  destruct (decide (f a = f c)) as [Eac|Eac].
  - assert (Eab : f a = f b).
    { apply (anti_symm R); [exact Kab|]. rewrite Eac. exact Kbc. }
    assert (Ebc : f b = f c) by congruence.
    apply lex_le_eq; [exact Eac|].
    apply lex_le_eq in Hab; [|exact Eab]. apply lex_le_eq in Hbc; [|exact Ebc].
    exact (HS _ _ _ Hab Hbc).
  - apply lex_le_ne; [exact Eac|]. etransitivity; eassumption.
Qed.

Lemma lex_le_total : Total S -> Total (Idb.lex_le R f S).
Proof.
  intros HS a b. destruct (decide (f a = f b)) as [E|E].
  - destruct (HS a b); [left | right]; apply lex_le_eq; auto.
  - destruct (total R (f a) (f b)); [left | right]; apply lex_le_ne; auto.
Qed.

Lemma lex_le_antisym :
  (forall a b, f a = f b -> S a b -> S b a -> a = b) ->
  AntiSymm (=) (Idb.lex_le R f S).
Proof.
  intros HS a b Hab Hba.
  assert (E : f a = f b).
  { apply (anti_symm R); eauto using lex_le_key. }
  apply HS; [exact E| |].
  - apply lex_le_eq in Hab; auto.
  - apply lex_le_eq in Hba; auto.
Qed.
End lex_le.

#[local] Instance array_key_le_po : PartialOrder Idb.array_key_le.
Proof.
  unfold Idb.array_key_le. split; [split|].
  - apply lex_le_refl; try apply _. intros k. reflexivity.
  - apply lex_le_trans; try apply _. intros a b c. apply Z.le_trans.
  - apply lex_le_antisym; try apply _. intros [a1 a2] [b1 b2]; simpl.
    intros -> H1 H2. f_equal. lia.
Qed.

#[local] Instance array_key_le_total : Total Idb.array_key_le.
Proof.
  unfold Idb.array_key_le. apply lex_le_total; try apply _.
  intros a b. lia.
Qed.

#[local] Instance by_id_trans :
  Transitive (fun a b => String.le (Highlight.id a) (Highlight.id b)).
Proof. intros a b c. apply (transitivity (R := String.le)). Qed.

#[local] Instance by_id_total :
  Total (fun a b => String.le (Highlight.id a) (Highlight.id b)).
Proof. intros a b. apply (total String.le). Qed.

#[local] Instance by_bookId_createdAt_le_trans : Transitive Idb.by_bookId_createdAt_le.
Proof. apply lex_le_trans; apply _. Qed.

#[local] Instance by_bookId_createdAt_le_total : Total Idb.by_bookId_createdAt_le.
Proof. apply lex_le_total; apply _. Qed.

#[local] Instance by_updatedAt_le_trans : Transitive Idb.by_updatedAt_le.
Proof. apply lex_le_trans; apply _. Qed.

#[local] Instance by_updatedAt_le_total : Total Idb.by_updatedAt_le.
Proof. apply lex_le_total; apply _. Qed.

(** A record is listed by an index exactly when the store holds it. *)
Lemma elem_of_records {V} (store : gmap string V) (v : V) :
  v ∈ Idb.records store <-> exists k, store !! k = Some v.
Proof.
  unfold Idb.records. rewrite list_elem_of_fmap. split.
  - intros [[k v'] [-> Hin]]. exists k. apply elem_of_map_to_list. exact Hin.
  - intros [k Hk]. exists (k, v). split; [reflexivity|].
    apply elem_of_map_to_list. exact Hk.
Qed.

Lemma elem_of_by_bookId_createdAt store h :
  h ∈ Idb.by_bookId_createdAt store <-> exists k, store !! k = Some h.
Proof.
  unfold Idb.by_bookId_createdAt. rewrite merge_sort_Permutation.
  apply elem_of_records.
Qed.

Lemma elem_of_by_updatedAt store h :
  h ∈ Idb.by_updatedAt store <-> exists k, store !! k = Some h.
Proof.
  unfold Idb.by_updatedAt. rewrite merge_sort_Permutation.
  apply elem_of_records.
Qed.

(** The range of [getHighlightsByBook]: the records of the book created
    between the epoch and the upper date. *)
Lemma bound_same_book (b : string) (upper : Z) (h : Highlight.t) :
  Idb.bound (b, 0) (b, upper) (Idb.by_bookId_createdAt_key h) <->
  Highlight.bookId h = b /\ 0 <= Highlight.createdAt h <= upper.
Proof.
  unfold Idb.bound, Idb.array_key_le, Idb.by_bookId_createdAt_key.
  destruct (decide (Highlight.bookId h = b)) as [E|E].
  - rewrite !lex_le_eq by (simpl; congruence). simpl. intuition.
  - rewrite !lex_le_ne by (simpl; congruence). simpl. split.
    + intros [H1 H2]. destruct E. apply (anti_symm String.le); assumption.
    + intros [H _]. contradiction.
Qed.

Lemma StronglySorted_filter {A} (R : relation A) (P : A -> Prop)
    `{!forall x, Decision (P x)} (l : list A) :
  StronglySorted R l -> StronglySorted R (filter P l).
Proof.
  induction 1 as [|x l Hl IH Hx]; [constructor|].
  rewrite filter_cons. destruct (decide (P x)); [|exact IH].
  constructor; [exact IH|].
  rewrite List.Forall_forall in *. intros y Hy.
  apply list_elem_of_In in Hy. apply list_elem_of_filter in Hy as [_ Hy].
  apply Hx. apply list_elem_of_In. exact Hy.
Qed.

(** ** The queries when storage does not fail *)

Lemma getHighlightsByBook_ok w b :
  storage_ok w ->
  getHighlightsByBook b w =
    (Return (book_range w b), count_request (count_request (tick (count_request w)))).
Proof.
  intros H. unfold getHighlightsByBook, initDB.
  rewrite (bind_return _ _ _ _ _ (request_ok w H)).
  unfold newDate at 1. rewrite bind_run.
  unfold Idb.getAll_by_bookId_createdAt.
  assert (H1 : storage_ok (tick (count_request w))) by (apply storage_ok_from_S, H).
  erewrite bind_return.
  2:{ erewrite bind_return by (apply request_ok, H1). reflexivity. }
  erewrite bind_return.
  2:{ apply request_ok. apply storage_ok_from_S, H1. }
  reflexivity.
Qed.

Lemma cursor_loop_ok cursor : forall acc w,
  storage_ok w ->
  cursor_loop cursor acc w =
    (Return (acc ++ cursor), Nat.iter (length cursor) count_request w).
Proof.
  induction cursor as [|value rest IH]; intros acc w H; simpl.
  - rewrite app_nil_r. reflexivity.
  - erewrite bind_return by (apply request_ok, H).
    rewrite IH by (apply storage_ok_count_request, H).
    rewrite <- app_assoc. simpl. f_equal.
    clear. induction (length rest) as [|n IHn]; simpl; [reflexivity|].
    rewrite IHn. reflexivity.
Qed.

Lemma storage_ok_iter n w : storage_ok w -> storage_ok (Nat.iter n count_request w).
Proof. intros H. induction n; simpl; [exact H | apply storage_ok_count_request; assumption]. Qed.

Lemma getAllHighlights_ok w :
  storage_ok w ->
  exists w',
    getAllHighlights w = (Return (reverse (Idb.by_updatedAt (highlights w))), w').
Proof.
  intros H. unfold getAllHighlights, initDB, Idb.openCursor_by_updatedAt_prev.
  rewrite (bind_return _ _ _ _ _ (request_ok w H)).
  assert (H1 : storage_ok (count_request w)) by (apply storage_ok_count_request, H).
  erewrite bind_return.
  2:{ erewrite bind_return by (apply request_ok, H1). reflexivity. }
  erewrite bind_return.
  2:{ apply cursor_loop_ok. apply storage_ok_count_request, H1. }
  erewrite bind_return.
  2:{ apply request_ok, storage_ok_iter, storage_ok_count_request, H1. }
  eexists. reflexivity.
Qed.

Lemma deleteBook_ok w id :
  storage_ok w ->
  deleteBook id w =
    (Return tt,
     record_effect (set_books (count_request (count_request w)) (delete id (books w)))
       (StoreDelete "books" id)).
Proof.
  intros H. unfold deleteBook, initDB, Idb.delete_books.
  rewrite (bind_return _ _ _ _ _ (request_ok w H)).
  erewrite bind_return by (apply request_ok, storage_ok_count_request, H).
  reflexivity.
Qed.

(** ** [deleteBook] and the highlights of the book *)

Lemma deleteBook_frame (w : World) (id : string) :
  highlights (deleteBook id w).2 = highlights w.
Proof.
  unfold deleteBook, initDB, Idb.delete_books.
  destruct (idb_fault (env w) (requests w)) as [e|] eqn:E1.
  { erewrite bind_throw by (apply request_rejected, E1). reflexivity. }
  erewrite bind_return by (apply request_accepted, E1).
  destruct (idb_fault (env (count_request w)) (requests (count_request w)))
    as [e|] eqn:E2.
  { erewrite bind_throw by (apply request_rejected, E2). reflexivity. }
  erewrite bind_return by (apply request_accepted, E2).
  reflexivity.
Qed.

(** C10: [deleteBook] never changes the highlights store, whatever becomes of
    its requests. When no storage request is rejected it removes the book, and
    afterwards [getHighlightsByBook] and [getAllHighlights] resolve to what
    they resolve to without the deletion: every stored highlight of the deleted
    book is in the result of [getAllHighlights], and in the result of
    [getHighlightsByBook] when its [createdAt] lies in the queried range. *)
Theorem deleteBook_keeps_highlights (w : World) (id : string) :
  highlights (deleteBook id w).2 = highlights w /\
  (storage_ok w ->
   exists w' byBook all,
     deleteBook id w = (Return tt, w') /\
     books w' !! id = None /\
     (getHighlightsByBook id w').1 = Return byBook /\
     (getHighlightsByBook id w).1 = Return byBook /\
     (getAllHighlights w').1 = Return all /\
     (getAllHighlights w).1 = Return all /\
     forall h,
       highlights w !! Highlight.id h = Some h ->
       Highlight.bookId h = id ->
       h ∈ all /\
       (0 <= Highlight.createdAt h <= clock (env w) (ticks w) + year_ms ->
        h ∈ byBook)).
Proof.
  split; [apply deleteBook_frame|]. intros Hok.
  set (w' := record_effect
       (set_books (count_request (count_request w)) (delete id (books w)))
       (StoreDelete "books" id)).
  assert (Hok' : storage_ok w').
  { unfold storage_ok. simpl. auto with storage. }
  destruct (getAllHighlights_ok w Hok) as [w1 H1].
  destruct (getAllHighlights_ok w' Hok') as [w2 H2].
  exists w', (book_range w id), (reverse (Idb.by_updatedAt (highlights w))).
  split; [apply deleteBook_ok, Hok|].
  split; [simpl; apply lookup_delete_eq|].
  split; [rewrite (getHighlightsByBook_ok w' id Hok'); reflexivity|].
  split; [rewrite (getHighlightsByBook_ok w id Hok); reflexivity|].
  split; [rewrite H2; reflexivity|].
  split; [rewrite H1; reflexivity|].
  intros h Hh Hb. split.
  - rewrite elem_of_reverse. apply elem_of_by_updatedAt. eauto.
  - intros Ht. unfold book_range. apply list_elem_of_filter. split.
    + apply bound_same_book. auto.
    + apply elem_of_by_bookId_createdAt. eauto.
Qed.

Lemma deleteBook_keeps_highlights_witness :
  storage_ok Sample.library /\
  exists w' byBook all,
    deleteBook "doc1" Sample.library = (Return tt, w') /\
    books w' !! "doc1" = None /\
    (getHighlightsByBook "doc1" w').1 = Return byBook /\
    (getHighlightsByBook "doc1" Sample.library).1 = Return byBook /\
    (getAllHighlights w').1 = Return all /\
    (getAllHighlights Sample.library).1 = Return all /\
    forall h,
      highlights Sample.library !! Highlight.id h = Some h ->
      Highlight.bookId h = "doc1" ->
      h ∈ all /\
      (0 <= Highlight.createdAt h <=
         clock (env Sample.library) (ticks Sample.library) + year_ms ->
       h ∈ byBook).
Proof.
  split; [apply storage_ok_calm|].
  apply (deleteBook_keeps_highlights Sample.library "doc1"), storage_ok_calm.
Defined.

(** ** The handlers of [BookViewer] *)

Ltac unfold_ops :=
  cbv [handleHighlightSelection handleRemoveHighlight handleRemoveHighlightById
       save_and_draw newHighlightData addHighlight deleteHighlight initDB
       Idb.put_highlights Idb.delete_highlights annotations_add annotations_remove
       setCurrentBookHighlights setShowHighlightPopup setSelectionCfiRange
       setSelectionText setActiveHighlightId setActiveHighlightCfiRange
       console_error_ console_log_ uuidv4 newDate request gets modify try_catch
       mbind M_bind mret M_ret mthrow M_throw].

(** [addHighlight] does not touch the rendering engine or the component. *)
Lemma addHighlight_frame (h : Highlight.t) (w : World) :
  renditionRef (addHighlight h w).2 = renditionRef w /\
  ui (addHighlight h w).2 = ui w.
Proof.
  unfold_ops.
  destruct (idb_fault (env w) (requests w)); [split; reflexivity|]. cbn.
  destruct (idb_fault (env w) (S (requests w))); split; reflexivity.
Qed.

(** What one run of [handleHighlightSelection] does: nothing to store and
    engine; or a store write alone; or a store write followed by the overlay
    of the record written. It never throws. *)
Lemma handleHighlightSelection_effects w book_id st color :
  let r := handleHighlightSelection book_id st color w in
  r.1 = Return tt /\
  ((trace r.2 = trace w /\ renditionRef r.2 = renditionRef w) \/
   (exists id,
      trace r.2 = trace w ++ [StorePut "highlights" id] /\
      renditionRef r.2 = renditionRef w) \/
   (exists id cfi h,
      trace r.2 = trace w ++ [StorePut "highlights" id; OverlayAdd cfi id] /\
      highlights r.2 !! id = Some h /\ Highlight.cfiRange h = cfi)).
Proof.
  intros r. subst r. unfold_ops.
  destruct (selectionCfiRange st) as [cfi|]; [|split; [|left; split]; reflexivity].
  destruct (selectionText st) as [txt|]; [|split; [|left; split]; reflexivity].
  destruct (renditionRef w) as [anns|] eqn:Er; [|split; [|left; split]; cbn; auto].
  destruct (Js.truthy cfi && Js.truthy txt && bookRef w);
    [|split; [|left; split]; cbn; auto].
  cbn.
  destruct (idb_fault (env w) (requests w)) as [e1|] eqn:E1;
    [split; [|left; split]; cbn; auto|].
  cbn.
  destruct (idb_fault (env w) (S (requests w))) as [e2|] eqn:E2;
    [split; [|left; split]; cbn; auto|].
  cbn. rewrite Er.
  destruct (engine_fault (env w) (engine_calls w)) as [e3|] eqn:E3; cbn.
  - split; [reflexivity|]. right. left. eexists. split; [reflexivity|]. auto.
  - split; [reflexivity|]. right. right. eexists _, _, _.
    rewrite <- app_assoc. split; [reflexivity|].
    split; [apply lookup_insert_eq | reflexivity].
Qed.

(** C7: in every run of [handleHighlightSelection], an overlay is registered
    only after the store write of the same highlight took place, and the store
    then holds that highlight under the overlay's position reference; when no
    store write took place the engine's annotations are as before; and when
    [addHighlight] throws, the [try] block ends with that exception, with the
    annotations as they were. *)
Theorem overlay_only_after_store_write (w : World) (book_id : string)
    (st : ViewerState) (color : string) :
  let w' := (handleHighlightSelection book_id st color w).2 in
  (exists new,
     trace w' = trace w ++ new /\
     (forall cfi id, OverlayAdd cfi id ∈ new ->
        exists before after h,
          new = before ++ OverlayAdd cfi id :: after /\
          StorePut "highlights" id ∈ before /\
          highlights w' !! id = Some h /\ Highlight.cfiRange h = cfi) /\
     ((forall id, StorePut "highlights" id ∉ new) ->
        renditionRef w' = renditionRef w)) /\
  (forall cfi data w1 e w2,
     addHighlight data w1 = (Throw e, w2) ->
     save_and_draw cfi color data w1 = (Throw e, w2) /\
     renditionRef w2 = renditionRef w1).
Proof.
  intros w'. split.
  - destruct (handleHighlightSelection_effects w book_id st color)
      as [_ [[Ht Hr] | [(id & Ht & Hr) | (id & cfi & h & Ht & Hh & Hc)]]];
      fold w' in Ht; try fold w' in Hr; try fold w' in Hh.
    + exists []. rewrite app_nil_r. split; [exact Ht|]. split; [|auto].
      intros ? ? Hin. inversion Hin.
    + exists [StorePut "highlights" id]. split; [exact Ht|]. split; [|auto].
      intros ? ? Hin. apply list_elem_of_singleton in Hin. discriminate.
    + exists [StorePut "highlights" id; OverlayAdd cfi id]. split; [exact Ht|]. split.
      * intros cfi' id' Hin. rewrite !elem_of_cons in Hin.
        destruct Hin as [Hin | [Hin | Hin]]; [discriminate | | inversion Hin].
        injection Hin as -> ->.
        exists [StorePut "highlights" id], [], h.
        split; [reflexivity|]. split; [apply list_elem_of_singleton; reflexivity|].
        auto.
      * intros Hno. destruct (Hno id). left.
  - intros cfi data w1 e w2 Hadd. split.
    + unfold save_and_draw. apply bind_throw. exact Hadd.
    + pose proof (addHighlight_frame data w1) as [Hr _].
      rewrite Hadd in Hr. exact Hr.
Qed.

Lemma overlay_only_after_store_write_witness :
  addHighlight Sample.hello Sample.selecting_offline =
    (Throw (DOMException "QuotaExceededError"), count_request Sample.selecting_offline) /\
  save_and_draw "cfi" "yellow" Sample.hello Sample.selecting_offline =
    (Throw (DOMException "QuotaExceededError"), count_request Sample.selecting_offline) /\
  renditionRef (count_request Sample.selecting_offline) =
    renditionRef Sample.selecting_offline.
Proof.
  split; [reflexivity|].
  apply (overlay_only_after_store_write Sample.selecting_offline "doc1"
           Sample.selecting "yellow").
  reflexivity.
Defined.

(** C6, as stated, fails: with the highlight ["h1"] drawn and active and an
    engine whose [annotations.remove] throws, neither remove handler reaches
    [deleteHighlight]: no request is made, the store still holds the record,
    the component still lists it, and the failure is on the console. *)
Lemma overlay_failure_blocks_delete :
  (annotations_remove (Highlight.cfiRange Sample.hello) Sample.active_brittle).1
    = Throw (Error "overlay") /\
  (let w' := (handleRemoveHighlight Sample.active Sample.active_brittle).2 in
   requests w' = 0%nat /\ trace w' = [] /\
   highlights w' !! "h1" = Some Sample.hello /\
   currentBookHighlights (ui w') = [Sample.hello] /\
   console w' = [console_error "Failed to remove highlight:" (Error "overlay")]) /\
  (let w' := (handleRemoveHighlightById Sample.active "h1" Sample.active_brittle).2 in
   requests w' = 0%nat /\ trace w' = [] /\
   highlights w' !! "h1" = Some Sample.hello /\
   currentBookHighlights (ui w') = [Sample.hello] /\
   console w' = [console_error "Failed to remove highlight by ID:" (Error "overlay")]).
Proof. vm_compute. repeat split. Qed.

(** C6, amended: when a remove handler gets past its guard and the engine's
    [annotations.remove] throws, the handler catches the exception, logs it on
    the console under its own label and returns normally, but the deletion is
    given up: the engine was called once, no storage request is made, so
    [deleteHighlight] is not executed, and the store, the component state, the
    engine's annotations and the log of effects are as before. This holds for
    [handleRemoveHighlight] (menu) and for [handleRemoveHighlightById] (list
    panel). *)
Theorem remove_abandoned_on_overlay_failure (w : World) (st : ViewerState)
    (anns : gmap string Annotation) (e : Exn) :
  renditionRef w = Some anns ->
  engine_fault (env w) (engine_calls w) = Some e ->
  (forall id cfi,
     activeHighlightId st = Some id -> Js.truthy id = true ->
     activeHighlightCfiRange st = Some cfi -> Js.truthy cfi = true ->
     let r := handleRemoveHighlight st w in
     r.1 = Return tt /\
     engine_calls r.2 = S (engine_calls w) /\
     requests r.2 = requests w /\
     highlights r.2 = highlights w /\
     ui r.2 = ui w /\
     renditionRef r.2 = renditionRef w /\
     trace r.2 = trace w /\
     console r.2 = console w ++ [console_error "Failed to remove highlight:" e]) /\
  (forall highlightId toRemove,
     List.find (fun hl => String.eqb (Highlight.id hl) highlightId)
       (currentBookHighlights st) = Some toRemove ->
     let r := handleRemoveHighlightById st highlightId w in
     r.1 = Return tt /\
     engine_calls r.2 = S (engine_calls w) /\
     requests r.2 = requests w /\
     highlights r.2 = highlights w /\
     ui r.2 = ui w /\
     renditionRef r.2 = renditionRef w /\
     trace r.2 = trace w /\
     console r.2 =
       console w ++ [console_error "Failed to remove highlight by ID:" e]).
Proof.
  intros Hr He. split.
  - intros id cfi Hi Ti Hc Tc r. subst r. unfold_ops.
    rewrite Hi, Hc, Hr, Ti, Tc. cbn. rewrite Hr, He. cbn.
    repeat split. exact Hr.
  - intros highlightId toRemove Hf r. subst r. unfold handleRemoveHighlightById.
    rewrite Hf. unfold_ops. rewrite Hr. cbn. rewrite Hr, He. cbn.
    repeat split. exact Hr.
Qed.

Lemma remove_abandoned_on_overlay_failure_witness :
  let w := Sample.active_brittle in
  let menu := handleRemoveHighlight Sample.active w in
  let panel := handleRemoveHighlightById Sample.active "h1" w in
  engine_fault (env w) (engine_calls w) = Some (Error "overlay") /\
  (menu.1 = Return tt /\
   engine_calls menu.2 = S (engine_calls w) /\
   requests menu.2 = requests w /\
   highlights menu.2 = highlights w /\
   ui menu.2 = ui w /\
   renditionRef menu.2 = renditionRef w /\
   trace menu.2 = trace w /\
   console menu.2 =
     console w ++ [console_error "Failed to remove highlight:" (Error "overlay")]) /\
  (panel.1 = Return tt /\
   engine_calls panel.2 = S (engine_calls w) /\
   requests panel.2 = requests w /\
   highlights panel.2 = highlights w /\
   ui panel.2 = ui w /\
   renditionRef panel.2 = renditionRef w /\
   trace panel.2 = trace w /\
   console panel.2 =
     console w ++ [console_error "Failed to remove highlight by ID:" (Error "overlay")]).
Proof.
  intros w menu panel. split; [reflexivity|].
  destruct (remove_abandoned_on_overlay_failure w Sample.active
              {[Highlight.cfiRange Sample.hello := Sample.hello_overlay]}
              (Error "overlay") eq_refl eq_refl) as [Hmenu Hpanel].
  split.
  - exact (Hmenu "h1" (Highlight.cfiRange Sample.hello) eq_refl eq_refl eq_refl eq_refl).
  - exact (Hpanel "h1" Sample.hello eq_refl).
Defined.

(** ** [preloadBook] *)

(** C9: the code breaks it. On a first start without network the fetch is
    rejected and no book is stored, yet [preloadBook] logs the error, returns
    normally and sets the flag; at the next start, with the network back (the
    environment [Sample.calm], in which every step of the preload would
    succeed), [preloadBook] finds the flag set and returns at once: still no
    book is stored and the preload is never retried. *)
Lemma preloadBook_sets_flag_after_failure :
  localStorage Sample.fresh_unreachable !! "preloadDone" = None /\
  let r := preloadBook "/asimov/example.epub" Sample.fresh_unreachable in
  r.1 = Return tt /\
  books r.2 = ∅ /\
  console r.2 = [console_error "Error preloading book:" (TypeError "Failed to fetch")] /\
  localStorage r.2 !! "preloadDone" = Some "true" /\
  let next := preloadBook "/asimov/example.epub" (Sample.next_start r.2) in
  next.1 = Return tt /\
  books next.2 = ∅ /\
  requests next.2 = 0%nat.
Proof. vm_compute. repeat split. Qed.

Ltac unfold_preload :=
  cbv [preloadBook localStorage_getItem localStorage_setItem fetch await parseEpub
       addBook initDB Idb.put_books console_error_ console_log_ request gets modify
       try_catch mbind M_bind mret M_ret mthrow M_throw].

(** ** Strings of the data model *)

Lemma append_nil (b : string) : EmptyString +:+ b = b.
Proof. reflexivity. Qed.

Lemma append_String (c : ascii) (a b : string) :
  String c a +:+ b = String c (a +:+ b).
Proof. reflexivity. Qed.

Ltac norm_append := rewrite ?append_String, ?append_nil in *.

(** ** Strings of UTF-16 code units *)

Lemma startsWith_spec (t : Utf16.str) : forall s,
  Utf16.startsWith s t = true <-> exists post, s = t ++ post.
Proof.
  induction t as [|a t IH]; intros s.
  - destruct s; simpl; split; eauto.
  - destruct s as [|b s]; simpl.
    + split; [discriminate | intros [post Hpost]; discriminate].
    + rewrite andb_true_iff, N.eqb_eq, IH. split.
      * intros [-> [post ->]]. exists post. reflexivity.
      * intros [post Hpost]. injection Hpost as -> ->. eauto.
Qed.

Lemma includes_spec (t : Utf16.str) : forall s,
  Utf16.includes s t = true <-> occurs t s.
Proof.
  unfold occurs.
  induction s as [|c s IH]; cbn [Utf16.includes]; rewrite orb_true_iff, startsWith_spec.
  - split.
    + intros [[post Hpost] | Hfalse]; [|discriminate]. exists [], post. exact Hpost.
    + intros (pre & post & Heq). left. destruct pre; [|discriminate]. eauto.
  - rewrite IH. split.
    + intros [[post Hpost] | (pre & post & Heq)].
      * exists [], post. exact Hpost.
      * exists (c :: pre), post. simpl. congruence.
    + intros (pre & post & Heq). destruct pre as [|c' pre]; simpl in Heq.
      * left. eauto.
      * right. exists pre, post. congruence.
Qed.

Lemma trimStart_blank (s : Utf16.str) : Utf16.trimStart s = [] <-> blank s = true.
Proof.
  unfold blank. induction s as [|c s IH]; simpl; [tauto|].
  destruct (Utf16.is_white_space c); simpl; [exact IH|].
  split; discriminate.
Qed.

Lemma trimStart_not_blank (s : Utf16.str) :
  Utf16.trimStart s = [] \/ blank (Utf16.trimStart s) = false.
Proof.
  unfold blank. induction s as [|c s IH]; simpl; [auto|].
  destruct (Utf16.is_white_space c) eqn:E; [exact IH|].
  right. simpl. rewrite E. reflexivity.
Qed.

Lemma trimEnd_blank (s : Utf16.str) : Utf16.trimEnd s = [] <-> blank s = true.
Proof.
  unfold blank. induction s as [|c s IH]; simpl; [tauto|].
  destruct (Utf16.trimEnd s) as [|d r].
  - destruct (Utf16.is_white_space c); simpl.
    + split; [intros _; apply IH; reflexivity | reflexivity].
    + split; discriminate.
  - split; [discriminate|]. rewrite andb_true_iff. intros [_ Hs].
    apply IH in Hs. discriminate.
Qed.

(** [!searchTerm.trim()] holds exactly for the blank terms. *)
Lemma trim_falsy (s : Utf16.str) :
  negb (Utf16.truthy (Utf16.trim s)) = true <-> blank s = true.
Proof.
  assert (Hfalsy : forall r, negb (Utf16.truthy r) = true <-> r = []).
  { intros [|? ?]; simpl; split; congruence. }
  rewrite Hfalsy. unfold Utf16.trim. rewrite trimEnd_blank. split.
  - intros Hb. destruct (trimStart_not_blank s) as [E|E]; [|congruence].
    apply trimStart_blank, E.
  - intros Hb. apply trimStart_blank in Hb. rewrite Hb. reflexivity.
Qed.

(** ** The filter of the highlights panel *)

Section HighlightsPanelFacts.
Context {H : Type} (text : H -> Utf16.str) (note : H -> option Utf16.str).
Variable toLowerCase : Utf16.str -> Utf16.str.

Lemma highlight_matches_spec (term : Utf16.str) (hl : H) :
  highlight_matches text note toLowerCase (toLowerCase term) hl = true <->
  lowered_term_matches text note toLowerCase term hl.
Proof.
  unfold highlight_matches, lowered_term_matches.
  rewrite orb_true_iff, includes_spec.
  destruct (note hl) as [n|].
  - rewrite includes_spec. split; intros [Ht|Hn]; auto.
    + right. eauto.
    + destruct Hn as (n' & Hsome & Hocc). injection Hsome as <-. auto.
  - split; intros [Ht|Hn]; auto; [discriminate|].
    destruct Hn as (n' & Hsome & _). discriminate.
Qed.

(** C8, amended: whatever the engine's lower-casing is, for a blank search
    term (empty or white space only) the panel lists all the highlights; for
    any other term it lists, in their order, exactly the highlights for which
    the lower-cased term occurs in the lower-cased text or in the lower-cased
    note, a highlight without a note matching through its text only. *)
Theorem filteredHighlights_spec (highlights : list H) (searchTerm : Utf16.str) :
  (blank searchTerm = true ->
   filteredHighlights text note toLowerCase highlights searchTerm = highlights) /\
  (blank searchTerm = false ->
   exists keep : H -> bool,
     (forall hl, keep hl = true <->
        lowered_term_matches text note toLowerCase searchTerm hl) /\
     (forall hl, note hl = None ->
        keep hl = true <-> occurs (toLowerCase searchTerm) (toLowerCase (text hl))) /\
     filteredHighlights text note toLowerCase highlights searchTerm
       = List.filter keep highlights).
Proof.
  unfold filteredHighlights. split; intros Hb.
  - apply trim_falsy in Hb. rewrite Hb. reflexivity.
  - destruct (negb (Utf16.truthy (Utf16.trim searchTerm))) eqn:E.
    { apply trim_falsy in E. congruence. }
    exists (highlight_matches text note toLowerCase (toLowerCase searchTerm)).
    split; [intros hl; apply highlight_matches_spec|].
    split; [|reflexivity].
    intros hl Hnote. rewrite highlight_matches_spec. unfold lowered_term_matches.
    rewrite Hnote. split; [|auto].
    intros [Ht | (n & Hn & _)]; [exact Ht | discriminate].
Qed.

End HighlightsPanelFacts.

(** C8, as stated, fails: the capital sigma occurs, as it is, in the text of the
    street sign, so it is a case-insensitive substring of it; but lower-casing
    the text turns its last letter into the final sigma, lower-casing the term
    gives the small sigma, and the panel drops the highlight. *)
Lemma final_sigma_not_matched :
  occurs [931%N] (excerpt_text Sample.street) /\
  blank [931%N] = false /\
  Utf16.toLowerCase_letters (excerpt_text Sample.street) = [959; 948; 959; 962]%N /\
  Utf16.toLowerCase_letters [931%N] = [963%N] /\
  filteredHighlights excerpt_text excerpt_note Utf16.toLowerCase_letters
    [Sample.street] [931%N] = [].
Proof.
  split; [exists [927; 916; 927]%N, []; reflexivity|].
  repeat split; vm_compute; reflexivity.
Qed.

Lemma filteredHighlights_spec_witness :
  let shown := [Sample.hello; Sample.other] in
  let spaces := [32; 32]%N in
  let term := Utf16.of_string "O WOR" in
  blank spaces = true /\
  filteredHighlights panel_text panel_note Utf16.toLowerCase_letters shown spaces
    = shown /\
  blank term = false /\
  exists keep : Highlight.t -> bool,
    (forall hl, keep hl = true <->
       lowered_term_matches panel_text panel_note Utf16.toLowerCase_letters term hl) /\
    (forall hl, panel_note hl = None ->
       keep hl = true <->
       occurs (Utf16.toLowerCase_letters term)
         (Utf16.toLowerCase_letters (panel_text hl))) /\
    filteredHighlights panel_text panel_note Utf16.toLowerCase_letters shown term
      = List.filter keep shown.
Proof.
  intros shown spaces term.
  split; [reflexivity|]. split.
  - apply (filteredHighlights_spec panel_text panel_note Utf16.toLowerCase_letters
             shown spaces). reflexivity.
  - split; [reflexivity|].
    apply (filteredHighlights_spec panel_text panel_note Utf16.toLowerCase_letters
             shown term). reflexivity.
Defined.

Example filteredHighlights_by_text :
  filteredHighlights panel_text panel_note Utf16.toLowerCase_letters
    [Sample.hello; Sample.other] (Utf16.of_string "O WOR") = [Sample.hello].
Proof. vm_compute. reflexivity. Qed.

Example filteredHighlights_by_note :
  filteredHighlights panel_text panel_note Utf16.toLowerCase_letters
    [Sample.hello; Sample.other] (Utf16.of_string "Note") = [Sample.other].
Proof. vm_compute. reflexivity. Qed.

Example filteredHighlights_untrimmed_term :
  filteredHighlights panel_text panel_note Utf16.toLowerCase_letters
    [Sample.hello; Sample.other] (Utf16.of_string " hello") = [].
Proof. vm_compute. reflexivity. Qed.

(** ** Creating highlights and listing them by book *)

Lemma created_ids e hs : forall t,
  Highlight.id <$> created e t hs = Highlight.id <$> hs.
Proof.
  induction hs as [|h hs IH]; intros t; simpl; [reflexivity|].
  rewrite IH. reflexivity.
Qed.

Lemma created_length e hs : forall t, length (created e t hs) = length hs.
Proof. induction hs as [|h hs IH]; intros t; simpl; [reflexivity | rewrite IH; reflexivity]. Qed.

Lemma create_all_ok hs : forall w,
  storage_ok w ->
  exists w',
    create_all hs w = (Return tt, w') /\
    env w' = env w /\
    ticks w' = (ticks w + 2 * length hs)%nat /\
    storage_ok w' /\
    highlights w' = foldl put_record (highlights w) (created (env w) (ticks w) hs).
Proof.
  induction hs as [|h hs IH]; intros w Hok; simpl.
  - exists w. repeat split; auto; lia.
  - erewrite bind_return by (apply addHighlight_ok, Hok).
    destruct (IH (record_effect
       (set_highlights (count_request (tick (tick (count_request w))))
          (<[Highlight.id h := stamp_created w h]> (highlights w)))
       (StorePut "highlights" (Highlight.id h)))) as (w' & Hrun & He & Ht & Hs & Hh).
    { unfold storage_ok. simpl. auto with storage. }
    exists w'. split; [exact Hrun|]. simpl in *.
    split; [exact He|]. split; [lia|]. split; [exact Hs|]. exact Hh.
Qed.

(** The records of a store filled by successive puts under fresh, distinct
    ids. *)
Lemma records_foldl_put (l : list Highlight.t) : forall m,
  NoDup (Highlight.id <$> l) ->
  (forall h, h ∈ l -> m !! Highlight.id h = None) ->
  Idb.records (foldl put_record m l) ≡ₚ l ++ Idb.records m.
Proof.
  induction l as [|h l IH]; intros m Hnd Hfresh; simpl; [reflexivity|].
  rewrite fmap_cons in Hnd. apply NoDup_cons in Hnd as [Hh Hnd].
  rewrite IH; [| exact Hnd |].
  - unfold put_record at 1, Idb.records.
    rewrite map_to_list_insert by (apply Hfresh; left).
    simpl. symmetry. apply Permutation_middle.
  - intros h' Hh'. unfold put_record. rewrite lookup_insert_ne.
    + apply Hfresh. right. exact Hh'.
    + intros E. apply Hh. rewrite E. apply list_elem_of_fmap. eauto.
Qed.

Lemma StronglySorted_weaken {A} (R R' : relation A) (l : list A) :
  (forall a b, a ∈ l -> b ∈ l -> R a b -> R' a b) ->
  StronglySorted R l -> StronglySorted R' l.
Proof.
  intros Himp Hs. induction Hs as [|x l Hl IH Hx]; [constructor|].
  constructor.
  - apply IH. intros a b Ha Hb. apply Himp; right; assumption.
  - rewrite List.Forall_forall in *. intros y Hy.
    apply Himp; [left | right; apply list_elem_of_In; exact Hy | apply Hx, Hy].
Qed.

Lemma filter_ext_in {A} (P Q : A -> Prop) `{!forall x, Decision (P x)}
    `{!forall x, Decision (Q x)} (l : list A) :
  (forall x, x ∈ l -> P x <-> Q x) -> filter P l = filter Q l.
Proof.
  induction l as [|x l IH]; intros Hext; [reflexivity|].
  rewrite !filter_cons.
  rewrite IH by (intros y Hy; apply Hext; right; exact Hy).
  destruct (decide (P x)) as [Hp|Hp], (decide (Q x)) as [Hq|Hq]; try reflexivity.
  - destruct Hq. apply Hext; [left | exact Hp].
  - destruct Hp. apply Hext; [left | exact Hq].
Qed.


(** The core of C3 and C4: after creating [hs] in an empty store,
    [getHighlightsByBook] resolves to the created records of the book, in
    index order. *)
Lemma created_then_listed (w : World) (hs : list Highlight.t) (d : string) :
  highlights w = ∅ ->
  storage_ok w ->
  NoDup (Highlight.id <$> hs) ->
  Forall (fun c => 0 <= Highlight.createdAt c
                   <= clock (env w) (ticks w + 2 * length hs) + year_ms)
    (created (env w) (ticks w) hs) ->
  exists w1 w2 result,
    create_all hs w = (Return tt, w1) /\
    getHighlightsByBook d w1 = (Return result, w2) /\
    result ≡ₚ filter (fun c => Highlight.bookId c = d) (created (env w) (ticks w) hs) /\
    StronglySorted Idb.by_bookId_createdAt_le result.
Proof.
  intros Hempty Hok Hnd Hwin.
  destruct (create_all_ok hs w Hok) as (w1 & Hrun & He & Ht & Hok1 & Hh).
  exists w1, (count_request (count_request (tick (count_request w1)))), (book_range w1 d).
  split; [exact Hrun|]. split; [apply getHighlightsByBook_ok, Hok1|].
  unfold book_range. split.
  - unfold Idb.by_bookId_createdAt. rewrite merge_sort_Permutation.
    rewrite Hh, Hempty, records_foldl_put.
    + unfold Idb.records at 1. rewrite map_to_list_empty. simpl. rewrite app_nil_r.
      erewrite filter_ext_in; [reflexivity|].
      intros c Hc. rewrite bound_same_book, He, Ht.
      rewrite Forall_forall in Hwin. specialize (Hwin c Hc). tauto.
    + rewrite created_ids. exact Hnd.
    + intros h _. apply lookup_empty.
  - apply StronglySorted_filter. apply StronglySorted_merge_sort; apply _.
Qed.





Example getHighlightsByBook_interleaved :
  (fun r => match r with Return l => Highlight.id <$> l | Throw _ => [] end)
    ((create_all [Sample.first_made; Sample.other; Sample.second_made] ;;
      getHighlightsByBook "doc1") Sample.fresh).1
  = ["b"; "a"].
Proof. vm_compute. reflexivity. Qed.

(** Create a highlight, list it, delete it, list again. *)
Example create_list_delete_list :
  ((addHighlight Sample.hello ;;
    before ← getHighlightsByBook "doc1" ;
    deleteHighlight "h1" ;;
    after ← getHighlightsByBook "doc1" ;
    mret (Highlight.id <$> before, after)) Sample.fresh).1
  = Return (["h1"], []).
Proof. vm_compute. reflexivity. Qed.

(** C4, as stated, fails: with the clock standing still, the highlight ["b"]
    and then the highlight ["a"] are created in document ["doc1"] with equal
    [createdAt]; [getHighlightsByBook] lists ["a"], created second, first. *)
Lemma tie_not_in_insertion_order :
  let stamp := fun h => Highlight.set_updatedAt 1000 (Highlight.set_createdAt 1000 h) in
  created (env Sample.fresh_frozen) 0 [Sample.first_made; Sample.second_made]
    = [stamp Sample.first_made; stamp Sample.second_made] /\
  ((create_all [Sample.first_made; Sample.second_made] ;;
    getHighlightsByBook "doc1") Sample.fresh_frozen).1
    = Return [stamp Sample.second_made; stamp Sample.first_made].
Proof. split; vm_compute; reflexivity. Qed.

(** C4, amended: two highlights with distinct ids created one after the other
    in the same document of an empty store with equal [createdAt] are listed
    by [getHighlightsByBook] in the order of their ids, the index's order on
    primary keys: the first created comes first exactly when its id is the
    smaller one. *)
Theorem ties_listed_by_id (w : World) (a b : Highlight.t) (d : string) :
  highlights w = ∅ ->
  storage_ok w ->
  Highlight.bookId a = d ->
  Highlight.bookId b = d ->
  Highlight.id a <> Highlight.id b ->
  clock (env w) (ticks w) = clock (env w) (S (S (ticks w))) ->
  0 <= clock (env w) (ticks w) <= clock (env w) (ticks w + 4) + year_ms ->
  exists w1 w2 a' b',
    created (env w) (ticks w) [a; b] = [a'; b'] /\
    Highlight.createdAt a' = Highlight.createdAt b' /\
    create_all [a; b] w = (Return tt, w1) /\
    getHighlightsByBook d w1 =
      (Return (if decide (String.le (Highlight.id a) (Highlight.id b))
               then [a'; b'] else [b'; a']), w2).
Proof.
  intros Hempty Hok Ha Hb Hne Htie Hwin.
  destruct (created_then_listed w [a; b] d Hempty Hok)
    as (w1 & w2 & result & Hrun & Hget & Hperm & Hsorted).
  { rewrite !fmap_cons. apply NoDup_cons.
    split; [rewrite list_elem_of_singleton; exact Hne | apply NoDup_singleton]. }
  { simpl. rewrite <- Htie. repeat constructor; simpl; lia. }
  simpl in Hperm.
  rewrite !filter_cons, filter_nil in Hperm. simpl in Hperm.
  rewrite !decide_True in Hperm by assumption.
  eexists w1, w2, _, _. split; [reflexivity|]. split; [simpl; exact Htie|].
  split; [exact Hrun|]. rewrite Hget. f_equal. f_equal.
  symmetry in Hperm. apply Permutation_length_2_inv in Hperm.
  set (a' := Highlight.set_updatedAt _ (Highlight.set_createdAt _ a)) in *.
  set (b' := Highlight.set_updatedAt _ (Highlight.set_createdAt _ b)) in *.
  assert (Hkey : Idb.by_bookId_createdAt_key a' = Idb.by_bookId_createdAt_key b').
  { unfold Idb.by_bookId_createdAt_key. simpl. congruence. }
  destruct Hperm as [-> | ->]; inversion Hsorted as [|? ? _ Hhd]; subst;
    apply Forall_cons in Hhd as [Hle _]; apply lex_le_eq in Hle; simpl in Hle; auto.
  - rewrite decide_True by exact Hle. reflexivity.
  - destruct (decide (String.le (Highlight.id a) (Highlight.id b))) as [Hab|Hab];
      [|reflexivity].
    destruct Hne. apply (anti_symm String.le); assumption.
Qed.

Lemma ties_listed_by_id_witness :
  let stamp := fun h => Highlight.set_updatedAt 1000 (Highlight.set_createdAt 1000 h) in
  Highlight.id Sample.first_made <> Highlight.id Sample.second_made /\
  clock (env Sample.fresh_frozen) 0 = clock (env Sample.fresh_frozen) 2 /\
  exists w1 w2 a' b',
    created (env Sample.fresh_frozen) 0 [Sample.first_made; Sample.second_made]
      = [a'; b'] /\
    Highlight.createdAt a' = Highlight.createdAt b' /\
    create_all [Sample.first_made; Sample.second_made] Sample.fresh_frozen
      = (Return tt, w1) /\
    getHighlightsByBook "doc1" w1 =
      (Return (if decide (String.le "b" "a") then [a'; b'] else [b'; a']), w2).
Proof.
  intros stamp. split; [discriminate|]. split; [reflexivity|].
  apply (ties_listed_by_id Sample.fresh_frozen Sample.first_made Sample.second_made "doc1").
  - reflexivity.
  - intros k _. reflexivity.
  - reflexivity.
  - reflexivity.
  - discriminate.
  - reflexivity.
  - unfold year_ms. simpl. lia.
Defined.

(** * Further properties *)

(** ** Books *)

#[local] Instance by_book_id_trans :
  Transitive (fun a b => String.le (Book.id a) (Book.id b)).
Proof. intros a b c. apply (transitivity (R := String.le)). Qed.

#[local] Instance by_book_id_total :
  Total (fun a b => String.le (Book.id a) (Book.id b)).
Proof. intros a b. apply (total String.le). Qed.

#[local] Instance books_by_updated_at_le_trans : Transitive books_by_updated_at_le.
Proof. apply lex_le_trans; apply _. Qed.

#[local] Instance books_by_updated_at_le_total : Total books_by_updated_at_le.
Proof. apply lex_le_total; apply _. Qed.

Lemma StronglySorted_reverse {A} (R : relation A) (l : list A) :
  StronglySorted R l -> StronglySorted (flip R) (reverse l).
Proof.
  induction 1 as [|x l Hl IH Hx]; [constructor|].
  rewrite reverse_cons. apply StronglySorted_app.
  split; [|split; [exact IH | repeat constructor]].
  intros a b Ha Hb. apply list_elem_of_singleton in Hb as ->.
  rewrite elem_of_reverse in Ha. rewrite List.Forall_forall in Hx.
  apply Hx, list_elem_of_In, Ha.
Qed.

Lemma addBook_ok w book :
  storage_ok w ->
  addBook book w =
    (Return (Book.id book),
     record_effect
       (set_books (count_request (count_request w))
          (<[Book.id book := book]> (books w)))
       (StorePut "books" (Book.id book))).
Proof.
  intros H. unfold addBook, initDB, Idb.put_books.
  rewrite (bind_return _ _ _ _ _ (request_ok w H)).
  erewrite bind_return by (apply request_ok, storage_ok_count_request, H).
  reflexivity.
Qed.

Lemma getBook_run w id :
  storage_ok w ->
  getBook id w =
    (match books w !! id with
     | Some book => Return book
     | None => Throw (Error "Book not found")
     end, count_request (count_request w)).
Proof.
  intros H. unfold getBook, initDB, get_books.
  rewrite (bind_return _ _ _ _ _ (request_ok w H)).
  erewrite bind_return.
  2:{ erewrite bind_return by (apply request_ok, storage_ok_count_request, H).
      reflexivity. }
  simpl. destruct (books w !! id); reflexivity.
Qed.

(** X1: when no storage request is rejected, [getBook] of an id the store does
    not hold throws [Error "Book not found"], and [getBook] of an id it holds
    returns the stored book; in both cases both stores stay as they are. *)
Theorem getBook_found_or_not_found (w : World) (id : string) :
  storage_ok w ->
  exists w',
    books w' = books w /\ highlights w' = highlights w /\
    (books w !! id = None ->
     getBook id w = (Throw (Error "Book not found"), w')) /\
    (forall book, books w !! id = Some book -> getBook id w = (Return book, w')).
Proof.
  intros Hok. exists (count_request (count_request w)).
  split; [reflexivity|]. split; [reflexivity|].
  rewrite (getBook_run w id Hok). split.
  - intros ->. reflexivity.
  - intros book ->. reflexivity.
Qed.

Lemma getBook_found_or_not_found_witness :
  storage_ok Sample.library /\
  exists w',
    books w' = books Sample.library /\ highlights w' = highlights Sample.library /\
    (books Sample.library !! "nope" = None ->
     getBook "nope" Sample.library = (Throw (Error "Book not found"), w')) /\
    (forall book, books Sample.library !! "nope" = Some book ->
       getBook "nope" Sample.library = (Return book, w')).
Proof.
  split; [apply storage_ok_calm|].
  apply (getBook_found_or_not_found Sample.library "nope"), storage_ok_calm.
Defined.

(** X2: when no storage request is rejected, [getBook] after [addBook]
    returns the book as it was added, whether or not the store held a book
    under that id before, and books under other ids are untouched. *)
Theorem addBook_then_getBook (w : World) (book : Book.t) :
  storage_ok w ->
  exists w',
    (addBook book ;; getBook (Book.id book)) w = (Return book, w') /\
    forall k, k <> Book.id book -> books w' !! k = books w !! k.
Proof.
  intros Hok. eexists. split.
  - erewrite bind_return by (apply addBook_ok, Hok).
    rewrite getBook_run by (unfold storage_ok; simpl; auto with storage).
    simpl. rewrite lookup_insert_eq. reflexivity.
  - intros k Hk. simpl. apply lookup_insert_ne. congruence.
Qed.

Lemma addBook_then_getBook_witness :
  storage_ok Sample.library /\
  exists w',
    (addBook Sample.doc1 ;; getBook (Book.id Sample.doc1)) Sample.library
      = (Return Sample.doc1, w') /\
    forall k, k <> Book.id Sample.doc1 -> books w' !! k = books Sample.library !! k.
Proof.
  split; [apply storage_ok_calm|].
  apply (addBook_then_getBook Sample.library Sample.doc1), storage_ok_calm.
Defined.

Lemma books_cursor_loop_ok cursor : forall acc w,
  storage_ok w ->
  books_cursor_loop cursor acc w =
    (Return (acc ++ cursor), Nat.iter (length cursor) count_request w).
Proof.
  induction cursor as [|value rest IH]; intros acc w H; simpl.
  - rewrite app_nil_r. reflexivity.
  - erewrite bind_return by (apply request_ok, H).
    rewrite IH by (apply storage_ok_count_request, H).
    rewrite <- app_assoc. simpl. f_equal.
    clear. induction (length rest) as [|n IHn]; simpl; [reflexivity|].
    rewrite IHn. reflexivity.
Qed.

Lemma getAllBooks_ok w :
  storage_ok w ->
  exists w',
    getAllBooks w = (Return (reverse (books_by_updated_at (books w))), w') /\
    books w' = books w.
Proof.
  intros H. unfold getAllBooks, initDB, openCursor_books_prev.
  rewrite (bind_return _ _ _ _ _ (request_ok w H)).
  assert (H1 : storage_ok (count_request w)) by (apply storage_ok_count_request, H).
  erewrite bind_return.
  2:{ erewrite bind_return by (apply request_ok, H1). reflexivity. }
  rewrite books_cursor_loop_ok by (apply storage_ok_count_request, H1).
  eexists. split; [reflexivity|].
  generalize (length (reverse (books_by_updated_at (books (count_request (count_request w)))))).
  intros n. induction n as [|n IHn]; simpl; [reflexivity | exact IHn].
Qed.

(** The books in index order, most recent first. *)
Lemma books_most_recent_first store :
  reverse (books_by_updated_at store) ≡ₚ Idb.records store /\
  StronglySorted (fun a b => Book.updatedAt b <= Book.updatedAt a)
    (reverse (books_by_updated_at store)).
Proof.
  split.
  - rewrite reverse_Permutation. apply merge_sort_Permutation.
  - apply (StronglySorted_weaken (flip books_by_updated_at_le)).
    + intros a b _ _ H. unfold flip in H. apply lex_le_key in H; [exact H | apply _].
    + apply StronglySorted_reverse, StronglySorted_merge_sort; apply _.
Qed.

(** X3: when no storage request is rejected, [getAllBooks] returns every
    stored book exactly once, the most recently updated first, and leaves the
    store as it is. *)
Theorem getAllBooks_all_most_recent_first (w : World) :
  storage_ok w ->
  exists result w',
    getAllBooks w = (Return result, w') /\
    books w' = books w /\
    result ≡ₚ Idb.records (books w) /\
    StronglySorted (fun a b => Book.updatedAt b <= Book.updatedAt a) result.
Proof.
  intros Hok. destruct (getAllBooks_ok w Hok) as (w' & Hrun & Hb).
  exists (reverse (books_by_updated_at (books w))), w'.
  split; [exact Hrun|]. split; [exact Hb|]. apply books_most_recent_first.
Qed.

Lemma getAllBooks_all_most_recent_first_witness :
  storage_ok Demo.shelf /\
  exists result w',
    getAllBooks Demo.shelf = (Return result, w') /\
    books w' = books Demo.shelf /\
    result ≡ₚ Idb.records (books Demo.shelf) /\
    StronglySorted (fun a b => Book.updatedAt b <= Book.updatedAt a) result.
Proof.
  split; [apply storage_ok_calm|].
  apply (getAllBooks_all_most_recent_first Demo.shelf), storage_ok_calm.
Defined.

Example getAllBooks_shelf :
  (getAllBooks Demo.shelf).1 = Return [Demo.doc2; Sample.doc1].
Proof. vm_compute. reflexivity. Qed.

Lemma updateBook_ok w book :
  storage_ok w ->
  let book' := Book_set_updatedAt (clock (env w) (ticks w)) book in
  updateBook book w =
    (Return (book', Book.id book),
     record_effect
       (set_books (count_request (tick (count_request w)))
          (<[Book.id book := book']> (books w)))
       (StorePut "books" (Book.id book))).
Proof.
  intros H book'. unfold updateBook, initDB, Idb.put_books.
  rewrite (bind_return _ _ _ _ _ (request_ok w H)).
  unfold newDate at 1. rewrite bind_run.
  erewrite bind_return; [reflexivity|].
  erewrite bind_return by (apply request_ok; repeat apply storage_ok_from_S; exact H).
  reflexivity.
Qed.

(** X4: when no storage request is rejected and the clock reads later than
    the [updatedAt] of every other stored book, the book just passed to
    [updateBook] is the first that [getAllBooks] returns, with its
    [updatedAt] set to the clock's reading. *)
Theorem updateBook_moves_to_front (w : World) (book : Book.t) :
  storage_ok w ->
  (forall k b, books w !! k = Some b -> k <> Book.id book ->
     Book.updatedAt b < clock (env w) (ticks w)) ->
  exists rest w',
    (updateBook book ;; getAllBooks) w =
      (Return (Book_set_updatedAt (clock (env w) (ticks w)) book :: rest), w').
Proof.
  intros Hok Hlater.
  set (book' := Book_set_updatedAt (clock (env w) (ticks w)) book).
  set (w1 := record_effect
       (set_books (count_request (tick (count_request w)))
          (<[Book.id book := book']> (books w)))
       (StorePut "books" (Book.id book))).
  assert (Hok1 : storage_ok w1).
  { unfold storage_ok. simpl. auto with storage. }
  destruct (getAllBooks_ok w1 Hok1) as (w' & Hrun & _).
  erewrite bind_return by (apply updateBook_ok, Hok). fold book' w1.
  rewrite Hrun. simpl.
  destruct (books_most_recent_first (<[Book.id book := book']> (books w)))
    as [Hperm Hsorted].
  assert (Hin : book' ∈ reverse (books_by_updated_at (<[Book.id book := book']> (books w)))).
  { rewrite Hperm. apply elem_of_records. exists (Book.id book).
    apply lookup_insert_eq. }
  destruct (reverse (books_by_updated_at (<[Book.id book := book']> (books w))))
    as [|first rest] eqn:E; [inversion Hin|].
  exists rest, w'. do 3 f_equal.
  assert (Hfirst : first ∈ Idb.records (<[Book.id book := book']> (books w))).
  { rewrite <- Hperm. left. }
  apply elem_of_records in Hfirst as [k Hk].
  destruct (decide (k = Book.id book)) as [->|Hne].
  - rewrite lookup_insert_eq in Hk. congruence.
  - rewrite lookup_insert_ne in Hk by congruence.
    apply elem_of_cons in Hin as [Heq | Hrest]; [congruence|].
    apply StronglySorted_cons in Hsorted as [Hall _].
    rewrite Forall_forall in Hall.
    pose proof (Hall _ Hrest) as Hle. simpl in Hle.
    pose proof (Hlater k first Hk Hne). lia.
Qed.

Lemma updateBook_moves_to_front_witness :
  storage_ok Demo.shelf /\
  (forall k b, books Demo.shelf !! k = Some b -> k <> Book.id Sample.doc1 ->
     Book.updatedAt b < clock (env Demo.shelf) (ticks Demo.shelf)) /\
  exists rest w',
    (updateBook Sample.doc1 ;; getAllBooks) Demo.shelf =
      (Return (Book_set_updatedAt (clock (env Demo.shelf) (ticks Demo.shelf))
                 Sample.doc1 :: rest), w').
Proof.
  assert (Hlater : forall k b, books Demo.shelf !! k = Some b ->
            k <> Book.id Sample.doc1 ->
            Book.updatedAt b < clock (env Demo.shelf) (ticks Demo.shelf)).
  { intros k b Hk Hne.
    change (books Demo.shelf)
      with (<["doc1" := Sample.doc1]> (<["doc2" := Demo.doc2]> (∅ : gmap string Book.t)))
      in Hk.
    rewrite lookup_insert_ne in Hk by (intros E; apply Hne; rewrite <- E; reflexivity).
    destruct (decide (k = "doc2")) as [->|Hd].
    - rewrite lookup_insert_eq in Hk. injection Hk as <-. vm_compute. reflexivity.
    - rewrite lookup_insert_ne in Hk by congruence. discriminate. }
  split; [apply storage_ok_calm|]. split; [exact Hlater|].
  apply (updateBook_moves_to_front Demo.shelf Sample.doc1);
    [apply storage_ok_calm | exact Hlater].
Defined.

Example updateBook_shelf :
  (fun o => match o with Return l => Book.id <$> l | Throw _ => [] end)
    ((updateBook Sample.doc1 ;; getAllBooks) Demo.shelf).1
  = ["doc1"; "doc2"].
Proof. vm_compute. reflexivity. Qed.

(** ** The highlights store *)

(** X5: when no storage request is rejected, [getAllHighlights] returns every
    stored highlight exactly once, across all books, the most recently updated
    first. *)
Theorem getAllHighlights_all_most_recent_first (w : World) :
  storage_ok w ->
  exists result w',
    getAllHighlights w = (Return result, w') /\
    result ≡ₚ Idb.records (highlights w) /\
    StronglySorted (fun a b => Highlight.updatedAt b <= Highlight.updatedAt a) result.
Proof.
  intros Hok. destruct (getAllHighlights_ok w Hok) as (w' & Hrun).
  exists (reverse (Idb.by_updatedAt (highlights w))), w'.
  split; [exact Hrun|]. split.
  - rewrite reverse_Permutation. apply merge_sort_Permutation.
  - apply (StronglySorted_weaken (flip Idb.by_updatedAt_le)).
    + intros a b _ _ H. unfold flip in H. apply lex_le_key in H; [exact H | apply _].
    + apply StronglySorted_reverse, StronglySorted_merge_sort; apply _.
Qed.

Lemma getAllHighlights_all_most_recent_first_witness :
  storage_ok Sample.library /\
  exists result w',
    getAllHighlights Sample.library = (Return result, w') /\
    result ≡ₚ Idb.records (highlights Sample.library) /\
    StronglySorted (fun a b => Highlight.updatedAt b <= Highlight.updatedAt a) result.
Proof.
  split; [apply storage_ok_calm|].
  apply (getAllHighlights_all_most_recent_first Sample.library), storage_ok_calm.
Defined.

(** X6: a highlight created under the id of a stored highlight replaces it.
    When no storage request is rejected, after creating [a] and then [b] with
    the same id the store is what it would be had only [b] been created, at
    [b]'s readings of the clock: [a] is lost without an error. *)
Theorem addHighlight_same_id_replaces (w : World) (a b : Highlight.t) :
  storage_ok w ->
  Highlight.id a = Highlight.id b ->
  exists w',
    create_all [a; b] w = (Return tt, w') /\
    highlights w' =
      <[Highlight.id b :=
          Highlight.set_updatedAt (clock (env w) (3 + ticks w))
            (Highlight.set_createdAt (clock (env w) (2 + ticks w)) b)]>
        (highlights w).
Proof.
  intros Hok Hid.
  destruct (create_all_ok [a; b] w Hok) as (w' & Hrun & _ & _ & _ & Hh).
  exists w'. split; [exact Hrun|]. rewrite Hh. simpl. unfold put_record. simpl.
  rewrite Hid. apply insert_insert_eq.
Qed.

Lemma addHighlight_same_id_replaces_witness :
  storage_ok Sample.fresh /\
  Highlight.id Sample.hello = Highlight.id Sample.hello /\
  exists w',
    create_all [Sample.hello; Sample.hello] Sample.fresh = (Return tt, w') /\
    highlights w' =
      <[Highlight.id Sample.hello :=
          Highlight.set_updatedAt (clock (env Sample.fresh) (3 + ticks Sample.fresh))
            (Highlight.set_createdAt (clock (env Sample.fresh) (2 + ticks Sample.fresh))
               Sample.hello)]>
        (highlights Sample.fresh).
Proof.
  split; [apply storage_ok_calm|]. split; [reflexivity|].
  apply (addHighlight_same_id_replaces Sample.fresh Sample.hello Sample.hello).
  - apply storage_ok_calm.
  - reflexivity.
Defined.

(** X7: when no storage request is rejected, creating a highlight under an id
    the store does not hold and then deleting that id leaves the store exactly
    as it was. *)
Theorem addHighlight_then_deleteHighlight (w : World) (h : Highlight.t) :
  storage_ok w ->
  highlights w !! Highlight.id h = None ->
  exists r w',
    (addHighlight h ;; deleteHighlight (Highlight.id h)) w = (Return r, w') /\
    highlights w' = highlights w.
Proof.
  intros Hok Hfresh. eexists _, _. split.
  - erewrite bind_return by (apply addHighlight_ok, Hok).
    apply deleteHighlight_ok. unfold storage_ok. simpl. auto with storage.
  - simpl. rewrite delete_insert_eq. apply delete_id, Hfresh.
Qed.

Lemma addHighlight_then_deleteHighlight_witness :
  storage_ok Sample.library /\
  highlights Sample.library !! Highlight.id Sample.blank = None /\
  exists r w',
    (addHighlight Sample.blank ;; deleteHighlight (Highlight.id Sample.blank))
      Sample.library = (Return r, w') /\
    highlights w' = highlights Sample.library.
Proof.
  assert (H : highlights Sample.library !! Highlight.id Sample.blank = None).
  { vm_compute. reflexivity. }
  split; [apply storage_ok_calm|]. split; [exact H|].
  apply (addHighlight_then_deleteHighlight Sample.library Sample.blank);
    [apply storage_ok_calm | exact H].
Defined.

(** ** The handlers of [BookViewer], path by path *)

Lemma engine_ok_calm n : engine_ok_from Sample.calm n.
Proof. intros k _. reflexivity. Qed.

(** X8: [handleHighlightSelection] does nothing at all (no id is generated,
    the clock is not read, no request is made, nothing is logged) when the
    selection's position reference or text is absent or empty, or when the
    book or the rendition is not mounted. *)
Theorem handleHighlightSelection_guard (w : World) (book_id : string)
    (st : ViewerState) (color : string) :
  Js.truthy_opt (selectionCfiRange st) = false \/
  Js.truthy_opt (selectionText st) = false \/
  bookRef w = false \/
  renditionRef w = None ->
  handleHighlightSelection book_id st color w = (Return tt, w).
Proof.
  intros H. unfold_ops.
  destruct (selectionCfiRange st) as [cfi|]; [|reflexivity].
  destruct (selectionText st) as [txt|]; [|reflexivity].
  destruct (renditionRef w) as [anns|]; [|reflexivity].
  simpl in H.
  destruct H as [-> | [-> | [-> | H]]]; try discriminate;
    rewrite ?andb_false_r; reflexivity.
Qed.

Lemma handleHighlightSelection_guard_witness :
  (Js.truthy_opt (selectionCfiRange Sample.idle) = false \/
   Js.truthy_opt (selectionText Sample.idle) = false \/
   bookRef Sample.fresh = false \/
   renditionRef Sample.fresh = None) /\
  handleHighlightSelection "doc1" Sample.idle "yellow" Sample.fresh
    = (Return tt, Sample.fresh).
Proof.
  split; [left; reflexivity|].
  apply (handleHighlightSelection_guard Sample.fresh "doc1" Sample.idle "yellow").
  left. reflexivity.
Defined.

(** The record [handleHighlightSelection] creates on [w]: the id comes from
    [uuidv4], and the time stamps are the third and fourth readings of the
    clock, those of [addHighlight], not the two of the object literal. *)
Lemma handleHighlightSelection_store_ok (w : World) (book_id : string)
    (st : ViewerState) (color cfi txt : string) anns :
  selectionCfiRange st = Some cfi -> Js.truthy cfi = true ->
  selectionText st = Some txt -> Js.truthy txt = true ->
  bookRef w = true ->
  renditionRef w = Some anns ->
  storage_ok w ->
  let id := uuid (env w) (uuids w) in
  let h := Highlight.mk id book_id cfi txt color None
             (clock (env w) (2 + ticks w)) (clock (env w) (3 + ticks w)) in
  let r := handleHighlightSelection book_id st color w in
  r.1 = Return tt /\
  highlights r.2 = <[id := h]> (highlights w) /\
  currentBookHighlights (ui r.2) = currentBookHighlights (ui w) ++ [h] /\
  activeHighlightId (ui r.2) = activeHighlightId (ui w) /\
  match engine_fault (env w) (engine_calls w) with
  | None =>
      renditionRef r.2 =
        Some (<[cfi := Build_Annotation "highlight" cfi id "custom-highlight" color]> anns) /\
      showHighlightPopup (ui r.2) = false /\
      selectionCfiRange (ui r.2) = None /\
      selectionText (ui r.2) = None /\
      console r.2 = console w
  | Some e =>
      renditionRef r.2 = Some anns /\
      showHighlightPopup (ui r.2) = showHighlightPopup (ui w) /\
      selectionCfiRange (ui r.2) = selectionCfiRange (ui w) /\
      selectionText (ui r.2) = selectionText (ui w) /\
      console r.2 = console w ++ [console_error "Failed to save highlight:" e]
  end.
Proof.
  intros Hc Tc Ht Tt Hb Hr Hok id h r. subst r id h. unfold_ops.
  rewrite Hc, Ht, Hr, Tc, Tt, Hb. cbn.
  rewrite (storage_ok_from_here _ _ Hok). cbn.
  rewrite (storage_ok_from_here _ _ (storage_ok_from_S _ _ Hok)). cbn.
  rewrite Hr.
  destruct (engine_fault (env w) (engine_calls w)) as [e|]; cbn; repeat split;
    exact Hr.
Qed.

(** X9: with text selected, the viewer mounted, no storage request rejected
    and an engine that does not throw, [handleHighlightSelection] stores one
    new record under the generated id, appends that same record (with the
    time stamps [addHighlight] gave it) to the in-memory highlights, registers
    one overlay under the selection's position reference carrying the id and
    the colour, closes the menu and clears the selection. *)
Theorem handleHighlightSelection_success (w : World) (book_id : string)
    (st : ViewerState) (color cfi txt : string) (anns : gmap string Annotation) :
  selectionCfiRange st = Some cfi -> Js.truthy cfi = true ->
  selectionText st = Some txt -> Js.truthy txt = true ->
  bookRef w = true ->
  renditionRef w = Some anns ->
  storage_ok w ->
  engine_fault (env w) (engine_calls w) = None ->
  let id := uuid (env w) (uuids w) in
  let h := Highlight.mk id book_id cfi txt color None
             (clock (env w) (2 + ticks w)) (clock (env w) (3 + ticks w)) in
  let r := handleHighlightSelection book_id st color w in
  r.1 = Return tt /\
  highlights r.2 = <[id := h]> (highlights w) /\
  currentBookHighlights (ui r.2) = currentBookHighlights (ui w) ++ [h] /\
  renditionRef r.2 =
    Some (<[cfi := Build_Annotation "highlight" cfi id "custom-highlight" color]> anns) /\
  showHighlightPopup (ui r.2) = false /\
  selectionCfiRange (ui r.2) = None /\
  selectionText (ui r.2) = None /\
  console r.2 = console w.
Proof.
  intros Hc Tc Ht Tt Hb Hr Hok He id h r.
  pose proof (handleHighlightSelection_store_ok w book_id st color cfi txt anns
                Hc Tc Ht Tt Hb Hr Hok) as H.
  cbv zeta in H. rewrite He in H. fold id h r in H. tauto.
Qed.

Lemma handleHighlightSelection_success_witness :
  let w := Demo.selecting_calm in
  let r := handleHighlightSelection "doc1" Sample.selecting "yellow" w in
  storage_ok w /\
  r.1 = Return tt /\
  highlights r.2 =
    <["uuid-0" := Highlight.mk "uuid-0" "doc1" "epubcfi(/6/4!/4/6,/1:0,/1:4)" "text"
                    "yellow" None 2 3]> (highlights w) /\
  showHighlightPopup (ui r.2) = false.
Proof.
  intros w r. split; [apply storage_ok_calm|].
  pose proof (handleHighlightSelection_success w "doc1" Sample.selecting "yellow"
                "epubcfi(/6/4!/4/6,/1:0,/1:4)" "text" ∅
                eq_refl eq_refl eq_refl eq_refl eq_refl eq_refl
                (storage_ok_calm 0) eq_refl) as H.
  cbv zeta in H. fold r in H. tauto.
Defined.

(** X10: when the store write succeeds but the engine's [annotations.add]
    throws, [handleHighlightSelection] returns normally with the record stored
    and appended to the in-memory highlights, yet with no overlay registered,
    the menu and the selection left as they were, and the failure logged as
    ["Failed to save highlight:"]. *)
Theorem handleHighlightSelection_overlay_failure (w : World) (book_id : string)
    (st : ViewerState) (color cfi txt : string) (anns : gmap string Annotation)
    (e : Exn) :
  selectionCfiRange st = Some cfi -> Js.truthy cfi = true ->
  selectionText st = Some txt -> Js.truthy txt = true ->
  bookRef w = true ->
  renditionRef w = Some anns ->
  storage_ok w ->
  engine_fault (env w) (engine_calls w) = Some e ->
  let id := uuid (env w) (uuids w) in
  let h := Highlight.mk id book_id cfi txt color None
             (clock (env w) (2 + ticks w)) (clock (env w) (3 + ticks w)) in
  let r := handleHighlightSelection book_id st color w in
  r.1 = Return tt /\
  highlights r.2 = <[id := h]> (highlights w) /\
  currentBookHighlights (ui r.2) = currentBookHighlights (ui w) ++ [h] /\
  renditionRef r.2 = Some anns /\
  showHighlightPopup (ui r.2) = showHighlightPopup (ui w) /\
  selectionCfiRange (ui r.2) = selectionCfiRange (ui w) /\
  selectionText (ui r.2) = selectionText (ui w) /\
  console r.2 = console w ++ [console_error "Failed to save highlight:" e].
Proof.
  intros Hc Tc Ht Tt Hb Hr Hok He id h r.
  pose proof (handleHighlightSelection_store_ok w book_id st color cfi txt anns
                Hc Tc Ht Tt Hb Hr Hok) as H.
  cbv zeta in H. rewrite He in H. fold id h r in H. tauto.
Qed.

Lemma handleHighlightSelection_overlay_failure_witness :
  let w := Demo.selecting_brittle in
  let r := handleHighlightSelection "doc1" Sample.selecting "yellow" w in
  storage_ok w /\
  engine_fault (env w) (engine_calls w) = Some (Error "overlay") /\
  r.1 = Return tt /\
  renditionRef r.2 = Some ∅ /\
  console r.2 = console w ++ [console_error "Failed to save highlight:" (Error "overlay")].
Proof.
  intros w r. split; [intros k _; reflexivity|]. split; [reflexivity|].
  pose proof (handleHighlightSelection_overlay_failure w "doc1" Sample.selecting "yellow"
                "epubcfi(/6/4!/4/6,/1:0,/1:4)" "text" ∅ (Error "overlay")
                eq_refl eq_refl eq_refl eq_refl eq_refl eq_refl
                (fun k _ => eq_refl) eq_refl) as H.
  cbv zeta in H. fold r in H. tauto.
Defined.

(** X11: with a highlight active, the rendition mounted, an engine that does
    not throw and no storage request rejected, [handleRemoveHighlight] removes
    the overlay under the active position reference, deletes the record of the
    active id, drops every in-memory highlight with that id, closes the menu
    and clears the active highlight. *)
Theorem handleRemoveHighlight_success (w : World) (st : ViewerState)
    (id cfi : string) (anns : gmap string Annotation) :
  activeHighlightId st = Some id -> Js.truthy id = true ->
  activeHighlightCfiRange st = Some cfi -> Js.truthy cfi = true ->
  renditionRef w = Some anns ->
  engine_fault (env w) (engine_calls w) = None ->
  storage_ok w ->
  let r := handleRemoveHighlight st w in
  r.1 = Return tt /\
  renditionRef r.2 = Some (delete cfi anns) /\
  highlights r.2 = delete id (highlights w) /\
  currentBookHighlights (ui r.2) =
    List.filter (id_differs id) (currentBookHighlights (ui w)) /\
  (forall hl, hl ∈ currentBookHighlights (ui r.2) -> Highlight.id hl <> id) /\
  showHighlightPopup (ui r.2) = false /\
  activeHighlightId (ui r.2) = None /\
  activeHighlightCfiRange (ui r.2) = None /\
  trace r.2 = trace w ++ [OverlayRemove cfi; StoreDelete "highlights" id].
Proof.
  intros Hi Ti Hc Tc Hr He Hok r. subst r. unfold_ops.
  rewrite Hi, Hc, Hr, Ti, Tc. cbn. rewrite Hr, He. cbn.
  rewrite (storage_ok_from_here _ _ Hok). cbn.
  rewrite (storage_ok_from_here _ _ (storage_ok_from_S _ _ Hok)). cbn.
  rewrite <- app_assoc.
  repeat split.
  intros hl Hin. apply list_elem_of_In, filter_In in Hin as [_ Hd].
  unfold id_differs in Hd. apply negb_true_iff, String.eqb_neq in Hd. exact Hd.
Qed.

Lemma handleRemoveHighlight_success_witness :
  let r := handleRemoveHighlight Sample.active Demo.active_calm in
  storage_ok Demo.active_calm /\
  r.1 = Return tt /\
  highlights r.2 = delete "h1" (highlights Demo.active_calm) /\
  currentBookHighlights (ui r.2) =
    List.filter (id_differs "h1") (currentBookHighlights (ui Demo.active_calm)).
Proof.
  intros r. split; [apply storage_ok_calm|].
  pose proof (handleRemoveHighlight_success Demo.active_calm Sample.active "h1"
                (Highlight.cfiRange Sample.hello) _
                eq_refl eq_refl eq_refl eq_refl eq_refl eq_refl (storage_ok_calm 0)) as H.
  cbv zeta in H. fold r in H. tauto.
Defined.

(** X12: when the overlay was removed but a storage request of
    [deleteHighlight] is rejected, [handleRemoveHighlight] returns normally
    with the overlay gone while the record is still stored and still listed in
    memory, the menu still open on it, and the rejection logged. *)
Theorem handleRemoveHighlight_store_failure (w : World) (st : ViewerState)
    (id cfi : string) (anns : gmap string Annotation) (e : Exn) :
  activeHighlightId st = Some id -> Js.truthy id = true ->
  activeHighlightCfiRange st = Some cfi -> Js.truthy cfi = true ->
  renditionRef w = Some anns ->
  engine_fault (env w) (engine_calls w) = None ->
  idb_fault (env w) (requests w) = Some e \/
  (idb_fault (env w) (requests w) = None /\
   idb_fault (env w) (S (requests w)) = Some e) ->
  let r := handleRemoveHighlight st w in
  r.1 = Return tt /\
  renditionRef r.2 = Some (delete cfi anns) /\
  highlights r.2 = highlights w /\
  ui r.2 = ui w /\
  console r.2 = console w ++ [console_error "Failed to remove highlight:" e].
Proof.
  intros Hi Ti Hc Tc Hr He Hf r. subst r. unfold_ops.
  rewrite Hi, Hc, Hr, Ti, Tc. cbn. rewrite Hr, He. cbn.
  destruct Hf as [Hf | [Hf1 Hf2]].
  - rewrite Hf. cbn. repeat split.
  - rewrite Hf1. cbn. rewrite Hf2. cbn. repeat split.
Qed.

Lemma handleRemoveHighlight_store_failure_witness :
  let r := handleRemoveHighlight Sample.active Demo.active_offline in
  r.1 = Return tt /\
  renditionRef r.2 = Some (delete (Highlight.cfiRange Sample.hello)
                             {[Highlight.cfiRange Sample.hello := Sample.hello_overlay]}) /\
  highlights r.2 = highlights Demo.active_offline /\
  ui r.2 = ui Demo.active_offline /\
  console r.2 = console Demo.active_offline ++
    [console_error "Failed to remove highlight:" (DOMException "QuotaExceededError")].
Proof.
  intros r.
  apply (handleRemoveHighlight_store_failure Demo.active_offline Sample.active "h1"
           (Highlight.cfiRange Sample.hello) _ (DOMException "QuotaExceededError")
           eq_refl eq_refl eq_refl eq_refl eq_refl eq_refl).
  left. reflexivity.
Defined.

(** X13: [handleRemoveHighlightById] looks the id up in the in-memory
    highlights of its render only: for an id not listed there it does nothing,
    whatever the store holds. *)
Theorem handleRemoveHighlightById_unlisted (w : World) (st : ViewerState)
    (highlightId : string) :
  (forall hl, hl ∈ currentBookHighlights st -> Highlight.id hl <> highlightId) ->
  handleRemoveHighlightById st highlightId w = (Return tt, w).
Proof.
  intros Hno. unfold handleRemoveHighlightById.
  destruct (find _ _) as [hl|] eqn:E.
  - apply find_some in E as [Hin Heq]. apply String.eqb_eq in Heq.
    destruct (Hno hl); [apply list_elem_of_In, Hin | exact Heq].
  - unfold_ops. destruct (renditionRef w); reflexivity.
Qed.

Lemma handleRemoveHighlightById_unlisted_witness :
  (forall hl, hl ∈ currentBookHighlights Sample.active -> Highlight.id hl <> "h3") /\
  handleRemoveHighlightById Sample.active "h3" Sample.library
    = (Return tt, Sample.library).
Proof.
  assert (H : forall hl, hl ∈ currentBookHighlights Sample.active ->
                         Highlight.id hl <> "h3").
  { intros hl Hin. apply list_elem_of_singleton in Hin as ->. discriminate. }
  split; [exact H|].
  apply (handleRemoveHighlightById_unlisted Sample.library Sample.active "h3"), H.
Defined.

(** X14: for an id listed in memory, with the rendition mounted, an engine
    that does not throw and no storage request rejected,
    [handleRemoveHighlightById] removes the overlay of the first listed
    highlight with that id, deletes the record, and drops the id from the
    in-memory highlights; it closes the menu and clears the active highlight
    exactly when the removed id is the active one. *)
Theorem handleRemoveHighlightById_success (w : World) (st : ViewerState)
    (highlightId : string) (toRemove : Highlight.t) (anns : gmap string Annotation) :
  List.find (fun hl => String.eqb (Highlight.id hl) highlightId)
    (currentBookHighlights st) = Some toRemove ->
  renditionRef w = Some anns ->
  engine_fault (env w) (engine_calls w) = None ->
  storage_ok w ->
  let r := handleRemoveHighlightById st highlightId w in
  r.1 = Return tt /\
  renditionRef r.2 = Some (delete (Highlight.cfiRange toRemove) anns) /\
  highlights r.2 = delete highlightId (highlights w) /\
  currentBookHighlights (ui r.2) =
    List.filter (id_differs highlightId) (currentBookHighlights (ui w)) /\
  (activeHighlightId st = Some highlightId ->
   showHighlightPopup (ui r.2) = false /\
   activeHighlightId (ui r.2) = None /\
   activeHighlightCfiRange (ui r.2) = None) /\
  (activeHighlightId st <> Some highlightId ->
   showHighlightPopup (ui r.2) = showHighlightPopup (ui w) /\
   activeHighlightId (ui r.2) = activeHighlightId (ui w) /\
   activeHighlightCfiRange (ui r.2) = activeHighlightCfiRange (ui w)).
Proof.
  intros Hf Hr He Hok r. subst r. unfold handleRemoveHighlightById.
  rewrite Hf. unfold_ops. rewrite Hr. cbn. rewrite Hr, He. cbn.
  rewrite (storage_ok_from_here _ _ Hok). cbn.
  rewrite (storage_ok_from_here _ _ (storage_ok_from_S _ _ Hok)). cbn.
  destruct (bool_decide (activeHighlightId st = Some highlightId)) eqn:E; cbn.
  - apply bool_decide_eq_true_1 in E. do 4 (split; [reflexivity|]).
    split; [intros _; repeat split | intros Hne; contradiction].
  - apply bool_decide_eq_false_1 in E. do 4 (split; [reflexivity|]).
    split; [intros Ha; contradiction | intros _; repeat split].
Qed.

Lemma handleRemoveHighlightById_success_witness :
  let r := handleRemoveHighlightById Sample.active "h1" Demo.active_calm in
  storage_ok Demo.active_calm /\
  r.1 = Return tt /\
  highlights r.2 = delete "h1" (highlights Demo.active_calm) /\
  currentBookHighlights (ui r.2) =
    List.filter (id_differs "h1") (currentBookHighlights (ui Demo.active_calm)).
Proof.
  intros r. split; [apply storage_ok_calm|].
  pose proof (handleRemoveHighlightById_success Demo.active_calm Sample.active "h1"
                Sample.hello _ eq_refl eq_refl eq_refl (storage_ok_calm 0)) as H.
  cbv zeta in H. fold r in H. tauto.
Defined.

(** ** Loading the highlights into the viewer *)

Lemma draw_all_cons anns hl hls :
  draw_all anns (hl :: hls) =
  draw_all (if Js.truthy (Highlight.cfiRange hl)
            then <[Highlight.cfiRange hl := overlay_of hl]> anns else anns) hls.
Proof. reflexivity. Qed.

(** Every annotation after drawing was there before or is the overlay of a
    drawn highlight, filed under its position reference. *)
Lemma draw_all_origin hls : forall anns cfi a,
  draw_all anns hls !! cfi = Some a ->
  anns !! cfi = Some a \/
  exists hl, hl ∈ hls /\ a = overlay_of hl /\ cfi = Highlight.cfiRange hl.
Proof.
  induction hls as [|hl hls IH]; intros anns cfi a H; [left; exact H|].
  rewrite draw_all_cons in H. apply IH in H as [H | (hl' & Hin & Ha & Hc)].
  - destruct (Js.truthy (Highlight.cfiRange hl)); [|left; exact H].
    destruct (decide (Highlight.cfiRange hl = cfi)) as [E|E].
    + rewrite E, lookup_insert_eq in H. injection H as <-.
      right. exists hl. split; [left|]. auto.
    + rewrite lookup_insert_ne in H by exact E. left. exact H.
  - right. exists hl'. split; [right; exact Hin|]. auto.
Qed.

Lemma draw_all_is_Some hls : forall anns cfi,
  is_Some (anns !! cfi) -> is_Some (draw_all anns hls !! cfi).
Proof.
  induction hls as [|hl hls IH]; intros anns cfi H; [exact H|].
  rewrite draw_all_cons. apply IH.
  destruct (Js.truthy (Highlight.cfiRange hl)); [|exact H].
  rewrite lookup_insert_is_Some. destruct (decide (Highlight.cfiRange hl = cfi)); auto.
Qed.

(** Every drawn highlight with a non-empty position reference has an overlay
    under it: its own, or that of a later highlight on the same range. *)
Lemma draw_all_covers hls : forall anns hl,
  hl ∈ hls -> Js.truthy (Highlight.cfiRange hl) = true ->
  exists hl', hl' ∈ hls /\ Highlight.cfiRange hl' = Highlight.cfiRange hl /\
    draw_all anns hls !! Highlight.cfiRange hl = Some (overlay_of hl').
Proof.
  induction hls as [|x hls IH]; intros anns hl Hin Ht; [inversion Hin|].
  rewrite draw_all_cons.
  destruct (decide (hl ∈ hls)) as [Hlater|Hnot].
  - destruct (IH (if Js.truthy (Highlight.cfiRange x)
                  then <[Highlight.cfiRange x := overlay_of x]> anns else anns)
                hl Hlater Ht) as (hl' & Hin' & Hc & Hl).
    exists hl'. split; [right; exact Hin'|]. auto.
  - apply elem_of_cons in Hin as [-> | Hin]; [|contradiction].
    rewrite Ht.
    destruct (draw_all (<[Highlight.cfiRange x := overlay_of x]> anns) hls
                !! Highlight.cfiRange x) as [a|] eqn:E.
    + pose proof E as E'.
      apply draw_all_origin in E as [E | (hl' & Hin' & -> & Hc)].
      * rewrite lookup_insert_eq in E. injection E as <-.
        exists x. split; [left|]. auto.
      * exists hl'. split; [right; exact Hin'|]. auto.
    + destruct (draw_all_is_Some hls (<[Highlight.cfiRange x := overlay_of x]> anns)
                  (Highlight.cfiRange x)) as [a Ha].
      * rewrite lookup_insert_eq. eauto.
      * congruence.
Qed.

Lemma forEach_draw_loaded_ok hls : forall w anns,
  renditionRef w = Some anns ->
  engine_ok w ->
  exists w',
    forEach draw_loaded hls w = (Return tt, w') /\
    renditionRef w' = Some (draw_all anns hls) /\
    highlights w' = highlights w /\
    ui w' = ui w /\
    console w' = console w.
Proof.
  induction hls as [|hl hls IH]; intros w anns Hr Hok.
  - exists w. repeat split. exact Hr.
  - cbn [forEach]. rewrite draw_all_cons.
    destruct (Js.truthy (Highlight.cfiRange hl)) eqn:Ht.
    + set (w1 := record_effect
         (set_renditionRef (count_engine_call w)
            (Some (<[Highlight.cfiRange hl := overlay_of hl]> anns)))
         (OverlayAdd (Highlight.cfiRange hl) (Highlight.id hl))).
      assert (Hstep : draw_loaded hl w = (Return tt, w1)).
      { unfold draw_loaded, annotations_add, gets. rewrite bind_run. rewrite Hr, Ht, Hr.
        rewrite (Hok (engine_calls w)) by lia. reflexivity. }
      erewrite bind_return by exact Hstep.
      destruct (IH w1 (<[Highlight.cfiRange hl := overlay_of hl]> anns))
        as (w' & Hrun & Hr' & Hh & Hu & Hc); [reflexivity | |].
      { intros k Hk. apply Hok. simpl in Hk. lia. }
      exists w'. auto.
    + assert (Hstep : draw_loaded hl w = (Return tt, w)).
      { unfold draw_loaded, gets. rewrite bind_run. rewrite Hr, Ht. reflexivity. }
      erewrite bind_return by exact Hstep.
      apply IH; assumption.
Qed.

(** X15: with the rendition mounted, a non-empty book id, no storage request
    rejected and an engine that does not throw, [loadAndDisplayHighlights]
    sets the in-memory highlights to what [getHighlightsByBook] resolves to
    and registers overlays for them: afterwards every loaded highlight with a
    non-empty position reference has an overlay under that reference (its own,
    or that of a later highlight on the same range), and every annotation is
    one that was there before or the overlay of a loaded highlight. The store
    is not changed. *)
Theorem loadAndDisplayHighlights_success (w : World) (book_id : string)
    (anns : gmap string Annotation) :
  Js.truthy book_id = true ->
  renditionRef w = Some anns ->
  storage_ok w ->
  engine_ok w ->
  exists w' anns',
    loadAndDisplayHighlights book_id w = (Return tt, w') /\
    highlights w' = highlights w /\
    currentBookHighlights (ui w') = book_range w book_id /\
    renditionRef w' = Some anns' /\
    (forall hl, hl ∈ book_range w book_id ->
       Js.truthy (Highlight.cfiRange hl) = true ->
       exists hl', hl' ∈ book_range w book_id /\
         Highlight.cfiRange hl' = Highlight.cfiRange hl /\
         anns' !! Highlight.cfiRange hl = Some (overlay_of hl')) /\
    (forall cfi a, anns' !! cfi = Some a ->
       anns !! cfi = Some a \/
       exists hl, hl ∈ book_range w book_id /\ a = overlay_of hl /\
         cfi = Highlight.cfiRange hl).
Proof.
  intros Hb Hr Hok Heng.
  set (l := book_range w book_id).
  set (w1 := count_request (count_request (tick (count_request w)))).
  destruct (forEach_draw_loaded_ok l
              (set_ui w1 (Build_ViewerState (selectionCfiRange (ui w1))
                 (selectionText (ui w1)) (showHighlightPopup (ui w1)) l
                 (activeHighlightId (ui w1)) (activeHighlightCfiRange (ui w1)))) anns)
    as (w' & Hrun & Hr' & Hh & Hu & Hc); [exact Hr | exact Heng |].
  exists w', (draw_all anns l).
  split.
  - unfold loadAndDisplayHighlights, gets. rewrite bind_run. rewrite Hr, Hb.
    unfold try_catch.
    erewrite bind_return by (apply getHighlightsByBook_ok, Hok).
    fold l w1. unfold setCurrentBookHighlights, modify. rewrite bind_run.
    rewrite Hrun. reflexivity.
  - split; [rewrite Hh; reflexivity|].
    split; [rewrite Hu; reflexivity|].
    split; [exact Hr'|]. split.
    + intros hl Hin Ht. apply draw_all_covers; assumption.
    + intros cfi a. apply draw_all_origin.
Qed.

Lemma loadAndDisplayHighlights_success_witness :
  storage_ok Demo.opened /\ engine_ok Demo.opened /\
  exists w' anns',
    loadAndDisplayHighlights "doc1" Demo.opened = (Return tt, w') /\
    highlights w' = highlights Demo.opened /\
    currentBookHighlights (ui w') = book_range Demo.opened "doc1" /\
    renditionRef w' = Some anns' /\
    (forall hl, hl ∈ book_range Demo.opened "doc1" ->
       Js.truthy (Highlight.cfiRange hl) = true ->
       exists hl', hl' ∈ book_range Demo.opened "doc1" /\
         Highlight.cfiRange hl' = Highlight.cfiRange hl /\
         anns' !! Highlight.cfiRange hl = Some (overlay_of hl')) /\
    (forall cfi a, anns' !! cfi = Some a ->
       (∅ : gmap string Annotation) !! cfi = Some a \/
       exists hl, hl ∈ book_range Demo.opened "doc1" /\ a = overlay_of hl /\
         cfi = Highlight.cfiRange hl).
Proof.
  split; [apply storage_ok_calm|]. split; [apply engine_ok_calm|].
  apply (loadAndDisplayHighlights_success Demo.opened "doc1" ∅).
  - reflexivity.
  - reflexivity.
  - apply storage_ok_calm.
  - apply engine_ok_calm.
Defined.

Example loadAndDisplayHighlights_opened :
  let w' := (loadAndDisplayHighlights "doc1" Demo.opened).2 in
  currentBookHighlights (ui w') = [Sample.hello] /\
  renditionRef w' = Some {[Highlight.cfiRange Sample.hello := Sample.hello_overlay]}.
Proof. vm_compute. split; reflexivity. Qed.

(** X16: with the rendition mounted and a non-empty book id, when the
    database cannot be opened [loadAndDisplayHighlights] returns normally,
    leaves the in-memory highlights, the annotations and the store as they
    were, and logs the rejection under
    ["Failed to load and display highlights:"]. *)
Theorem loadAndDisplayHighlights_storage_failure (w : World) (book_id : string)
    (anns : gmap string Annotation) (e : Exn) :
  renditionRef w = Some anns ->
  Js.truthy book_id = true ->
  idb_fault (env w) (requests w) = Some e ->
  let r := loadAndDisplayHighlights book_id w in
  r.1 = Return tt /\
  ui r.2 = ui w /\
  renditionRef r.2 = renditionRef w /\
  highlights r.2 = highlights w /\
  console r.2 =
    console w ++ [console_error "Failed to load and display highlights:" e].
Proof.
  intros Hr Hb Hf r. subst r. unfold loadAndDisplayHighlights, gets. rewrite bind_run.
  rewrite Hr, Hb.
  unfold try_catch, getHighlightsByBook, initDB.
  erewrite bind_throw.
  2:{ apply bind_throw. apply request_rejected, Hf. }
  cbn. repeat split. exact Hr.
Qed.

Lemma loadAndDisplayHighlights_storage_failure_witness :
  idb_fault (env Demo.active_offline) (requests Demo.active_offline)
    = Some (DOMException "QuotaExceededError") /\
  let r := loadAndDisplayHighlights "doc1" Demo.active_offline in
  r.1 = Return tt /\
  ui r.2 = ui Demo.active_offline /\
  renditionRef r.2 = renditionRef Demo.active_offline /\
  highlights r.2 = highlights Demo.active_offline /\
  console r.2 = console Demo.active_offline ++
    [console_error "Failed to load and display highlights:"
       (DOMException "QuotaExceededError")].
Proof.
  split; [reflexivity|].
  apply (loadAndDisplayHighlights_storage_failure Demo.active_offline "doc1"
           {[Highlight.cfiRange Sample.hello := Sample.hello_overlay]}
           (DOMException "QuotaExceededError")); reflexivity.
Defined.

(** ** The panel: the preview of a text *)

Lemma substring_0_length (n : nat) : forall s,
  String.length (String.substring 0 n s) = Nat.min n (String.length s).
Proof.
  induction n as [|n IH]; intros [|c s]; simpl; try reflexivity.
  rewrite IH. reflexivity.
Qed.

Lemma substring_0_prefix (n : nat) : forall s,
  exists rest, s = String.substring 0 n s +:+ rest.
Proof.
  induction n as [|n IH]; intros [|c s]; simpl.
  - exists EmptyString. reflexivity.
  - exists (String c s). reflexivity.
  - exists EmptyString. reflexivity.
  - destruct (IH s) as [rest Hrest]. exists rest. norm_append. congruence.
Qed.

Lemma substring_0_all (n : nat) : forall s,
  (String.length s <= n)%nat -> String.substring 0 n s = s.
Proof.
  induction n as [|n IH]; intros [|c s] H; simpl in *; try reflexivity; [lia|].
  rewrite IH by lia. reflexivity.
Qed.

Lemma append_length (a b : string) :
  String.length (a +:+ b) = (String.length a + String.length b)%nat.
Proof. induction a as [|c a IH]; norm_append; simpl; [reflexivity | rewrite IH; reflexivity]. Qed.

Lemma append_nil_r (a : string) : a +:+ EmptyString = a.
Proof. induction a as [|c a IH]; norm_append; [reflexivity | rewrite IH; reflexivity]. Qed.

(** X17: the preview of a highlight's text in the panel is the text itself
    when it has at most 100 code units, and otherwise its first 100 code units
    followed by ["..."]: it never has more than 103 code units. *)
Theorem text_preview_bounded (text : string) :
  (String.length (text_preview text) <= 103)%nat /\
  ((String.length text <= 100)%nat -> text_preview text = text) /\
  ((100 < String.length text)%nat ->
   exists first rest,
     text = first +:+ rest /\ String.length first = 100%nat /\
     text_preview text = first +:+ "...").
Proof.
  unfold text_preview. split; [|split].
  - rewrite append_length, substring_0_length.
    destruct (100 <? String.length text)%nat;
      [change (String.length "...") with 3%nat
      |change (String.length EmptyString) with 0%nat]; lia.
  - intros H. rewrite substring_0_all by exact H.
    rewrite (proj2 (Nat.ltb_ge _ _) H). apply append_nil_r.
  - intros H. rewrite (proj2 (Nat.ltb_lt _ _) H).
    destruct (substring_0_prefix 100 text) as [rest Hrest].
    exists (String.substring 0 100 text), rest.
    split; [exact Hrest|]. split; [|reflexivity].
    rewrite substring_0_length. lia.
Qed.

Lemma text_preview_bounded_witness :
  ((String.length "hello world" <= 100)%nat /\
   text_preview "hello world" = "hello world") /\
  ((100 < String.length Demo.long_text)%nat /\
   exists first rest,
     Demo.long_text = first +:+ rest /\ String.length first = 100%nat /\
     text_preview Demo.long_text = first +:+ "...").
Proof.
  split.
  - split; [simpl; lia|].
    apply (text_preview_bounded "hello world"). simpl. lia.
  - assert (Hlong : (100 < String.length Demo.long_text)%nat).
    { vm_compute. repeat constructor. }
    split; [exact Hlong|].
    apply (text_preview_bounded Demo.long_text), Hlong.
Defined.

Example text_preview_long :
  text_preview Demo.long_text =
  "It was on a dreary night of November that I beheld the accomplishment of my toils, with an anxiety t...".
Proof. vm_compute. reflexivity. Qed.

(** ** A preload that succeeds *)

Lemma last_segment_no_slash (s : string) : Js.has_slash (Js.last_segment s) = false.
Proof.
  induction s as [|c s IH]; [reflexivity|].
  cbn [Js.last_segment]. destruct (Js.has_slash (String c s)) eqn:E; [exact IH | exact E].
Qed.

(** X19: on a start where the flag is not set, the fetch answers with an ok
    response, the EPUB parses and no storage request is rejected,
    [preloadBook] stores the parsed book under its id, logs the success and
    sets the flag. The file handed to the parser is named after the last
    segment of the path, or ['book.epub'] when that is empty: the name is never
    empty and never contains a slash. *)
Theorem preloadBook_success (w : World) (epubPath statusText : string)
    (blob : string) (book : Book.t) :
  localStorage w !! "preloadDone" <> Some "true" ->
  fetch_outcome (env w) epubPath = FetchResponse true statusText (inr blob) ->
  let name := if Js.truthy (Js.last_segment epubPath)
              then Js.last_segment epubPath else "book.epub" in
  parseEpub_outcome (env w) (Build_File blob name "application/epub+zip") = inr book ->
  storage_ok w ->
  let r := preloadBook epubPath w in
  r.1 = Return tt /\
  books r.2 = <[Book.id book := book]> (books w) /\
  localStorage r.2 = <["preloadDone" := "true"]> (localStorage w) /\
  console r.2 =
    console w ++ [console_log "Successfully preloaded book:" (Book.title book)] /\
  Js.truthy name = true /\ Js.has_slash name = false.
Proof.
  intros Hflag Hfetch name Hparse Hok r. subst r. unfold_preload.
  rewrite bool_decide_eq_false_2 by exact Hflag.
  rewrite Hfetch. cbn. fold name. rewrite Hparse. cbn.
  rewrite (storage_ok_from_here _ _ Hok). cbn.
  rewrite (storage_ok_from_here _ _ (storage_ok_from_S _ _ Hok)). cbn.
  do 4 (split; [reflexivity|]). subst name.
  destruct (Js.truthy (Js.last_segment epubPath)) eqn:E.
  - split; [exact E | apply last_segment_no_slash].
  - split; reflexivity.
Qed.

Lemma preloadBook_success_witness :
  let r := preloadBook "/asimov/example.epub" Sample.fresh in
  localStorage Sample.fresh !! "preloadDone" <> Some "true" /\
  storage_ok Sample.fresh /\
  r.1 = Return tt /\
  books r.2 =
    <["book-1" := Book.mk "book-1" "example.epub" [] EmptyString EmptyString "PK"
                    EmptyString 0 0 None]> (books Sample.fresh) /\
  localStorage r.2 = <["preloadDone" := "true"]> (localStorage Sample.fresh).
Proof.
  intros r.
  assert (H : localStorage Sample.fresh !! "preloadDone" <> Some "true").
  { vm_compute. discriminate. }
  split; [exact H|]. split; [apply storage_ok_calm|].
  pose proof (preloadBook_success Sample.fresh "/asimov/example.epub" "OK" "PK"
                (Book.mk "book-1" "example.epub" [] EmptyString EmptyString "PK"
                   EmptyString 0 0 None)
                H eq_refl eq_refl (storage_ok_calm 0)) as Hs.
  cbv zeta in Hs. fold r in Hs. tauto.
Defined.

(** ** The route action *)

(** X20: [clientAction] makes no request and changes nothing for a method
    other than DELETE. For DELETE, when no storage request is rejected, it
    removes the book of the route, leaves the highlights store as it is (the
    book's highlights stay behind) and redirects to the library. *)
Theorem clientAction_delete_only (w : World) (method bookId : string) :
  (method <> "DELETE" -> clientAction method bookId w = (Return None, w)) /\
  (method = "DELETE" -> storage_ok w ->
   exists w',
     clientAction method bookId w = (Return (Some "/"), w') /\
     books w' = delete bookId (books w) /\
     highlights w' = highlights w).
Proof.
  unfold clientAction. split.
  - intros H. apply String.eqb_neq in H. rewrite H. reflexivity.
  - intros -> Hok. rewrite String.eqb_refl.
    erewrite bind_return by (apply deleteBook_ok, Hok).
    eexists. split; [reflexivity|]. split; reflexivity.
Qed.

Lemma clientAction_delete_only_witness :
  "POST" <> "DELETE" /\ storage_ok Sample.library /\
  clientAction "POST" "doc1" Sample.library = (Return None, Sample.library) /\
  exists w',
    clientAction "DELETE" "doc1" Sample.library = (Return (Some "/"), w') /\
    books w' = delete "doc1" (books Sample.library) /\
    highlights w' = highlights Sample.library.
Proof.
  split; [discriminate|]. split; [apply storage_ok_calm|]. split.
  - apply (clientAction_delete_only Sample.library "POST" "doc1"). discriminate.
  - apply (clientAction_delete_only Sample.library "DELETE" "doc1");
      [reflexivity | apply storage_ok_calm].
Defined.

(** ** Running computations on the world and the rest *)

Lemma bindN_run {A B} (m : N A) (f : A -> N B) (s : World * Rest) :
  (m ≫= f) s =
  match m s with
  | (Return a, s') => f a s'
  | (Throw e, s') => (Throw e, s')
  end.
Proof. reflexivity. Qed.

Lemma bindN_return {A B} (m : N A) (f : A -> N B) (s s' : World * Rest) (a : A) :
  m s = (Return a, s') -> (m ≫= f) s = f a s'.
Proof. intros H. rewrite bindN_run, H. reflexivity. Qed.

Lemma lift_request_ok (w : World) (r : Rest) :
  storage_ok w -> lift request (w, r) = (Return tt, (count_request w, r)).
Proof. intros H. unfold lift. simpl. rewrite (request_ok w H). reflexivity. Qed.

Ltac unfold_N :=
  cbv [handleSaveNote handleOpenNoteEditor handleEditNoteForHighlight cancelNote
       setShowNoteEditor setCurrentNoteText console_error_text_ find_by_id
       lift try_catch_N gets_rest modify_rest updateHighlight initDB
       Idb.put_highlights setCurrentBookHighlights setShowHighlightPopup
       setActiveHighlightId console_error_ newDate request gets modify
       mbind N_bind M_bind mret N_ret M_ret mthrow N_throw M_throw fst snd].

(** ** Saving a note *)

Lemma find_by_id_id (id : string) (hls : list Highlight.t) (hl : Highlight.t) :
  find_by_id id hls = Some hl -> Highlight.id hl = id /\ hl ∈ hls.
Proof.
  unfold find_by_id. intros H. apply find_some in H as [Hin Heq].
  split; [apply String.eqb_eq, Heq | apply list_elem_of_In, Hin].
Qed.

Lemma handleSaveNote_run (w : World) (rest : Rest) (st : ViewerState)
    (noteText id : string) (hl : Highlight.t) :
  activeHighlightId st = Some id -> Js.truthy id = true ->
  find_by_id id (currentBookHighlights st) = Some hl ->
  storage_ok w ->
  let saved := with_note hl noteText (clock (env w) (S (ticks w))) in
  let r := handleSaveNote st noteText (w, rest) in
  r.1 = Return tt /\
  highlights r.2.1 = <[id := saved]> (highlights w) /\
  currentBookHighlights (ui r.2.1) = replace_by_id id saved (currentBookHighlights (ui w)) /\
  activeHighlightId (ui r.2.1) = None /\
  r.2.2 = set_showNoteEditor rest false /\
  Highlight.id saved = id.
Proof.
  intros Ha Ta Hf Hok saved r. subst r saved.
  destruct (find_by_id_id _ _ _ Hf) as [Hid _].
  unfold handleSaveNote. rewrite Ha. unfold Js.truthy_opt. rewrite Ta, Hf.
  unfold_N. cbn.
  rewrite (storage_ok_from_here _ _ Hok). cbn.
  rewrite (storage_ok_from_here _ _ (storage_ok_from_S _ _ Hok)). cbn.
  rewrite Hid. repeat split.
Qed.

(** X21: with a highlight active and listed in memory and no storage request
    rejected, [handleSaveNote] replaces the stored record of that id by the
    in-memory record carrying the note (an empty text is stored as an empty
    note) and the [updatedAt] that [updateHighlight] read from the clock; it
    puts that same record in place of every in-memory highlight of the id,
    closes the editor and clears the active highlight. Id, book, position
    reference, text, colour and [createdAt] are those of the in-memory
    record. *)
Theorem handleSaveNote_success (w : World) (rest : Rest) (st : ViewerState)
    (noteText id : string) (hl : Highlight.t) :
  activeHighlightId st = Some id -> Js.truthy id = true ->
  find_by_id id (currentBookHighlights st) = Some hl ->
  storage_ok w ->
  let saved := with_note hl noteText (clock (env w) (S (ticks w))) in
  let r := handleSaveNote st noteText (w, rest) in
  r.1 = Return tt /\
  highlights r.2.1 = <[id := saved]> (highlights w) /\
  currentBookHighlights (ui r.2.1) = replace_by_id id saved (currentBookHighlights (ui w)) /\
  activeHighlightId (ui r.2.1) = None /\
  showNoteEditor r.2.2 = false /\
  Highlight.note saved = Some noteText /\
  Highlight.id saved = id /\
  Highlight.bookId saved = Highlight.bookId hl /\
  Highlight.cfiRange saved = Highlight.cfiRange hl /\
  Highlight.text saved = Highlight.text hl /\
  Highlight.color saved = Highlight.color hl /\
  Highlight.createdAt saved = Highlight.createdAt hl.
Proof.
  intros Ha Ta Hf Hok saved r.
  destruct (handleSaveNote_run w rest st noteText id hl Ha Ta Hf Hok)
    as (H1 & H2 & H3 & H4 & H5 & H6).
  fold saved r in H1, H2, H3, H4, H5, H6.
  split; [exact H1|]. split; [exact H2|]. split; [exact H3|]. split; [exact H4|].
  split; [rewrite H5; reflexivity|]. split; [reflexivity|]. split; [exact H6|].
  repeat split.
Qed.

Lemma handleSaveNote_success_witness :
  let r := handleSaveNote Sample.active "remember this"
             (Demo.active_calm, DemoRest.editing) in
  storage_ok Demo.active_calm /\
  r.1 = Return tt /\
  highlights r.2.1 =
    <["h1" := with_note Sample.hello "remember this" 1]> (highlights Demo.active_calm) /\
  showNoteEditor r.2.2 = false.
Proof.
  intros r. split; [apply storage_ok_calm|].
  pose proof (handleSaveNote_success Demo.active_calm DemoRest.editing Sample.active
                "remember this" "h1" Sample.hello eq_refl eq_refl eq_refl
                (storage_ok_calm 0)) as H.
  cbv zeta in H. fold r in H. tauto.
Defined.

(** X22: when a storage request of [updateHighlight] is rejected,
    [handleSaveNote] returns normally with the store, the in-memory highlights,
    the active highlight and the editor as they were (the editor stays open),
    and logs the rejection. *)
Theorem handleSaveNote_storage_failure (w : World) (rest : Rest) (st : ViewerState)
    (noteText id : string) (hl : Highlight.t) (e : Exn) :
  activeHighlightId st = Some id -> Js.truthy id = true ->
  find_by_id id (currentBookHighlights st) = Some hl ->
  idb_fault (env w) (requests w) = Some e \/
  (idb_fault (env w) (requests w) = None /\
   idb_fault (env w) (S (requests w)) = Some e) ->
  let r := handleSaveNote st noteText (w, rest) in
  r.1 = Return tt /\
  highlights r.2.1 = highlights w /\
  ui r.2.1 = ui w /\
  r.2.2 = rest /\
  console r.2.1 = console w ++ [console_error "Failed to save note:" e].
Proof.
  intros Ha Ta Hf Hfault r. subst r.
  unfold handleSaveNote. rewrite Ha. unfold Js.truthy_opt. rewrite Ta, Hf.
  unfold_N. cbn.
  destruct Hfault as [H1 | [H1 H2]].
  - rewrite H1. cbn. repeat split.
  - rewrite H1. cbn. rewrite H2. cbn. repeat split.
Qed.

Lemma handleSaveNote_storage_failure_witness :
  let r := handleSaveNote Sample.active "remember this"
             (Demo.active_offline, DemoRest.editing) in
  r.1 = Return tt /\
  highlights r.2.1 = highlights Demo.active_offline /\
  ui r.2.1 = ui Demo.active_offline /\
  r.2.2 = DemoRest.editing /\
  console r.2.1 = console Demo.active_offline ++
    [console_error "Failed to save note:" (DOMException "QuotaExceededError")].
Proof.
  intros r.
  apply (handleSaveNote_storage_failure Demo.active_offline DemoRest.editing
           Sample.active "remember this" "h1" Sample.hello
           (DOMException "QuotaExceededError") eq_refl eq_refl eq_refl).
  left. reflexivity.
Defined.

(** X23: when the active id is not among the in-memory highlights of the
    render, [handleSaveNote] makes no storage request and changes nothing in
    the world: it logs that the highlight was not found and closes the editor,
    leaving the active highlight set. *)
Theorem handleSaveNote_unlisted (w : World) (rest : Rest) (st : ViewerState)
    (noteText id : string) :
  activeHighlightId st = Some id -> Js.truthy id = true ->
  find_by_id id (currentBookHighlights st) = None ->
  handleSaveNote st noteText (w, rest) =
    (Return tt,
     (w, set_showNoteEditor
           (log_console_text rest
              (console_error_text "Highlight not found for saving note" []))
           false)).
Proof.
  intros Ha Ta Hf. unfold handleSaveNote. rewrite Ha. unfold Js.truthy_opt.
  rewrite Ta, Hf. reflexivity.
Qed.

Lemma handleSaveNote_unlisted_witness :
  let st := Build_ViewerState None None false [Sample.hello] (Some "h9") None in
  find_by_id "h9" (currentBookHighlights st) = None /\
  handleSaveNote st "remember this" (Sample.library, DemoRest.editing) =
    (Return tt,
     (Sample.library,
      set_showNoteEditor
        (log_console_text DemoRest.editing
           (console_error_text "Highlight not found for saving note" []))
        false)).
Proof.
  intros st. split; [reflexivity|].
  apply (handleSaveNote_unlisted Sample.library DemoRest.editing st "remember this" "h9");
    reflexivity.
Defined.

Lemma find_by_id_replace (id : string) (saved hl : Highlight.t) (l : list Highlight.t) :
  Highlight.id saved = id ->
  find_by_id id l = Some hl ->
  find_by_id id (replace_by_id id saved l) = Some saved.
Proof.
  intros Hs. unfold find_by_id, replace_by_id.
  induction l as [|x l IH]; simpl; [discriminate|].
  destruct (String.eqb (Highlight.id x) id) eqn:E.
  - intros _. rewrite Hs, String.eqb_refl. reflexivity.
  - rewrite E. exact IH.
Qed.

(** X24: a saved note is what the editor shows when it is reopened. After
    [handleSaveNote] has saved a text for the active highlight (no storage
    request rejected), [handleEditNoteForHighlight] for the same id, run on the
    state the save left, opens the editor on exactly that text and makes the
    highlight active again. *)
Theorem saved_note_reopens (w : World) (rest : Rest) (noteText id : string)
    (hl : Highlight.t) :
  activeHighlightId (ui w) = Some id -> Js.truthy id = true ->
  find_by_id id (currentBookHighlights (ui w)) = Some hl ->
  storage_ok w ->
  let s1 := (handleSaveNote (ui w) noteText (w, rest)).2 in
  let s2 := (handleEditNoteForHighlight (ui s1.1) id s1).2 in
  currentNoteText s2.2 = noteText /\
  showNoteEditor s2.2 = true /\
  activeHighlightId (ui s2.1) = Some id /\
  highlights s2.1 = highlights s1.1.
Proof.
  intros Ha Ta Hf Hok s1 s2.
  destruct (handleSaveNote_run w rest (ui w) noteText id hl Ha Ta Hf Hok)
    as (_ & _ & H3 & _ & H5 & H6).
  fold s1 in H3, H5.
  pose proof (find_by_id_replace id _ hl _ H6 Hf) as Hfind.
  rewrite <- H3 in Hfind.
  subst s2. unfold handleEditNoteForHighlight.
  destruct s1 as [w1 r1]. simpl in *. rewrite Hfind.
  unfold_N. cbn. repeat split.
  destruct noteText; reflexivity.
Qed.

Lemma saved_note_reopens_witness :
  let s1 := (handleSaveNote (ui Demo.active_calm) "remember this"
               (Demo.active_calm, DemoRest.editing)).2 in
  let s2 := (handleEditNoteForHighlight (ui s1.1) "h1" s1).2 in
  storage_ok Demo.active_calm /\
  currentNoteText s2.2 = "remember this" /\
  showNoteEditor s2.2 = true /\
  activeHighlightId (ui s2.1) = Some "h1" /\
  highlights s2.1 = highlights s1.1.
Proof.
  intros s1 s2. split; [apply storage_ok_calm|].
  apply (saved_note_reopens Demo.active_calm DemoRest.editing "remember this" "h1"
           Sample.hello eq_refl eq_refl eq_refl (storage_ok_calm 0)).
Defined.

(** ** Chats and settings *)

Lemma sort_insert_Permutation {A} (compare : A -> A -> Z) (x : A) (l : list A) :
  sort_insert compare x l ≡ₚ x :: l.
Proof.
  induction l as [|y l IH]; simpl; [reflexivity|].
  destruct (compare x y <? 0); [reflexivity|].
  rewrite IH. apply Permutation_swap.
Qed.

Lemma array_sort_Permutation {A} (compare : A -> A -> Z) (l : list A) :
  array_sort compare l ≡ₚ l.
Proof.
  unfold array_sort.
  assert (H : forall acc, foldl (fun sorted x => sort_insert compare x sorted) acc l
                          ≡ₚ acc ++ l).
  { induction l as [|x l IH]; intros acc; simpl.
    - rewrite app_nil_r. reflexivity.
    - rewrite IH, sort_insert_Permutation. apply Permutation_middle. }
  apply (H []).
Qed.

Lemma sort_insert_newer_first (x : Chat.t) (l : list Chat.t) :
  StronglySorted newer_first l ->
  StronglySorted newer_first (sort_insert most_recent_first x l).
Proof.
  induction 1 as [|y l Hl IH Hy]; simpl; [repeat constructor|].
  unfold most_recent_first at 1.
  destruct (Chat.updatedAt y - Chat.updatedAt x <? 0) eqn:E.
  - apply Z.ltb_lt in E. constructor; [constructor; assumption|].
    constructor; [unfold newer_first; lia|].
    rewrite List.Forall_forall in *. intros z Hz. specialize (Hy z Hz).
    unfold newer_first in *. lia.
  - apply Z.ltb_ge in E. constructor; [exact IH|].
    rewrite List.Forall_forall in *. intros z Hz.
    apply list_elem_of_In in Hz. rewrite sort_insert_Permutation in Hz.
    apply elem_of_cons in Hz as [-> | Hz].
    + unfold newer_first. lia.
    + apply Hy, list_elem_of_In, Hz.
Qed.

Lemma array_sort_newer_first (l : list Chat.t) :
  StronglySorted newer_first (array_sort most_recent_first l).
Proof.
  unfold array_sort.
  assert (H : forall acc, StronglySorted newer_first acc ->
    StronglySorted newer_first
      (foldl (fun sorted x => sort_insert most_recent_first x sorted) acc l)).
  { induction l as [|x l IH]; intros acc Hacc; simpl; [exact Hacc|].
    apply IH, sort_insert_newer_first, Hacc. }
  apply H. constructor.
Qed.

Lemma elem_of_chats_of_book (store : gmap string Chat.t) (b : string) (c : Chat.t) :
  c ∈ chats_of_book store b <-> (exists k, store !! k = Some c) /\ Chat.bookId c = b.
Proof.
  unfold chats_of_book. rewrite list_elem_of_filter, merge_sort_Permutation.
  rewrite elem_of_records. tauto.
Qed.

Lemma chats_cursor_loop_ok cursor : forall acc w r,
  storage_ok w ->
  exists w',
    chats_cursor_loop cursor acc (w, r) = (Return (acc ++ cursor), (w', r)) /\
    storage_ok w'.
Proof.
  induction cursor as [|value rest IH]; intros acc w r H; simpl.
  - exists w. rewrite app_nil_r. split; [reflexivity | exact H].
  - erewrite bindN_return by (apply lift_request_ok, H).
    destruct (IH (acc ++ [value]) (count_request w) r) as (w' & Hrun & Hok');
      [apply storage_ok_count_request, H|].
    exists w'. rewrite Hrun, <- app_assoc. split; [reflexivity | exact Hok'].
Qed.

Lemma getChatsByBookId_ok (w : World) (r : Rest) (bookId : string) :
  storage_ok w ->
  exists w',
    getChatsByBookId bookId (w, r) =
      (Return (array_sort most_recent_first (chats_of_book (chats r) bookId)), (w', r)).
Proof.
  intros Hok. unfold getChatsByBookId, initDB.
  erewrite bindN_return by (apply lift_request_ok, Hok).
  erewrite bindN_return
    by (apply lift_request_ok, storage_ok_count_request, Hok).
  unfold gets_rest at 1. rewrite bindN_run. cbn [snd].
  destruct (chats_cursor_loop_ok (chats_of_book (chats r) bookId) []
              (count_request (count_request w)) r) as (w' & Hrun & _).
  { repeat apply storage_ok_count_request. exact Hok. }
  erewrite bindN_return by exact Hrun.
  exists w'. reflexivity.
Qed.

Lemma chats_cursor_loop_run cursor : forall acc w r,
  storage_ok w ->
  chats_cursor_loop cursor acc (w, r) =
    (Return (acc ++ cursor), (Nat.iter (length cursor) count_request w, r)).
Proof.
  induction cursor as [|value rest IH]; intros acc w r Hok; simpl.
  - rewrite app_nil_r. reflexivity.
  - erewrite bindN_return by (apply lift_request_ok, Hok).
    rewrite IH by (apply storage_ok_count_request, Hok).
    rewrite <- app_assoc. simpl. do 2 f_equal.
    clear. induction (length rest) as [|n IHn]; simpl; [reflexivity|].
    rewrite IHn. reflexivity.
Qed.

(** Requests are counted and nothing else of the world moves. *)
Lemma iter_count_request_frame (n : nat) (w : World) :
  let w' := Nat.iter n count_request w in
  books w' = books w /\ highlights w' = highlights w /\
  localStorage w' = localStorage w /\ ui w' = ui w /\
  renditionRef w' = renditionRef w /\ console w' = console w /\
  trace w' = trace w /\ ticks w' = ticks w /\
  requests w' = (n + requests w)%nat.
Proof.
  induction n as [|n IH]; simpl; [repeat split|].
  destruct IH as (H1 & H2 & H3 & H4 & H5 & H6 & H7 & H8 & H9).
  repeat split; simpl; try assumption. rewrite H9. reflexivity.
Qed.

(** X25: when no storage request is rejected, [getChatsByBookId] returns the
    stored chats of the book, each once, the most recently updated first, and
    changes nothing: the stores of books, highlights, chats and settings,
    [localStorage], the component state, the annotations, the console and the
    log of effects are as before; only the requests made are counted (the
    opening of the database, the opening of the cursor and one advance per
    chat). *)
Theorem getChatsByBookId_most_recent_first (w : World) (r : Rest) (bookId : string) :
  storage_ok w ->
  exists result w',
    getChatsByBookId bookId (w, r) = (Return result, (w', r)) /\
    result ≡ₚ filter (fun c => Chat.bookId c = bookId) (Idb.records (chats r)) /\
    StronglySorted (fun a b => Chat.updatedAt b <= Chat.updatedAt a) result /\
    books w' = books w /\ highlights w' = highlights w /\
    localStorage w' = localStorage w /\ ui w' = ui w /\
    renditionRef w' = renditionRef w /\ console w' = console w /\
    trace w' = trace w /\
    requests w' = (2 + length result + requests w)%nat.
Proof.
  intros Hok. unfold getChatsByBookId, initDB.
  erewrite bindN_return by (apply lift_request_ok, Hok).
  erewrite bindN_return
    by (apply lift_request_ok, storage_ok_count_request, Hok).
  unfold gets_rest at 1. rewrite bindN_run. cbn [snd].
  erewrite bindN_return.
  2:{ apply chats_cursor_loop_run. repeat apply storage_ok_count_request. exact Hok. }
  eexists _, _. split; [reflexivity|].
  assert (Hperm : array_sort most_recent_first (chats_of_book (chats r) bookId)
                  ≡ₚ chats_of_book (chats r) bookId)
    by apply array_sort_Permutation.
  split.
  { rewrite Hperm. unfold chats_of_book. rewrite merge_sort_Permutation. reflexivity. }
  split; [apply array_sort_newer_first|].
  destruct (iter_count_request_frame (length (chats_of_book (chats r) bookId))
              (count_request (count_request w)))
    as (H1 & H2 & H3 & H4 & H5 & H6 & H7 & _ & H9).
  simpl in *.
  repeat split; try assumption.
  rewrite H9, (Permutation_length Hperm). lia.
Qed.

Lemma getChatsByBookId_most_recent_first_witness :
  storage_ok Sample.library /\
  exists result w',
    getChatsByBookId "doc1" (Sample.library, DemoRest.talking)
      = (Return result, (w', DemoRest.talking)) /\
    result ≡ₚ filter (fun c => Chat.bookId c = "doc1")
                (Idb.records (chats DemoRest.talking)) /\
    StronglySorted (fun a b => Chat.updatedAt b <= Chat.updatedAt a) result /\
    books w' = books Sample.library /\ highlights w' = highlights Sample.library /\
    localStorage w' = localStorage Sample.library /\ ui w' = ui Sample.library /\
    renditionRef w' = renditionRef Sample.library /\
    console w' = console Sample.library /\
    trace w' = trace Sample.library /\
    requests w' = (2 + length result + requests Sample.library)%nat.
Proof.
  split; [apply storage_ok_calm|].
  apply (getChatsByBookId_most_recent_first Sample.library DemoRest.talking "doc1"),
    storage_ok_calm.
Defined.

(** X26: when no storage request is rejected, [getLatestChatByBookId]
    returns nothing exactly when the store holds no chat of the book, and
    otherwise a stored chat of the book that no other chat of the book
    exceeds in [updatedAt]. *)
Theorem getLatestChatByBookId_latest (w : World) (r : Rest) (bookId : string) :
  storage_ok w ->
  exists result w',
    getLatestChatByBookId bookId (w, r) = (Return result, (w', r)) /\
    (result = None <->
     forall k c, chats r !! k = Some c -> Chat.bookId c <> bookId) /\
    (forall latest, result = Some latest ->
       (exists k, chats r !! k = Some latest) /\
       Chat.bookId latest = bookId /\
       forall k c, chats r !! k = Some c -> Chat.bookId c = bookId ->
         Chat.updatedAt c <= Chat.updatedAt latest).
Proof.
  intros Hok. destruct (getChatsByBookId_ok w r bookId Hok) as [w' Hrun].
  unfold getLatestChatByBookId. erewrite bindN_return by exact Hrun.
  pose proof (array_sort_Permutation most_recent_first (chats_of_book (chats r) bookId))
    as Hperm.
  pose proof (array_sort_newer_first (chats_of_book (chats r) bookId)) as Hsorted.
  assert (Hmem : forall c, c ∈ array_sort most_recent_first (chats_of_book (chats r) bookId)
                 <-> (exists k, chats r !! k = Some c) /\ Chat.bookId c = bookId).
  { intros c. rewrite Hperm. apply elem_of_chats_of_book. }
  destruct (array_sort most_recent_first (chats_of_book (chats r) bookId))
    as [|latest others].
  - eexists _, w'. split; [reflexivity|]. split; [|discriminate].
    split; [|reflexivity]. intros _ k c Hk Hb.
    assert (Hin : c ∈ ([] : list Chat.t)) by (apply Hmem; eauto).
    inversion Hin.
  - eexists _, w'. split; [reflexivity|]. split.
    + split; [discriminate|]. intros Hnone. exfalso.
      assert (Hin : latest ∈ latest :: others) by left.
      apply Hmem in Hin as [[k Hk] Hb]. exact (Hnone k latest Hk Hb).
    + intros ? [= <-].
      assert (Hin : latest ∈ latest :: others) by left.
      apply Hmem in Hin as [Hstored Hb]. split; [exact Hstored|]. split; [exact Hb|].
      intros k c Hk Hc.
      assert (Hin : c ∈ latest :: others) by (apply Hmem; eauto).
      apply elem_of_cons in Hin as [-> | Hin]; [lia|].
      apply StronglySorted_cons in Hsorted as [Hall _].
      rewrite Forall_forall in Hall. exact (Hall c Hin).
Qed.

Lemma getLatestChatByBookId_latest_witness :
  storage_ok Sample.library /\
  exists result w',
    getLatestChatByBookId "doc1" (Sample.library, DemoRest.talking)
      = (Return result, (w', DemoRest.talking)) /\
    (result = None <->
     forall k c, chats DemoRest.talking !! k = Some c -> Chat.bookId c <> "doc1") /\
    (forall latest, result = Some latest ->
       (exists k, chats DemoRest.talking !! k = Some latest) /\
       Chat.bookId latest = "doc1" /\
       forall k c, chats DemoRest.talking !! k = Some c -> Chat.bookId c = "doc1" ->
         Chat.updatedAt c <= Chat.updatedAt latest).
Proof.
  split; [apply storage_ok_calm|].
  apply (getLatestChatByBookId_latest Sample.library DemoRest.talking "doc1"),
    storage_ok_calm.
Defined.

Example getLatestChatByBookId_talking :
  (getLatestChatByBookId "doc1" (Sample.library, DemoRest.talking)).1
  = Return (Some (DemoRest.chat "c2" "doc1" 9)).
Proof. vm_compute. reflexivity. Qed.

(** X27: when no storage request is rejected, [getSettings] after
    [saveSettings] returns the settings just saved, filed under the fixed id
    ['llm-settings'] with [updatedAt] read from the clock, whatever was saved
    before. *)
Theorem saveSettings_then_getSettings (w : World) (r : Rest)
    (apiKey baseUrl modelName : string) :
  storage_ok w ->
  exists s',
    (saveSettings apiKey baseUrl modelName ;; getSettings) (w, r) =
      (Return (Some (Settings.mk "llm-settings" apiKey baseUrl modelName
                       (clock (env w) (ticks w)))), s') /\
    chats s'.2 = chats r /\ highlights s'.1 = highlights w /\ books s'.1 = books w.
Proof.
  intros Hok.
  pose proof (storage_ok_from_here _ _ Hok) as H0.
  pose proof (storage_ok_from_here _ _ (storage_ok_from_S _ _ Hok)) as H1.
  pose proof (storage_ok_from_here _ _
                (storage_ok_from_S _ _ (storage_ok_from_S _ _ Hok))) as H2.
  pose proof (storage_ok_from_here _ _
                (storage_ok_from_S _ _
                   (storage_ok_from_S _ _ (storage_ok_from_S _ _ Hok)))) as H3.
  cbv [saveSettings getSettings initDB newDate modify_rest gets_rest modify lift
       request mbind N_bind M_bind mret N_ret M_ret fst snd].
  rewrite H0. cbn. rewrite H1. cbn. rewrite H2. cbn. rewrite H3. cbn.
  rewrite lookup_insert_eq. eexists. split; [reflexivity|]. repeat split.
Qed.

Lemma saveSettings_then_getSettings_witness :
  storage_ok Sample.fresh /\
  exists s',
    (saveSettings "key" "https://llm.example" "flash" ;; getSettings)
      (Sample.fresh, DemoRest.closed) =
      (Return (Some (Settings.mk "llm-settings" "key" "https://llm.example" "flash"
                       (clock (env Sample.fresh) (ticks Sample.fresh)))), s') /\
    chats s'.2 = chats DemoRest.closed /\
    highlights s'.1 = highlights Sample.fresh /\ books s'.1 = books Sample.fresh.
Proof.
  split; [apply storage_ok_calm|].
  apply (saveSettings_then_getSettings Sample.fresh DemoRest.closed
           "key" "https://llm.example" "flash"), storage_ok_calm.
Defined.

(** ** The library route *)

(** Whatever happens, [preloadBook] returns normally with the flag set. *)
Lemma preloadBook_flag (w : World) (epubPath : string) :
  (preloadBook epubPath w).1 = Return tt /\
  localStorage (preloadBook epubPath w).2 !! "preloadDone" = Some "true".
Proof.
  unfold_preload.
  destruct (bool_decide (localStorage w !! "preloadDone" = Some "true")) eqn:Hflag.
  { apply bool_decide_eq_true_1 in Hflag. split; [reflexivity | exact Hflag]. }
  destruct (fetch_outcome (env w) epubPath) as [e|ok statusText body];
    [cbn; split; [reflexivity | apply lookup_insert_eq]|].
  destruct ok; [|cbn; split; [reflexivity | apply lookup_insert_eq]].
  destruct body as [e|blob]; [cbn; split; [reflexivity | apply lookup_insert_eq]|]. cbn.
  destruct (parseEpub_outcome (env w) _) as [e|book];
    [cbn; split; [reflexivity | apply lookup_insert_eq]|]. cbn.
  destruct (idb_fault (env w) (requests w));
    [cbn; split; [reflexivity | apply lookup_insert_eq]|]. cbn.
  destruct (idb_fault (env w) (S (requests w)));
    cbn; split; try reflexivity; apply lookup_insert_eq.
Qed.

Lemma preloadBook_flagged (w : World) (epubPath : string) :
  localStorage w !! "preloadDone" = Some "true" ->
  preloadBook epubPath w = (Return tt, w).
Proof.
  intros Hflag. unfold_preload.
  rewrite bool_decide_eq_true_2 by exact Hflag. reflexivity.
Qed.

(** X28: once [preloadBook] has run, with whatever outcome,
    [handleRestoreDefaultBook] restores nothing: it clears the
    ['defaultBookDeleted'] flag and returns without fetching or storing
    anything, so both stores are exactly as the preload left them. *)
Theorem handleRestoreDefaultBook_after_preload (w : World) (epubPath base_url : string) :
  let w1 := (preloadBook epubPath w).2 in
  handleRestoreDefaultBook base_url w1 =
    (Return tt, set_localStorage w1 (delete "defaultBookDeleted" (localStorage w1))) /\
  books (handleRestoreDefaultBook base_url w1).2 = books w1 /\
  highlights (handleRestoreDefaultBook base_url w1).2 = highlights w1 /\
  requests (handleRestoreDefaultBook base_url w1).2 = requests w1.
Proof.
  intros w1.
  assert (Hrun : handleRestoreDefaultBook base_url w1 =
    (Return tt, set_localStorage w1 (delete "defaultBookDeleted" (localStorage w1)))).
  { unfold handleRestoreDefaultBook, localStorage_removeItem, modify.
    rewrite bind_run. apply preloadBook_flagged. simpl.
    rewrite lookup_delete_ne by discriminate.
    apply (proj2 (preloadBook_flag w epubPath)). }
  rewrite Hrun. repeat split.
Qed.

Lemma preloadBook_success_run (w : World) (epubPath statusText : string)
    (blob : string) (book : Book.t) :
  localStorage w !! "preloadDone" <> Some "true" ->
  fetch_outcome (env w) epubPath = FetchResponse true statusText (inr blob) ->
  parseEpub_outcome (env w)
    (Build_File blob
       (if Js.truthy (Js.last_segment epubPath)
        then Js.last_segment epubPath else "book.epub")
       "application/epub+zip") = inr book ->
  storage_ok w ->
  exists w1,
    preloadBook epubPath w = (Return tt, w1) /\
    books w1 = <[Book.id book := book]> (books w) /\
    storage_ok w1.
Proof.
  intros Hflag Hfetch Hparse Hok. unfold_preload.
  rewrite bool_decide_eq_false_2 by exact Hflag.
  rewrite Hfetch. cbn. rewrite Hparse. cbn.
  rewrite (storage_ok_from_here _ _ Hok). cbn.
  rewrite (storage_ok_from_here _ _ (storage_ok_from_S _ _ Hok)). cbn.
  eexists. split; [reflexivity|]. split; [reflexivity|].
  unfold storage_ok. simpl. auto with storage.
Qed.

(** X29: on a start where the flag is not set, the fetch of
    [example.epub] answers with an ok response, the EPUB parses and no storage
    request is rejected, the library's [clientLoader] returns a list that
    contains the preloaded book; once the flag is set it returns what
    [getAllBooks] returns, without fetching. *)
Theorem clientLoader_library_lists_preloaded (w : World) (base_url statusText : string)
    (blob : string) (book : Book.t) :
  (localStorage w !! "preloadDone" = Some "true" ->
   clientLoader_library base_url w = getAllBooks w) /\
  (localStorage w !! "preloadDone" <> Some "true" ->
   fetch_outcome (env w) (base_url +:+ "example.epub")
     = FetchResponse true statusText (inr blob) ->
   parseEpub_outcome (env w)
     (Build_File blob
        (if Js.truthy (Js.last_segment (base_url +:+ "example.epub"))
         then Js.last_segment (base_url +:+ "example.epub") else "book.epub")
        "application/epub+zip") = inr book ->
   storage_ok w ->
   exists result w',
     clientLoader_library base_url w = (Return result, w') /\ book ∈ result).
Proof.
  unfold clientLoader_library. split.
  - intros Hflag. erewrite bind_return by (apply preloadBook_flagged, Hflag).
    reflexivity.
  - intros Hflag Hfetch Hparse Hok.
    destruct (preloadBook_success_run w _ statusText blob book Hflag Hfetch Hparse Hok)
      as (w1 & Hrun & Hbooks & Hok1).
    erewrite bind_return by exact Hrun.
    destruct (getAllBooks_ok w1 Hok1) as (w' & Hall & _).
    eexists _, w'. split; [exact Hall|].
    rewrite (proj1 (books_most_recent_first (books w1))).
    apply elem_of_records. exists (Book.id book). rewrite Hbooks.
    apply lookup_insert_eq.
Qed.

Lemma clientLoader_library_lists_preloaded_witness :
  let book := Book.mk "book-1" "example.epub" [] EmptyString EmptyString "PK"
                EmptyString 0 0 None in
  localStorage Sample.fresh !! "preloadDone" <> Some "true" /\
  storage_ok Sample.fresh /\
  exists result w',
    clientLoader_library "/asimov/" Sample.fresh = (Return result, w') /\
    book ∈ result.
Proof.
  intros book.
  assert (H : localStorage Sample.fresh !! "preloadDone" <> Some "true").
  { vm_compute. discriminate. }
  split; [exact H|]. split; [apply storage_ok_calm|].
  apply (clientLoader_library_lists_preloaded Sample.fresh "/asimov/" "OK" "PK" book);
    [exact H | reflexivity | reflexivity | apply storage_ok_calm].
Defined.
